(** * Backup and replication health reporting: status normalisation

  A shallow embedding of the decision logic of two command line tools,
  [scripts/syncoid-list.py] (ZFS replication status, from Prometheus or
  from systemd over SSH) and [scripts/backup-status.py] (the dashboard
  for pgBackRest, Syncoid and Restic), together with the properties of
  the health verdict they compute.

  Python values are embedded as follows.
  - [float] is IEEE binary64, that is Rocq's primitive [float]; the
    comparisons and the arithmetic are the primitive ones, so NaN and
    the infinities behave as in Python.
  - [int] is [Z]; [Optional[T]] is [option T]; [str] is [string], the
    text in UTF-8: the substring test, the splits at an ASCII separator
    and the order of [<] are then the ones of Python. [str.lower] on
    arbitrary text needs the case tables of Unicode, which are no part
    of this development: the filters take it from the environment
    ([SyncoidList.str_lower]), and [Py.lower] is its restriction to
    ASCII text.
  - a [dict] read through [.get] is a [gmap]; the [jobs] dictionary,
    whose insertion order is observable through [list(jobs.values())],
    is an association list.
  - the wall clock, the console and uncaught exceptions are explicit:
    see [SyncoidList.World] and [SyncoidList.M]. *)

From Stdlib Require Import Floats ZArith String Ascii List Bool Lia Sorted.
From stdpp Require Import base option list gmap strings pretty.
Import ListNotations.

Local Open Scope Z_scope.
Local Open Scope string_scope.

(** ** Python primitives shared by the scripts *)

Module Py.

(** The exceptions that the modelled code can raise. *)
Inductive exn : Set :=
| ValueError
| OverflowError
| TypeError
| IndexError
| KeyError.

(** How a call ends: it returns a value or an exception escapes. *)
Inductive outcome (A : Type) : Type :=
| Return (a : A)
| Raise (e : exn).
Arguments Return {A} a.
Arguments Raise {A} e.

(** [float(n)] for an [int] literal; exact for [0 <= n < 2^53], which
    covers every constant of the scripts. Python compares a float with
    such an int by value, hence through this conversion. *)
Definition float_of_int (n : Z) : float :=
  PrimFloat.of_uint63 (Uint63.of_Z n).

(** [x > n], [x < n] and [x == n] for a float [x] and an int [n]. *)
Definition float_gt_int (x : float) (n : Z) : bool :=
  PrimFloat.ltb (float_of_int n) x.
Definition float_lt_int (x : float) (n : Z) : bool :=
  PrimFloat.ltb x (float_of_int n).
Definition float_eq_int (x : float) (n : Z) : bool :=
  PrimFloat.eqb x (float_of_int n).

(** [x <= n], which the scripts do not use; the properties state the
  near side of a threshold with it. *)
Definition float_le_int (x : float) (n : Z) : bool :=
  PrimFloat.leb x (float_of_int n).

(** [x / n] for a float [x] and an int [n]. *)
Definition float_div_int (x : float) (n : Z) : float :=
  PrimFloat.div x (float_of_int n).

(** [int(x)]: truncation toward zero; NaN raises [ValueError], an
    infinity raises [OverflowError]. *)
Definition int_of_float (x : float) : outcome Z :=
  match Prim2SF x with
  | S754_zero _ => Return 0
  | S754_infinity _ => Raise OverflowError
  | S754_nan => Raise ValueError
  | S754_finite s m e =>
      let magnitude := Z.shiftl (Z.pos m) e in
      Return (if s then - magnitude else magnitude)
  end.

(** [bool(x)] for a float: false exactly for [0.0] and [-0.0]. *)
Definition float_truthy (x : float) : bool :=
  negb (PrimFloat.eqb x PrimFloat.zero).

(** [c.lower()] on one ASCII character. *)
Definition lower_ascii (c : ascii) : ascii :=
  let n := nat_of_ascii c in
  if ((65 <=? n) && (n <=? 90))%nat then ascii_of_nat (n + 32) else c.

(** [s.lower()] for ASCII text [s]; the scripts apply it to their own
    status texts. *)
Fixpoint lower (s : string) : string :=
  match s with
  | EmptyString => EmptyString
  | String c s' => String (lower_ascii c) (lower s')
  end.

(** [needle in hay] on strings. *)
Fixpoint contains (needle hay : string) : bool :=
  String.prefix needle hay ||
  match hay with
  | EmptyString => false
  | String _ hay' => contains needle hay'
  end.

(** [bool(s)] for a string. *)
Definition str_truthy (s : string) : bool :=
  negb (String.eqb s "").

(** [s.split(sep)] for a one-character separator. *)
Fixpoint split (sep : ascii) (s : string) : list string :=
  match s with
  | EmptyString => [EmptyString]
  | String c s' =>
      if Ascii.eqb c sep then EmptyString :: split sep s'
      else match split sep s' with
           | [] => [String c EmptyString]
           | p :: ps => String c p :: ps
           end
  end.

(** [s.rsplit(sep, 1)] when it has two parts: the text before and
    after the last [sep]; [None] when [sep] does not occur. *)
Fixpoint rsplit1 (sep : ascii) (s : string) : option (string * string) :=
  match s with
  | EmptyString => None
  | String c s' =>
      match rsplit1 sep s' with
      | Some (before, after) => Some (String c before, after)
      | None => if Ascii.eqb c sep then Some (EmptyString, s') else None
      end
  end.

(** [sorted(l, key=key)] and [l.sort(key=key)]: stable and ascending
  for the order [lt] on keys (Python sorts with [<] alone). *)
Section Sorted.
Context {A K : Type} (lt : K -> K -> bool) (key : A -> K).

Fixpoint insert_by_key (x : A) (l : list A) : list A :=
  match l with
  | [] => [x]
  | y :: l' =>
      if lt (key y) (key x) then y :: insert_by_key x l'
      else x :: l
  end.

Definition sorted (l : list A) : list A :=
  foldr insert_by_key [] l.
End Sorted.

(** [<] on pairs of strings, as Python orders tuples. *)
Definition pair_ltb (a b : string * string) : bool :=
  String.ltb (fst a) (fst b) ||
  (String.eqb (fst a) (fst b) && String.ltb (snd a) (snd b)).

End Py.

Export Py(exn(..), outcome(..)).

(** ** scripts/syncoid-list.py *)

Module SyncoidList.
Import Py.

Definition DEFAULT_HOST : string := "forge".
Definition DEFAULT_DOMAIN : string := "holthome.net".
Definition DEFAULT_PROMETHEUS_URL : string := "http://forge.holthome.net:9090".

(** Stale threshold in hours. *)
Definition STALE_THRESHOLD_HOURS : Z := 2.

(** The ['value'] entry of an element of a result vector, as the
    acquisition reads it with [float(item.get('value', [0, 0])[1])].
    The entry can be missing. Prometheus sends a list, [[time, text]];
    a list (or a text) is kept as what [float] makes of each of its
    elements: a number, or the exception that [float] raises. Any
    other value cannot be indexed by [1]: a number, a boolean and null
    raise [TypeError], an object raises [KeyError]. *)
Inductive value_entry : Type :=
| Missing
| Elements (converted : list (outcome float))
| Unindexable (e : exn).

(** One element of the result vector of a Prometheus instant query:
    the label set and the sample value. *)
Record sample : Type := {
  metric : gmap string string;
  value : value_entry
}.

(** A job dictionary. Both acquisition modes build one; [instance] is
    set only by the Prometheus mode and [systemd_state] only by the
    verify mode. The key ['unit'] is the field [unit_name]. *)
Record Job : Type := {
  dataset : string;
  unit_name : string;
  target_host : string;
  target_name : string;
  target_location : string;
  status : option Z;
  last_success : option float;
  instance : option string;
  systemd_state : option string
}.

Definition set_status (v : option Z) (j : Job) : Job :=
  {| dataset := dataset j; unit_name := unit_name j;
     target_host := target_host j; target_name := target_name j;
     target_location := target_location j;
     status := v; last_success := last_success j;
     instance := instance j; systemd_state := systemd_state j |}.

Definition set_last_success (v : option float) (j : Job) : Job :=
  {| dataset := dataset j; unit_name := unit_name j;
     target_host := target_host j; target_name := target_name j;
     target_location := target_location j;
     status := status j; last_success := v;
     instance := instance j; systemd_state := systemd_state j |}.

(** *** What the script prints *)

Record json_job : Type := {
  jj_dataset : string;
  jj_unit : string;
  jj_target_host : string;
  jj_target_name : string;
  jj_target_location : string;
  jj_status : option Z;
  jj_status_text : string;
  jj_last_success : option float;
  jj_details : string
}.

Record json_summary : Type := {
  total : Z;
  ok : Z;
  running : Z;
  stale : Z;
  failed : Z;
  healthy : Z
}.

Record json_output : Type := {
  jo_host : string;
  jo_mode : string;
  jo_stale_threshold_hours : Z;
  jo_jobs : list json_job;
  jo_summary : json_summary
}.

(** A row of the table: Dataset, Target, Status, Last Success, Details. *)
Definition table_row : Type := string * string * string * string * string.

Inductive event : Type :=
| PrintJson (output : json_output)
| PrintJsonError (message : string)
| ConsolePrint (markup : string)
| ConsolePrintTable (rows : list table_row).

(** *** The clock, the console and exceptions *)

(** [clock n] is what the [n]-th call of [datetime.now().timestamp()]
    returns; [reads] counts the calls made so far; [console] is what
    has been printed so far. *)
Record World : Type := {
  clock : nat -> float;
  reads : nat;
  console : list event
}.

Definition M (A : Type) : Type := World -> outcome A * World.

Definition ret {A} (a : A) : M A := fun w => (Return a, w).

Definition bind {A B} (c : M A) (k : A -> M B) : M B :=
  fun w =>
    match c w with
    | (Return a, w') => k a w'
    | (Raise e, w') => (Raise e, w')
    end.

Declare Scope py_scope.
Delimit Scope py_scope with py.
Bind Scope py_scope with M.
Notation "'let*' x ':=' c 'in' k" := (bind c (fun x => k))
  (at level 10, x name, c at level 100, k at level 200) : py_scope.
Notation "'let*' ' pat ':=' c 'in' k" :=
  (bind c (fun x => match x with pat => k end))
  (at level 10, pat pattern, c at level 100, k at level 200) : py_scope.
Notation "'run' c 'then' k" := (bind c (fun _ => k))
  (at level 10, c at level 100, k at level 200) : py_scope.
Local Open Scope py_scope.

(** [datetime.now().timestamp()] *)
Definition datetime_now_timestamp : M float :=
  fun w => (Return (clock w (reads w)),
            {| clock := clock w; reads := S (reads w); console := console w |}).

(** The reading that the next call of the clock returns. *)
Definition now_of (w : World) : float := clock w (reads w).

Definition emit (e : event) : M () :=
  fun w => (Return tt,
            {| clock := clock w; reads := reads w; console := console w ++ [e] |}).

Definition lift {A} (r : outcome A) : M A := fun w => (r, w).

(** *** Status normalisation *)

(** Status values: 0=fail, 1=success, 2=in-progress.
    Returns (status_text, color, details). *)
Definition get_status_display (status : option Z) (last_success : option float)
  : M (string * string * string) :=
  let* now := datetime_now_timestamp in
  ret
    (if decide (status = Some 2) then
       ("RUNNING", "cyan", "Replication in progress")
     else if decide (status = Some 0) then
       ("FAILED", "red", "Last run failed")
     else if decide (status = Some 1) then
       match last_success with
       | Some last_success =>
           let age_hours := float_div_int (now - last_success)%float 3600 in
           if float_gt_int age_hours STALE_THRESHOLD_HOURS then
             ("STALE", "yellow",
              "Last success > " +:+ pretty STALE_THRESHOLD_HOURS +:+ "h ago")
           else
             ("OK", "green", "Healthy")
       | None => ("OK", "green", "Healthy (no timestamp)")
       end
     else
       match last_success with
       | Some last_success =>
           let age_hours := float_div_int (now - last_success)%float 3600 in
           if float_gt_int age_hours STALE_THRESHOLD_HOURS then
             ("STALE", "yellow",
              "Last success > " +:+ pretty STALE_THRESHOLD_HOURS +:+ "h ago")
           else
             ("UNKNOWN", "dim", "No status metric")
       | None => ("UNKNOWN", "dim", "No status metric")
       end).


(** *** Presentation helpers *)

(** Format timestamp as relative time. *)
Definition time_ago (ts : option float) : M string :=
  match ts with
  | None => ret "Never"
  | Some ts =>
      let* now := datetime_now_timestamp in
      let diff := (now - ts)%float in
      if float_lt_int diff 0 then ret "In future"
      else if float_lt_int diff 60 then ret "Just now"
      else if float_lt_int diff 3600 then
        let* n := lift (int_of_float (float_div_int diff 60)) in
        ret (pretty n +:+ "m ago")
      else if float_lt_int diff 86400 then
        let* n := lift (int_of_float (float_div_int diff 3600)) in
        ret (pretty n +:+ "h ago")
      else
        let* n := lift (int_of_float (float_div_int diff 86400)) in
        ret (pretty n +:+ "d ago")
  end.

(** Shorten dataset path for display: pool and last component. *)
Definition shorten_dataset (dataset : string) : string :=
  let parts := split "/" dataset in
  if (2 <? Z.of_nat (length parts))%Z then
    default "" (head parts) +:+ "/.../" +:+ default "" (last parts)
  else dataset.

(** *** Acquisition from Prometheus *)

(** The [jobs] dictionary, keyed by dataset, in insertion order. *)
Definition jobs_dict : Type := list (string * Job).

(** [k in jobs] *)
Fixpoint dict_mem (k : string) (jobs : jobs_dict) : bool :=
  match jobs with
  | [] => false
  | (k', _) :: jobs' => String.eqb k k' || dict_mem k jobs'
  end.

(** [jobs[k] = v]: an existing key keeps its place. *)
Fixpoint dict_set (k : string) (v : Job) (jobs : jobs_dict) : jobs_dict :=
  match jobs with
  | [] => [(k, v)]
  | (k', v') :: jobs' =>
      if String.eqb k k' then (k, v) :: jobs'
      else (k', v') :: dict_set k v jobs'
  end.

(** [jobs[k][field] = ...], as an update [f] of the job stored at [k]. *)
Fixpoint dict_update (k : string) (f : Job -> Job) (jobs : jobs_dict) : jobs_dict :=
  match jobs with
  | [] => []
  | (k', v') :: jobs' =>
      if String.eqb k k' then (k', f v') :: jobs'
      else (k', v') :: dict_update k f jobs'
  end.

(** [list(jobs.values())] *)
Definition dict_values (jobs : jobs_dict) : list Job := map snd jobs.

(** [metric.get(label, '')] *)
Definition label (name : string) (m : gmap string string) : string :=
  default "" (m !! name).

(** The first loop: one job per info sample that names a dataset. *)
Fixpoint discover_jobs (items : list sample) (jobs : jobs_dict) : jobs_dict :=
  match items with
  | [] => jobs
  | item :: items' =>
      let dataset := label "dataset" (metric item) in
      if negb (str_truthy dataset) then discover_jobs items' jobs
      else
        discover_jobs items'
          (dict_set dataset
             {| dataset := dataset;
                unit_name := label "unit" (metric item);
                target_host := label "target_host" (metric item);
                target_name := label "target_name" (metric item);
                target_location := label "target_location" (metric item);
                status := None;
                last_success := None;
                instance := Some (label "instance" (metric item));
                systemd_state := None |}
             jobs)
  end.

(** [float(item.get('value', [0, 0])[1])] *)
Definition float_of_value (item : sample) : outcome float :=
  match value item with
  | Missing => Return (float_of_int 0)
  | Elements converted =>
      match converted !! 1%nat with
      | Some x => x
      | None => Raise IndexError
      end
  | Unindexable e => Raise e
  end.

(** [int(float(item.get('value', [0, 0])[1]))] *)
Definition int_of_value (item : sample) : outcome Z :=
  match float_of_value item with
  | Return x => int_of_float x
  | Raise e => Raise e
  end.

(** [except (ValueError, TypeError): pass] *)
Definition swallowed (e : exn) : bool :=
  match e with
  | ValueError | TypeError => true
  | _ => false
  end.

(** The second loop: [jobs[dataset]['status'] = int(float(...))] under
    [try]; an exception that the [except] clause does not name
    escapes. *)
Fixpoint fetch_status (items : list sample) (jobs : jobs_dict) : outcome jobs_dict :=
  match items with
  | [] => Return jobs
  | item :: items' =>
      let dataset := label "dataset" (metric item) in
      if dict_mem dataset jobs then
        match int_of_value item with
        | Return n =>
            fetch_status items' (dict_update dataset (set_status (Some n)) jobs)
        | Raise e => if swallowed e then fetch_status items' jobs else Raise e
        end
      else fetch_status items' jobs
  end.

(** The third loop: [jobs[dataset]['last_success'] = float(...)] under
    [try]. *)
Fixpoint fetch_last_success (items : list sample) (jobs : jobs_dict)
  : outcome jobs_dict :=
  match items with
  | [] => Return jobs
  | item :: items' =>
      let dataset := label "dataset" (metric item) in
      if dict_mem dataset jobs then
        match float_of_value item with
        | Return x =>
            fetch_last_success items'
              (dict_update dataset (set_last_success (Some x)) jobs)
        | Raise e => if swallowed e then fetch_last_success items' jobs else Raise e
        end
      else fetch_last_success items' jobs
  end.

(** A service dictionary, as [discover_syncoid_services] builds it from
    the systemd properties of a unit; the fields are the keys of the
    dictionary, prefixed with [svc_]. *)
Record Service : Type := {
  svc_unit : string;
  svc_dataset : string;
  svc_active_state : string;
  svc_sub_state : string;
  svc_exit_timestamp : string;
  svc_result : string;
  svc_target_host : option string
}.

(** What the outside world answers. [query_prometheus base_url query
    api_key] is the result vector of the query, [None] when the call
    fails, is not a success or has no result; [ssh_echo_ok host] tells
    whether [ssh host "echo ok"] exits with 0;
    [discover_syncoid_services host] is the list of service
    dictionaries found on the host; [strptime_timestamp s] is
    [datetime.strptime(s, "%a %Y-%m-%d %H:%M:%S").timestamp()],
    [None] when that raises; [str_lower s] is [s.lower()], with the
    case tables of Unicode. *)
Record Env : Type := {
  query_prometheus : string -> string -> option string -> option (list sample);
  ssh_echo_ok : string -> bool;
  discover_syncoid_services : string -> list Service;
  strptime_timestamp : string -> option float;
  str_lower : string -> string
}.

(** Fetch all syncoid replication metrics from Prometheus. *)
Definition get_syncoid_metrics_from_prometheus
    (env : Env) (base_url : string) (api_key : option string)
  : outcome (list Job) :=
  let queries (name : string) : string :=
    if String.eqb name "status" then "syncoid_replication_status"
    else if String.eqb name "info" then "syncoid_replication_info"
    else "syncoid_replication_last_success_timestamp" in
  match query_prometheus env base_url (queries "info") api_key with
  | None => Return []
  | Some info =>
      let jobs := discover_jobs info [] in
      let with_status :=
        match query_prometheus env base_url (queries "status") api_key with
        | Some items => fetch_status items jobs
        | None => Return jobs
        end in
      match with_status with
      | Raise e => Raise e
      | Return jobs =>
          let with_last_success :=
            match query_prometheus env base_url (queries "last_success") api_key with
            | Some items => fetch_last_success items jobs
            | None => Return jobs
            end in
          match with_last_success with
          | Raise e => Raise e
          | Return jobs => Return (dict_values jobs)
          end
      end
  end.

(** *** Direct verification mode (via SSH) *)

(** Warm up SSH connection. *)
Definition warmup_ssh_connection (env : Env) (host : string) (quiet : bool) : M bool :=
  run (if quiet then ret tt
       else emit (ConsolePrint ("[dim]Connecting to " +:+ host +:+ "...[/dim]")))
  then ret (ssh_echo_ok env host).

(** The status and the last success of one service, from its systemd
    state. *)
Definition verify_job (env : Env) (svc : Service) : Job :=
  let status :=
    if String.eqb (svc_active_state svc) "activating" then 2
    else if String.eqb (svc_result svc) "success" then 1
    else 0 in
  let last_success :=
    if str_truthy (svc_exit_timestamp svc) && String.eqb (svc_result svc) "success" then
      match rsplit1 " " (svc_exit_timestamp svc) with
      | Some (ts_no_tz, _) => strptime_timestamp env ts_no_tz
      | None => None
      end
    else None in
  {| dataset := svc_dataset svc;
     unit_name := svc_unit svc;
     target_host :=
       match svc_target_host svc with
       | Some h => if str_truthy h then h else "unknown"
       | None => "unknown"
       end;
     target_name := "";
     target_location := "";
     status := Some status;
     last_success := last_success;
     instance := None;
     systemd_state := Some (svc_active_state svc +:+ "/" +:+ svc_sub_state svc) |}.

(** Get syncoid status by querying systemd units directly via SSH. *)
Definition get_syncoid_verify_data (env : Env) (host : string) : list Job :=
  map (verify_job env) (discover_syncoid_services env host).

(** *** Output *)

(** [stats = {'ok': 0, 'stale': 0, 'failed': 0, 'running': 0, 'unknown': 0}] *)
Definition initial_stats : gmap string Z :=
  list_to_map [("ok", 0); ("stale", 0); ("failed", 0); ("running", 0); ("unknown", 0)].

(** [stats[k] += 1] *)
Definition increment (k : string) (stats : gmap string Z) : gmap string Z :=
  <[k := stats !!! k + 1]> stats.

Definition target_display_of (job : Job) : string :=
  if str_truthy (target_name job) && str_truthy (target_location job) then
    target_name job +:+ " (" +:+ target_location job +:+ ")"
  else if str_truthy (target_host job) then target_host job
  else "unknown".

(** The loop of [print_table_output] over the sorted jobs: the final
    [stats] and the rows added to the table. *)
Fixpoint table_loop (jobs_sorted : list Job) (stats : gmap string Z)
  : M (gmap string Z * list table_row) :=
  match jobs_sorted with
  | [] => ret (stats, [])
  | job :: rest =>
      let target_display := target_display_of job in
      let* '(status_text, color, details) :=
        get_status_display (status job) (last_success job) in
      let status_lower := lower status_text in
      let stats :=
        if decide (is_Some (stats !! status_lower)) then increment status_lower stats
        else increment "unknown" stats in
      let* last_success_str :=
        match last_success job with
        | Some ts => if float_truthy ts then time_ago (Some ts) else ret "Never"
        | None => ret "Never"
        end in
      let status_colored :=
        "[bold " +:+ color +:+ "]" +:+ status_text +:+ "[/bold " +:+ color +:+ "]" in
      let dataset_short := shorten_dataset (dataset job) in
      let row := (dataset_short, target_display, status_colored, last_success_str, details) in
      let* '(stats, rows) := table_loop rest stats in
      ret (stats, row :: rows)
  end.

(** Print formatted table output. *)
Definition print_table_output (jobs : list Job) (source : string) : M () :=
  match jobs with
  | [] => emit (ConsolePrint "[yellow]No syncoid replication jobs found.[/yellow]")
  | _ =>
      let jobs_sorted := sorted String.ltb dataset jobs in
      let* '(stats, rows) := table_loop jobs_sorted initial_stats in
      run emit (ConsolePrintTable rows) then
      let total := Z.of_nat (length jobs) in
      run emit (ConsolePrint "") then
      run emit (ConsolePrint
        ("[dim]Total: " +:+ pretty total +:+
         " | OK: " +:+ pretty (stats !!! "ok") +:+
         " | Running: " +:+ pretty (stats !!! "running") +:+
         " | Stale: " +:+ pretty (stats !!! "stale") +:+
         " | Failed: " +:+ pretty (stats !!! "failed") +:+ "[/dim]")) then
      emit (ConsolePrint
        ("[dim]Data source: " +:+ source +:+
         " | Stale threshold: " +:+ pretty STALE_THRESHOLD_HOURS +:+ " hours[/dim]"))
  end.

(** The loop of [print_json_output]: the final [stats] and [output_jobs]. *)
Fixpoint json_loop (jobs : list Job) (stats : gmap string Z)
  : M (gmap string Z * list json_job) :=
  match jobs with
  | [] => ret (stats, [])
  | job :: rest =>
      let* '(status_text, _, details) :=
        get_status_display (status job) (last_success job) in
      let status_lower := lower status_text in
      let stats :=
        if decide (is_Some (stats !! status_lower)) then increment status_lower stats
        else stats in
      let output_job :=
        {| jj_dataset := dataset job;
           jj_unit := unit_name job;
           jj_target_host := target_host job;
           jj_target_name := target_name job;
           jj_target_location := target_location job;
           jj_status := status job;
           jj_status_text := status_text;
           jj_last_success := last_success job;
           jj_details := details |} in
      let* '(stats, output_jobs) := json_loop rest stats in
      ret (stats, output_job :: output_jobs)
  end.

(** The [output] dictionary that [print_json_output] serialises. *)
Definition json_output_of (jobs : list Job) (host mode : string) : M json_output :=
  let* '(stats, output_jobs) := json_loop jobs initial_stats in
  ret {| jo_host := host;
         jo_mode := mode;
         jo_stale_threshold_hours := STALE_THRESHOLD_HOURS;
         jo_jobs := output_jobs;
         jo_summary :=
           {| total := Z.of_nat (length jobs);
              ok := stats !!! "ok";
              running := stats !!! "running";
              stale := stats !!! "stale";
              failed := stats !!! "failed";
              healthy := stats !!! "ok" + stats !!! "running" |} |}.

(** Print JSON output for scripting. *)
Definition print_json_output (jobs : list Job) (host mode : string) : M () :=
  let* output := json_output_of jobs host mode in
  emit (PrintJson output).

(** *** The command line *)

Record Args : Type := {
  arg_host : string;
  arg_domain : string;
  arg_prometheus_url : string;
  arg_api_key : option string;
  arg_dataset : option string;
  arg_target : option string;
  arg_verify : bool;
  arg_json : bool
}.

(** [bool(x)] for an optional string argument. *)
Definition given (x : option string) : bool :=
  match x with
  | Some s => str_truthy s
  | None => false
  end.

(** [[j for j in jobs if needle.lower() in field(j).lower()]] *)
Definition filter_jobs (env : Env) (needle : string) (field : Job -> string)
    (jobs : list Job) : list Job :=
  List.filter (fun j => contains (str_lower env needle) (str_lower env (field j))) jobs.

(** Main function to query data and render output; returns the exit
    status. *)
Definition main (env : Env) (args : Args) : M Z :=
  let fqdn := arg_host args +:+ "." +:+ arg_domain args in
  let* acquired :=
    if arg_verify args then
      let* connected := warmup_ssh_connection env fqdn (arg_json args) in
      if negb connected then
        run (if arg_json args then
               emit (PrintJsonError ("Failed to connect to " +:+ fqdn))
             else
               emit (ConsolePrint ("[red]Failed to connect to " +:+ fqdn +:+ "[/red]")))
        then ret None
      else
        ret (Some (get_syncoid_verify_data env fqdn, "ssh://" +:+ fqdn, "verify"))
    else
      run (if negb (given (arg_api_key args)) then
             emit (ConsolePrint "[yellow]Warning: PROMETHEUS_API_KEY not set. Some endpoints may require authentication.[/yellow]")
           else ret tt)
      then
      let* jobs :=
        lift (get_syncoid_metrics_from_prometheus env
                (arg_prometheus_url args) (arg_api_key args)) in
      ret (Some (jobs, arg_prometheus_url args, "prometheus")) in
  match acquired with
  | None => ret 1
  | Some (jobs, source, mode) =>
      let jobs :=
        if given (arg_dataset args) then
          filter_jobs env (default "" (arg_dataset args)) dataset jobs
        else jobs in
      let jobs :=
        if given (arg_target args) then
          filter_jobs env (default "" (arg_target args)) target_host jobs
        else jobs in
      if arg_json args then
        run print_json_output jobs fqdn mode then ret 0
      else
        match jobs with
        | [] =>
            run emit (ConsolePrint "[yellow]No syncoid replication jobs found.[/yellow]") then
            run emit (ConsolePrint ("[dim]Data source: " +:+ source +:+ "[/dim]")) then
            ret 1
        | _ =>
            run print_table_output jobs source then ret 0
        end
  end.

(** *** Vocabulary of the properties *)

(** The verdict that [get_status_display] returns in world [w]. *)
Definition verdict (status : option Z) (last_success : option float) (w : World)
  : outcome (string * string * string) :=
  fst (get_status_display status last_success w).

(** The age in hours that [get_status_display] computes in world [w]
    from a last success time. *)
Definition age_hours (w : World) (last_success : float) : float :=
  float_div_int (now_of w - last_success)%float 3600.

(** A world whose clock always reads [t] and whose console is empty. *)
Definition world_at (t : float) : World :=
  {| clock := fun _ => t; reads := 0; console := [] |}.

(** The three verdicts that the properties name. *)
Definition UNKNOWN_verdict : string * string * string :=
  ("UNKNOWN", "dim", "No status metric").
Definition STALE_verdict : string * string * string :=
  ("STALE", "yellow", "Last success > 2h ago").
Definition FAILED_verdict : string * string * string :=
  ("FAILED", "red", "Last run failed").

(** A job dictionary is untouched at dataset [d] when every entry is
  stored under its own dataset and the entry of [d], if any, has
  neither a status nor a last success time. *)
Definition untouched_at (d : string) (jobs : jobs_dict) : Prop :=
  Forall (fun kv : string * Job =>
            dataset kv.2 = kv.1 /\
            (kv.1 = d -> status kv.2 = None /\ last_success kv.2 = None))
         jobs.

(** No sample of a result vector carries the dataset [d]. *)
Definition silent_about (d : string) (items : option (list sample)) : Prop :=
  forall l item, items = Some l -> In item l -> label "dataset" (metric item) <> d.

(** The pair of a job that decides its verdict. *)
Definition signal_of (j : Job) : option Z * option float :=
  (status j, last_success j).

(** The verdict that the JSON output carries for a job. *)
Definition json_verdict (jj : json_job) : string * string :=
  (jj_status_text jj, jj_details jj).

(** [fqdn] of [main]. *)
Definition fqdn_of (args : Args) : string :=
  arg_host args +:+ "." +:+ arg_domain args.

(** The jobs that [main] acquires and the mode it reports, [None] when
  the SSH warm-up fails or the acquisition raises. *)
Definition acquired (env : Env) (args : Args) : option (list Job * string) :=
  if arg_verify args then
    if ssh_echo_ok env (fqdn_of args) then
      Some (get_syncoid_verify_data env (fqdn_of args), "verify")
    else None
  else
    match get_syncoid_metrics_from_prometheus env
            (arg_prometheus_url args) (arg_api_key args) with
    | Return jobs => Some (jobs, "prometheus")
    | Raise _ => None
    end.

(** A filter is given and no job matches it. *)
Definition matches_none (env : Env) (needle : option string) (field : Job -> string)
    (jobs : list Job) : Prop :=
  given needle = true /\
  forall j, In j jobs ->
    contains (str_lower env (default "" needle)) (str_lower env (field j)) = false.

(** The JSON report of an empty job list. *)
Definition empty_report (host mode : string) : json_output :=
  {| jo_host := host;
     jo_mode := mode;
     jo_stale_threshold_hours := STALE_THRESHOLD_HOURS;
     jo_jobs := [];
     jo_summary :=
       {| total := 0; ok := 0; running := 0; stale := 0; failed := 0; healthy := 0 |} |}.

(** The status texts of [get_status_display], each with its colour. *)
Definition palette : list (string * string) :=
  [("RUNNING", "cyan"); ("FAILED", "red"); ("STALE", "yellow");
   ("OK", "green"); ("UNKNOWN", "dim")].

(** The number of reported jobs that carry the status text [text]. *)
Definition count_text (text : string) (outs : list json_job) : Z :=
  Z.of_nat (length (List.filter (fun jj => String.eqb (jj_status_text jj) text) outs)).

(** The jobs that [main] reports: the acquired jobs after the dataset
  filter and the target filter, in this order. *)
Definition apply_filters (env : Env) (args : Args) (jobs : list Job) : list Job :=
  let jobs :=
    if given (arg_dataset args) then
      filter_jobs env (default "" (arg_dataset args)) dataset jobs
    else jobs in
  if given (arg_target args) then
    filter_jobs env (default "" (arg_target args)) target_host jobs
  else jobs.

(** The fields that [print_json_output] copies from a job. *)
Definition copied_fields (j : Job)
  : string * string * string * string * string * option Z * option float :=
  (dataset j, unit_name j, target_host j, target_name j, target_location j,
   status j, last_success j).
Definition reported_fields (jj : json_job)
  : string * string * string * string * string * option Z * option float :=
  (jj_dataset jj, jj_unit jj, jj_target_host jj, jj_target_name jj,
   jj_target_location jj, jj_status jj, jj_last_success jj).

(** The world in which the [i]-th job of a loop is judged: the clock
  has been read [i] more times. *)
Definition after_reads (i : nat) (w : World) : World :=
  {| clock := clock w; reads := reads w + i; console := console w |}.

(** The Dataset and Target columns of a table row, and its Status
  column. *)
Definition table_identity (row : table_row) : string * string :=
  (row.1.1.1.1, row.1.1.1.2).
Definition table_status (row : table_row) : string := row.1.1.2.

(** The markup of a status text in its colour. *)
Definition markup (text colour : string) : string :=
  "[bold " +:+ colour +:+ "]" +:+ text +:+ "[/bold " +:+ colour +:+ "]".

(** The text is ASCII. *)
Definition is_ascii (s : string) : bool :=
  forallb (fun c => (nat_of_ascii c <? 128)%nat) (list_ascii_of_string s).

(** On ASCII text the case folding of the environment is the one of
  ASCII, as that of Python is. *)
Definition lowers_ascii (env : Env) : Prop :=
  forall s, is_ascii s = true -> str_lower env s = lower s.

(** What [main] has printed when it has acquired the jobs: the notice
  of the SSH connection in verify mode unless the output is JSON, the
  warning about the API key in Prometheus mode when no key is given. *)
Definition preamble (args : Args) : list event :=
  if arg_verify args then
    if arg_json args then []
    else [ConsolePrint ("[dim]Connecting to " +:+ fqdn_of args +:+ "...[/dim]")]
  else if negb (given (arg_api_key args)) then
    [ConsolePrint "[yellow]Warning: PROMETHEUS_API_KEY not set. Some endpoints may require authentication.[/yellow]"]
  else [].

(** [source] of [main]. *)
Definition source_of (args : Args) : string :=
  if arg_verify args then "ssh://" +:+ fqdn_of args else arg_prometheus_url args.

(** The world after the events [printed]. *)
Definition after_printing (printed : list event) (w : World) : World :=
  {| clock := clock w; reads := reads w; console := console w ++ printed |}.

(** The two lines of the table mode for an empty job list. *)
Definition no_jobs_lines (args : Args) : list event :=
  [ConsolePrint "[yellow]No syncoid replication jobs found.[/yellow]";
   ConsolePrint ("[dim]Data source: " +:+ source_of args +:+ "[/dim]")].

(** A dataset that a sample of the info metric names. *)
Definition named_by (info : list sample) (d : string) : Prop :=
  d <> "" /\ exists item, In item info /\ label "dataset" (metric item) = d.

(** The reading that the samples [items] leave for the dataset [d]
  after the reading [reading]: what [convert] returns on the last of
  the samples with that dataset on which it returns. *)
Definition reading_after {A} (convert : sample -> outcome A) (d : string)
    (reading : option A) (items : list sample) : option A :=
  fold_left
    (fun reading item =>
       if String.eqb (label "dataset" (metric item)) d then
         match convert item with
         | Return a => Some a
         | Raise _ => reading
         end
       else reading)
    items reading.

Definition last_reading {A} (convert : sample -> outcome A) (d : string)
    (items : list sample) : option A :=
  reading_after convert d None items.

(** No sample of [items] for a known dataset makes [convert] raise an
  exception that the [except] clause of the loop does not name. *)
Definition harmless {A} (convert : sample -> outcome A) (known : string -> Prop)
    (items : list sample) : Prop :=
  Forall (fun item =>
            known (label "dataset" (metric item)) ->
            forall e, convert item = Raise e -> swallowed e = true)
         items.

(** The first escape of [items]: the first of its samples for a known
  dataset on which [convert] raises an exception that the [except]
  clause of the loop does not name raises [e]. *)
Definition first_escape {A} (convert : sample -> outcome A) (known : string -> Prop)
    (items : list sample) (e : exn) : Prop :=
  swallowed e = false /\
  exists before item after,
    items = (before ++ item :: after)%list /\
    harmless convert known before /\
    known (label "dataset" (metric item)) /\
    convert item = Raise e.

End SyncoidList.

(** ** scripts/backup-status.py *)

Module BackupStatus.
Import Py.

Definition DEFAULT_PROMETHEUS_URL : string := "http://forge.holthome.net:9090".

(** Consider backups stale after 26 hours. *)
Definition STALE_THRESHOLD_HOURS : Z := 26.

(** One element of a result vector: [res["metric"]] and
    [float(res["value"][1])]. *)
Record sample : Type := {
  metric : gmap string string;
  value : float
}.

(** [results]: the result vector of each named query;
    [results.get(name, [])]. *)
Definition results_get (results : gmap string (list sample)) (name : string)
  : list sample :=
  default [] (results !! name).

(** [metric.get(name, fallback)] *)
Definition label (name fallback : string) (m : gmap string string) : string :=
  default fallback (m !! name).

(** Determines the status and the details based on age. The parameter
    [system] is not used by the body. *)
Definition get_status_for_age (age_seconds : float) (system : string)
  : string * string :=
  if float_gt_int age_seconds (STALE_THRESHOLD_HOURS * 3600) then
    ("[bold yellow]STALE[/bold yellow]",
     "Last success > " +:+ pretty STALE_THRESHOLD_HOURS +:+ "h ago")
  else ("[bold green]OK[/bold green]", "Healthy").

(** Interprets syncoid status value (0=fail, 1=success, 2=in-progress). *)
Definition get_syncoid_status (status_value : float) : string * string :=
  if float_eq_int status_value 0 then
    ("[bold red]FAILED[/bold red]", "Last run failed")
  else if float_eq_int status_value 2 then
    ("[bold cyan]RUNNING[/bold cyan]", "In progress")
  else ("[bold green]OK[/bold green]", "Success").

(** Interprets restic status value (1=success, 0=failure). *)
Definition get_restic_status (status_value : float) : string * string :=
  if float_eq_int status_value 0 then
    ("[bold red]FAILED[/bold red]", "Last run failed")
  else ("[bold green]OK[/bold green]", "Success").

(** *** pgBackRest *)

(** Build repo info map from Prometheus. *)
Fixpoint build_repo_info (items : list sample) (repo_info : gmap string string)
  : gmap string string :=
  match items with
  | [] => repo_info
  | res :: items' =>
      let repo_key := label "repo_key" "unknown" (metric res) in
      let repo_name := label "repo_name" "unknown" (metric res) in
      let repo_location := label "repo_location" "" (metric res) in
      build_repo_info items'
        (if str_truthy repo_location then
           <[repo_key := repo_name +:+ " (" +:+ repo_location +:+ ")"]> repo_info
         else <[repo_key := repo_name]> repo_info)
  end.

(** Check for repo errors: some sample of [pgbackrest_repo_errors]
    carries the repository key [repo]. *)
Definition has_error (results : gmap string (list sample)) (repo : string) : bool :=
  existsb (fun err_res => bool_decide (metric err_res !! "repo_key" = Some repo))
    (results_get results "pgbackrest_repo_errors").

(** (repo, repo_display, backup_type, age_sec, status, details) *)
Definition pgbackrest_row : Type :=
  string * string * string * float * string * string.

Definition pgbackrest_row_of
    (results : gmap string (list sample)) (repo_info : gmap string string)
    (res : sample) : pgbackrest_row :=
  let repo := label "repo_key" "unknown" (metric res) in
  let repo_display := default ("repo" +:+ repo) (repo_info !! repo) in
  let backup_type := label "type" "unknown" (metric res) in
  let age_sec := value res in
  let '(status, details) :=
    if has_error results repo then
      ("[bold red]ERROR[/bold red]", "Repository error")
    else get_status_for_age age_sec "backup" in
  (repo, repo_display, backup_type, age_sec, status, details).

(** The rows of the pgBackRest section, sorted by repo, then type. *)
Definition pgbackrest_rows (results : gmap string (list sample))
  : list pgbackrest_row :=
  let repo_info := build_repo_info (results_get results "pgbackrest_repo_info") ∅ in
  sorted pair_ltb
    (fun x : pgbackrest_row =>
       let '(repo, _, backup_type, _, _, _) := x in (repo, backup_type))
    (map (pgbackrest_row_of results repo_info) (results_get results "pgbackrest_age")).

(** *** Syncoid and Restic *)

(** Get current status: the value of the first sample of [query] whose
    label [key] is [name]. *)
Fixpoint current_status_of (key name : string) (items : list sample) : option float :=
  match items with
  | [] => None
  | status_res :: items' =>
      if bool_decide (metric status_res !! key = Some name) then Some (value status_res)
      else current_status_of key name items'
  end.

(** The status and details of a row, from the status interpreter of
    its system, the current status and the age. *)
Definition status_and_details
    (interpret : float -> string * string)
    (current_status : option float) (age_sec : float) : string * string :=
  match current_status with
  | Some current_status =>
      let '(status, details) := interpret current_status in
      if float_eq_int current_status 1 then
        let '(age_status, age_details) := get_status_for_age age_sec "backup" in
        if contains "STALE" age_status then (age_status, age_details)
        else (status, details)
      else (status, details)
  | None => get_status_for_age age_sec "backup"
  end.

(** (dataset, target_display, age_sec, status, details) *)
Definition syncoid_row : Type := string * string * float * string * string.

Definition syncoid_row_of (results : gmap string (list sample)) (res : sample)
  : syncoid_row :=
  let dataset := label "dataset" "unknown" (metric res) in
  let target_name := label "target_name" "unknown" (metric res) in
  let target_location := label "target_location" "" (metric res) in
  let target_display :=
    if str_truthy target_location then
      target_name +:+ " (" +:+ target_location +:+ ")"
    else target_name in
  let age_sec := value res in
  let current_status :=
    current_status_of "dataset" dataset (results_get results "syncoid_status") in
  let '(status, details) :=
    status_and_details get_syncoid_status current_status age_sec in
  (dataset, target_display, age_sec, status, details).

(** The rows of the Syncoid section, sorted by dataset. *)
Definition syncoid_rows (results : gmap string (list sample)) : list syncoid_row :=
  sorted String.ltb
    (fun x : syncoid_row => let '(dataset, _, _, _, _) := x in dataset)
    (map (syncoid_row_of results) (results_get results "syncoid_age")).

(** (job, target_display, age_sec, status, details) *)
Definition restic_row : Type := string * string * float * string * string.

Definition restic_row_of (results : gmap string (list sample)) (res : sample)
  : restic_row :=
  let job := label "backup_job" "unknown" (metric res) in
  let repo := label "repository" "unknown" (metric res) in
  let repo_name := label "repository_name" "" (metric res) in
  let repo_location := label "repository_location" "" (metric res) in
  let age_sec := value res in
  let target_display :=
    if str_truthy repo_name && str_truthy repo_location then
      repo_name +:+ " (" +:+ repo_location +:+ ")"
    else repo in
  let current_status :=
    current_status_of "backup_job" job (results_get results "restic_status") in
  let '(status, details) :=
    status_and_details get_restic_status current_status age_sec in
  (job, target_display, age_sec, status, details).

(** The rows of the Restic section, sorted by job name. *)
Definition restic_rows (results : gmap string (list sample)) : list restic_row :=
  sorted String.ltb
    (fun x : restic_row => let '(job, _, _, _, _) := x in job)
    (map (restic_row_of results) (results_get results "restic_age")).

(** *** Vocabulary of the properties *)

(** The status and details of a row, its age and its repository key. *)
Definition pgbackrest_verdict (row : pgbackrest_row) : string * string :=
  (row.1.2, row.2).
Definition pgbackrest_age (row : pgbackrest_row) : float := row.1.1.2.
Definition pgbackrest_repo (row : pgbackrest_row) : string := row.1.1.1.1.1.

(** The status and details of a Syncoid or Restic row. *)
Definition row_verdict (row : string * string * float * string * string)
  : string * string :=
  (row.1.2, row.2).

(** The current status that [main] finds for an age sample. *)
Definition syncoid_current_status (results : gmap string (list sample)) (res : sample)
  : option float :=
  current_status_of "dataset" (label "dataset" "unknown" (metric res))
    (results_get results "syncoid_status").
Definition restic_current_status (results : gmap string (list sample)) (res : sample)
  : option float :=
  current_status_of "backup_job" (label "backup_job" "unknown" (metric res))
    (results_get results "restic_status").

(** Some sample of the repository error query carries the key [repo]. *)
Definition repo_error_flagged (results : gmap string (list sample)) (repo : string)
  : Prop :=
  exists err_res,
    In err_res (results_get results "pgbackrest_repo_errors") /\
    metric err_res !! "repo_key" = Some repo.

Definition FAILED_cell : string * string :=
  ("[bold red]FAILED[/bold red]", "Last run failed").
Definition RUNNING_cell : string * string :=
  ("[bold cyan]RUNNING[/bold cyan]", "In progress").
Definition ERROR_cell : string * string :=
  ("[bold red]ERROR[/bold red]", "Repository error").
Definition STALE_cell : string * string :=
  ("[bold yellow]STALE[/bold yellow]", "Last success > 26h ago").

(** The sort keys of the rows. *)
Definition pgbackrest_key (row : pgbackrest_row) : string * string :=
  (row.1.1.1.1.1, row.1.1.1.2).
Definition row_name (row : string * string * float * string * string) : string :=
  row.1.1.1.1.

(** The repository column of a pgBackRest row. *)
Definition pgbackrest_display (row : pgbackrest_row) : string := row.1.1.1.1.2.

(** What an info sample makes of its repository: "name (location)", or
  the name alone without a location. *)
Definition repo_display_of (res : sample) : string :=
  if Py.str_truthy (label "repo_location" "" (metric res)) then
    label "repo_name" "unknown" (metric res) +:+ " (" +:+
    label "repo_location" "" (metric res) +:+ ")"
  else label "repo_name" "unknown" (metric res).

Definition OK_success_cell : string * string :=
  ("[bold green]OK[/bold green]", "Success").
Definition OK_healthy_cell : string * string :=
  ("[bold green]OK[/bold green]", "Healthy").

End BackupStatus.

(** ** Discovery of the syncoid services (scripts/syncoid-list.py)

  [run_ssh_command] and [discover_syncoid_services]. What the remote
  host answers, and the text methods that go by the character classes
  of Unicode, are taken from outside. *)

Module SyncoidDiscover.
Import Py.

(** [s.replace(old, new)] for a non-empty [old]: the occurrences of
  [old] are replaced from left to right, without overlap. [skip]
  counts the characters of a replaced occurrence still to pass. *)
Fixpoint replace_from (old new : string) (skip : nat) (s : string) : string :=
  match s with
  | EmptyString => EmptyString
  | String c s' =>
      match skip with
      | S skip' => replace_from old new skip' s'
      | O =>
          if String.prefix old s then
            new +:+ replace_from old new (String.length old - 1) s'
          else String c (replace_from old new 0 s')
      end
  end.

Definition replace (old new s : string) : string := replace_from old new 0 s.

(** [s.split(sep, 1)] when [sep] occurs: the text before and after its
  first occurrence. *)
Fixpoint split1 (sep : ascii) (s : string) : option (string * string) :=
  match s with
  | EmptyString => None
  | String c s' =>
      if Ascii.eqb c sep then Some (EmptyString, s')
      else
        match split1 sep s' with
        | Some (before, after) => Some (String c before, after)
        | None => None
        end
  end.

(** What the discovery takes from outside. [ssh host command] is what
  [subprocess.run(["ssh", host, command], ...)] gives, as (returncode,
  stdout, stderr); a timeout or any other exception is the answer
  (1, "", message), as [run_ssh_command] has it. [str_strip s] is
  [s.strip()] and [str_split s] is [s.split()], which go by the white
  space of Unicode; [search_target s] is the second group of
  [re.search(r'(\w+)@([^:\s]+):', s)], [None] without a match. *)
Record Outside : Type := {
  ssh : string -> string -> Z * string * string;
  str_strip : string -> string;
  str_split : string -> list string;
  search_target : string -> option string
}.

(** Run a command on the o host via SSH. *)
Definition run_ssh_command (o : Outside) (host command : string) (sudo : bool)
  : Z * string * string :=
  let command := if sudo then "sudo " +:+ command else command in
  ssh o host command.

(** The properties of a unit, from the lines of [systemctl show]. *)
Fixpoint parse_props (lines : list string) (props : gmap string string)
  : gmap string string :=
  match lines with
  | [] => props
  | prop_line :: lines' =>
      if contains "=" prop_line then
        match split1 "=" prop_line with
        | Some (key, value) => parse_props lines' (<[key := value]> props)
        | None => parse_props lines' props
        end
      else parse_props lines' props
  end.

(** The body of the loop over the lines of the timer list: the service
  of a line, [None] when the line is skipped. *)
Definition service_of_line (o : Outside) (host line : string)
  : option SyncoidList.Service :=
  if negb (str_truthy (str_strip o line)) then None
  else
    match str_split o line with
    | [] => None
    | timer_name :: _ =>
        let service_name := replace ".timer" "" timer_name in
        let status_cmd :=
          "systemctl show " +:+ service_name +:+
          ".service --property=ActiveState,SubState,ExecMainExitTimestamp,Result,ExecStart" in
        let '(ret, status_out, _) := run_ssh_command o host status_cmd true in
        if negb (ret =? 0)%Z then None
        else
          let props := parse_props (split "010" (str_strip o status_out)) ∅ in
          let dataset := replace "-" "/" (replace "syncoid-" "" service_name) in
          let exec_start := default "" (props !! "ExecStart") in
          let target_host :=
            if str_truthy exec_start then search_target o exec_start else None in
          Some
            {| SyncoidList.svc_unit := service_name;
               SyncoidList.svc_dataset := dataset;
               SyncoidList.svc_active_state := default "unknown" (props !! "ActiveState");
               SyncoidList.svc_sub_state := default "unknown" (props !! "SubState");
               SyncoidList.svc_exit_timestamp :=
                 default "" (props !! "ExecMainExitTimestamp");
               SyncoidList.svc_result := default "unknown" (props !! "Result");
               SyncoidList.svc_target_host := target_host |}
    end.

(** Discover all syncoid services on the o host. *)
Definition discover_syncoid_services (o : Outside) (host : string)
  : list SyncoidList.Service :=
  let cmd :=
    "systemctl list-units --type=timer --all 'syncoid-*.timer' --no-legend --plain" in
  let '(returncode, stdout, _) := run_ssh_command o host cmd true in
  if negb (returncode =? 0)%Z then []
  else omap (service_of_line o host) (split "010" (str_strip o stdout)).

(** *** Vocabulary of the properties *)

(** The characters of a text. *)
Definition chars (s : string) : list ascii := list_ascii_of_string s.

(** The command line that lists the timers, as ssh receives it. *)
Definition list_command : string :=
  "sudo systemctl list-units --type=timer --all 'syncoid-*.timer' --no-legend --plain".

(** The command line that shows the unit of a service. *)
Definition show_command (service_name : string) : string :=
  "sudo systemctl show " +:+ service_name +:+
  ".service --property=ActiveState,SubState,ExecMainExitTimestamp,Result,ExecStart".

(** The property [key] in the output [out] of [systemctl show]. *)
Definition shown_property (o : Outside) (key out : string) : option string :=
  parse_props (split "010" (str_strip o out)) ∅ !! key.

(** The environment of syncoid-list whose services are the ones that
  [discover_syncoid_services] finds. *)
Definition env_over_ssh (o : Outside) (env : SyncoidList.Env) : SyncoidList.Env :=
  {| SyncoidList.query_prometheus := SyncoidList.query_prometheus env;
     SyncoidList.ssh_echo_ok := SyncoidList.ssh_echo_ok env;
     SyncoidList.discover_syncoid_services := discover_syncoid_services o;
     SyncoidList.strptime_timestamp := SyncoidList.strptime_timestamp env;
     SyncoidList.str_lower := SyncoidList.str_lower env |}.

(** Lower-casing neither makes nor loses the character [c]. *)
Definition lower_keeps (env : SyncoidList.Env) (c : ascii) : Prop :=
  forall s, In c (chars (SyncoidList.str_lower env s)) <-> In c (chars s).

End SyncoidDiscover.

(** ** Concrete inputs *)

Module Examples.

(** The value entry that Prometheus sends for the sample value [x]. *)
Definition sent (x : float) : SyncoidList.value_entry :=
  SyncoidList.Elements [Return 1764370000%float; Return x].

Definition sonarr_labels : gmap string string :=
  list_to_map
    [("dataset", "tank/services/sonarr");
     ("unit", "syncoid-tank-services-sonarr");
     ("target_host", "nas-1.holthome.net");
     ("target_name", "NFS");
     ("target_location", "nas-1");
     ("instance", "forge.holthome.net:9100")].

Definition plex_labels : gmap string string :=
  list_to_map
    [("dataset", "tank/services/plex");
     ("unit", "syncoid-tank-services-plex");
     ("target_host", "nas-1.holthome.net");
     ("target_name", "NFS");
     ("target_location", "nas-1");
     ("instance", "forge.holthome.net:9100")].

(** The samples of the info metric: sonarr and plex. *)
Definition info_samples : list SyncoidList.sample :=
  [ {| SyncoidList.metric := sonarr_labels; SyncoidList.value := sent 1%float |};
    {| SyncoidList.metric := plex_labels; SyncoidList.value := sent 1%float |} ].

(** A Prometheus that knows sonarr and plex from the info metric and
  answers the status query with [status_samples]; only plex has a last
  success time. SSH works; the host runs the two services, sonarr
  failed and plex succeeded. The texts of the examples are ASCII, on
  which the case folding is [Py.lower]. *)
Definition example_env (status_samples : list SyncoidList.sample) : SyncoidList.Env :=
  {| SyncoidList.query_prometheus := fun _ query _ =>
       if String.eqb query "syncoid_replication_info" then Some info_samples
       else if String.eqb query "syncoid_replication_status" then Some status_samples
       else
         Some [ {| SyncoidList.metric := plex_labels;
                   SyncoidList.value := sent 1764367254%float |} ];
     SyncoidList.ssh_echo_ok := fun _ => true;
     SyncoidList.discover_syncoid_services := fun _ =>
       [ {| SyncoidList.svc_unit := "syncoid-tank-services-sonarr";
            SyncoidList.svc_dataset := "tank/services/sonarr";
            SyncoidList.svc_active_state := "failed";
            SyncoidList.svc_sub_state := "failed";
            SyncoidList.svc_exit_timestamp := "Fri 2025-11-28 16:00:12 EST";
            SyncoidList.svc_result := "exit-code";
            SyncoidList.svc_target_host := Some "nas-1.holthome.net" |};
         {| SyncoidList.svc_unit := "syncoid-tank-services-plex";
            SyncoidList.svc_dataset := "tank/services/plex";
            SyncoidList.svc_active_state := "inactive";
            SyncoidList.svc_sub_state := "dead";
            SyncoidList.svc_exit_timestamp := "Fri 2025-11-28 17:00:54 EST";
            SyncoidList.svc_result := "success";
            SyncoidList.svc_target_host := Some "nas-1.holthome.net" |} ];
     SyncoidList.strptime_timestamp := fun _ => Some 1764367254%float;
     SyncoidList.str_lower := Py.lower |}.

(** The status query answers for plex alone. *)
Definition plex_status_only : list SyncoidList.sample :=
  [ {| SyncoidList.metric := plex_labels; SyncoidList.value := sent 1%float |} ].

(** The status query answers for both datasets: sonarr failed. *)
Definition both_statuses : list SyncoidList.sample :=
  [ {| SyncoidList.metric := sonarr_labels; SyncoidList.value := sent 0%float |};
    {| SyncoidList.metric := plex_labels; SyncoidList.value := sent 1%float |} ].

(** The sonarr job as the Prometheus mode builds it from the info
  metric alone. *)
Definition sonarr_info_only : SyncoidList.Job :=
  {| SyncoidList.dataset := "tank/services/sonarr";
     SyncoidList.unit_name := "syncoid-tank-services-sonarr";
     SyncoidList.target_host := "nas-1.holthome.net";
     SyncoidList.target_name := "NFS";
     SyncoidList.target_location := "nas-1";
     SyncoidList.status := None;
     SyncoidList.last_success := None;
     SyncoidList.instance := Some "forge.holthome.net:9100";
     SyncoidList.systemd_state := None |}.

Definition example_args (dataset_filter : option string) (verify json : bool)
  : SyncoidList.Args :=
  {| SyncoidList.arg_host := SyncoidList.DEFAULT_HOST;
     SyncoidList.arg_domain := SyncoidList.DEFAULT_DOMAIN;
     SyncoidList.arg_prometheus_url := SyncoidList.DEFAULT_PROMETHEUS_URL;
     SyncoidList.arg_api_key := Some "secret";
     SyncoidList.arg_dataset := dataset_filter;
     SyncoidList.arg_target := None;
     SyncoidList.arg_verify := verify;
     SyncoidList.arg_json := json |}.

(** The dashboard's query results for one job of a system: an age
  sample and a status sample under the same label. *)
Definition dashboard_results (age_query status_query key name : string)
    (age status_value : float) : gmap string (list BackupStatus.sample) :=
  list_to_map
    [(age_query,
      [ {| BackupStatus.metric := {[ key := name ]}; BackupStatus.value := age |} ]);
     (status_query,
      [ {| BackupStatus.metric := {[ key := name ]};
           BackupStatus.value := status_value |} ])].

(** A pgBackRest backup of repository 1 of the given age, with or
  without a repository error. *)
Definition pgbackrest_results (age : float) (repo_error : bool)
  : gmap string (list BackupStatus.sample) :=
  list_to_map
    [("pgbackrest_age",
      [ {| BackupStatus.metric := list_to_map [("repo_key", "1"); ("type", "full")];
           BackupStatus.value := age |} ]);
     ("pgbackrest_repo_errors",
      if repo_error then
        [ {| BackupStatus.metric := {[ "repo_key" := "1" ]};
             BackupStatus.value := 2%float |} ]
      else [])].

(** Nothing answers: every query fails and SSH does not connect. *)
Definition silent_env : SyncoidList.Env :=
  {| SyncoidList.query_prometheus := fun _ _ _ => None;
     SyncoidList.ssh_echo_ok := fun _ => false;
     SyncoidList.discover_syncoid_services := fun _ => [];
     SyncoidList.strptime_timestamp := fun _ => None;
     SyncoidList.str_lower := Py.lower |}.

(** The plex job as the Prometheus mode builds it when both signals
  are present. *)
Definition plex_acquired : SyncoidList.Job :=
  {| SyncoidList.dataset := "tank/services/plex";
     SyncoidList.unit_name := "syncoid-tank-services-plex";
     SyncoidList.target_host := "nas-1.holthome.net";
     SyncoidList.target_name := "NFS";
     SyncoidList.target_location := "nas-1";
     SyncoidList.status := Some 1;
     SyncoidList.last_success := Some 1764367254%float;
     SyncoidList.instance := Some "forge.holthome.net:9100";
     SyncoidList.systemd_state := None |}.

(** A status query that answers with an infinite value for plex. *)
Definition infinite_status : list SyncoidList.sample :=
  [ {| SyncoidList.metric := plex_labels; SyncoidList.value := sent infinity |} ].

(** A status query whose sample for plex has no value entry, and one
  whose value entry is a list of one element. *)
Definition valueless_status : list SyncoidList.sample :=
  [ {| SyncoidList.metric := plex_labels; SyncoidList.value := SyncoidList.Missing |} ].
Definition short_status : list SyncoidList.sample :=
  [ {| SyncoidList.metric := plex_labels;
       SyncoidList.value := SyncoidList.Elements [Return 1764370000%float] |} ].

(** The environment [env] with another answer to the last-success
  query. *)
Definition with_last_success (items : list SyncoidList.sample) (env : SyncoidList.Env)
  : SyncoidList.Env :=
  {| SyncoidList.query_prometheus := fun base_url query api_key =>
       if String.eqb query "syncoid_replication_last_success_timestamp" then Some items
       else SyncoidList.query_prometheus env base_url query api_key;
     SyncoidList.ssh_echo_ok := SyncoidList.ssh_echo_ok env;
     SyncoidList.discover_syncoid_services := SyncoidList.discover_syncoid_services env;
     SyncoidList.strptime_timestamp := SyncoidList.strptime_timestamp env;
     SyncoidList.str_lower := SyncoidList.str_lower env |}.

(** The dashboard's query results with one age sample, for sonarr, and
  three status samples: one for plex and then two for sonarr, failed
  first and successful second. *)
Definition repeated_status_results : gmap string (list BackupStatus.sample) :=
  list_to_map
    [("syncoid_age",
      [ {| BackupStatus.metric := {[ "dataset" := "tank/services/sonarr" ]};
           BackupStatus.value := 120%float |} ]);
     ("syncoid_status",
      [ {| BackupStatus.metric := {[ "dataset" := "tank/services/plex" ]};
           BackupStatus.value := 1%float |};
        {| BackupStatus.metric := {[ "dataset" := "tank/services/sonarr" ]};
           BackupStatus.value := 0%float |};
        {| BackupStatus.metric := {[ "dataset" := "tank/services/sonarr" ]};
           BackupStatus.value := 1%float |} ])].

(** A pgBackRest backup of repository 1, with three info samples: two
  for repository 1, which differ, around one for repository 2. *)
Definition pgbackrest_first_info : BackupStatus.sample :=
  {| BackupStatus.metric := list_to_map [("repo_key", "1"); ("repo_name", "local")];
     BackupStatus.value := 1%float |}.
Definition pgbackrest_other_info : BackupStatus.sample :=
  {| BackupStatus.metric :=
       list_to_map [("repo_key", "2"); ("repo_name", "offsite"); ("repo_location", "b2")];
     BackupStatus.value := 1%float |}.
Definition pgbackrest_last_info : BackupStatus.sample :=
  {| BackupStatus.metric :=
       list_to_map [("repo_key", "1"); ("repo_name", "NFS"); ("repo_location", "nas-1")];
     BackupStatus.value := 1%float |}.
Definition pgbackrest_results_with_info : gmap string (list BackupStatus.sample) :=
  list_to_map
    [("pgbackrest_age",
      [ {| BackupStatus.metric := list_to_map [("repo_key", "1"); ("type", "full")];
           BackupStatus.value := 10%float |} ]);
     ("pgbackrest_repo_info",
      [pgbackrest_first_info; pgbackrest_other_info; pgbackrest_last_info])].

(** *** A host for the discovery

  The text methods below are the ones of Python on ASCII text. *)

(** [c.isspace()]: tab to carriage return, the separators 28 to 31,
  and the space. *)
Definition is_space (c : ascii) : bool :=
  let n := nat_of_ascii c in
  (((9 <=? n) && (n <=? 13)) || ((28 <=? n) && (n <=? 32)))%nat.

(** [\w]: a letter, a digit or the underscore. *)
Definition is_word (c : ascii) : bool :=
  let n := nat_of_ascii c in
  (((48 <=? n) && (n <=? 57)) || ((65 <=? n) && (n <=? 90)) ||
   ((97 <=? n) && (n <=? 122)) || (n =? 95))%nat.

(** [s.lstrip()], [s.rstrip()] and [s.strip()]. *)
Fixpoint lstrip (s : string) : string :=
  match s with
  | EmptyString => EmptyString
  | String c s' => if is_space c then lstrip s' else s
  end.

Fixpoint rstrip (s : string) : string :=
  match s with
  | EmptyString => EmptyString
  | String c s' =>
      match rstrip s' with
      | EmptyString => if is_space c then EmptyString else String c EmptyString
      | r => String c r
      end
  end.

Definition strip (s : string) : string := rstrip (lstrip s).

(** [s.split()]: the maximal runs of characters that are not white
  space. *)
Fixpoint split_whitespace (s : string) : list string :=
  match s with
  | EmptyString => []
  | String c s' =>
      if is_space c then split_whitespace s'
      else
        match s' with
        | EmptyString => [String c EmptyString]
        | String d _ =>
            if is_space d then String c EmptyString :: split_whitespace s'
            else
              match split_whitespace s' with
              | token :: tokens => String c token :: tokens
              | [] => [String c EmptyString]
              end
        end
  end.

(** The longest prefix of characters other than [:] and white space,
  and what follows it. *)
Fixpoint host_part (s : string) : string * string :=
  match s with
  | EmptyString => (EmptyString, EmptyString)
  | String c s' =>
      if Ascii.eqb c ":" || is_space c then (EmptyString, s)
      else let '(part, rest) := host_part s' in (String c part, rest)
  end.

(** [re.search(r'(\w+)@([^:\s]+):', s)], as its second group: the
  text between the first [@] that follows a word character and the
  [:] that ends the longest run of characters other than [:] and
  white space after it, when that run is not empty. [after_word]
  tells whether the previous character is a word character. *)
Fixpoint search_target (after_word : bool) (s : string) : option string :=
  match s with
  | EmptyString => None
  | String c s' =>
      if Ascii.eqb c "@" && after_word then
        match host_part s' with
        | (String h part, String d _) =>
            if Ascii.eqb d ":" then Some (String h part)
            else search_target (is_word c) s'
        | _ => search_target (is_word c) s'
        end
      else search_target (is_word c) s'
  end.

(** What a host answers that runs two timers, for the datasets
  tank/services/sonarr and tank/services/home-assistant, both
  replicated to nas-1. *)
Definition example_ssh (host command : string) : Z * string * string :=
  if String.eqb command SyncoidDiscover.list_command then
    (0, "syncoid-tank-services-sonarr.timer loaded active waiting Syncoid ZFS replication
syncoid-tank-services-home-assistant.timer loaded active waiting Syncoid ZFS replication
", "")
  else if String.eqb command
            (SyncoidDiscover.show_command "syncoid-tank-services-sonarr") then
    (0, "ActiveState=inactive
SubState=dead
ExecMainExitTimestamp=Fri 2025-11-28 17:00:54 EST
Result=success
ExecStart={ path=/nix/store/abc-sanoid/bin/syncoid ; argv[]=/nix/store/abc-sanoid/bin/syncoid --sshkey /var/lib/zfs-replication/.ssh/id_ed25519 tank/services/sonarr zfs-replication@nas-1.holthome.net:backup/forge/zfs-recv/sonarr ; ignore_errors=no }
", "")
  else if String.eqb command
            (SyncoidDiscover.show_command "syncoid-tank-services-home-assistant") then
    (0, "ActiveState=inactive
SubState=dead
ExecMainExitTimestamp=Fri 2025-11-28 17:05:11 EST
Result=success
Result=exit-code
ExecStart={ path=/nix/store/abc-sanoid/bin/syncoid ; argv[]=/nix/store/abc-sanoid/bin/syncoid --sshkey /var/lib/zfs-replication/.ssh/id_ed25519 tank/services/home-assistant zfs-replication@nas-1.holthome.net:backup/forge/zfs-recv/home-assistant ; ignore_errors=no }
", "")
  else (1, "", "Unit not found").

Definition example_outside : SyncoidDiscover.Outside :=
  {| SyncoidDiscover.ssh := example_ssh;
     SyncoidDiscover.str_strip := strip;
     SyncoidDiscover.str_split := split_whitespace;
     SyncoidDiscover.search_target := search_target false |}.

End Examples.

(** * Properties *)

(** ** Comparisons of binary64 values *)

Section FloatOrder.

Lemma SFcompare_antisym (x y : spec_float) :
  SFcompare y x = CompOpp <$> SFcompare x y.
Proof.
  destruct x as [sx|sx| |sx mx ex], y as [sy|sy| |sy my ey]; simpl;
    try reflexivity; try (destruct sx; reflexivity);
    try (destruct sy; reflexivity);
    try (destruct sx, sy; reflexivity).
  assert (Pos.compare_cont Eq my mx = CompOpp (Pos.compare_cont Eq mx my)) as Hm
    by (symmetry; apply (Pos.compare_cont_antisym mx my Eq)).
  destruct sx, sy; simpl; try reflexivity;
    rewrite (Z.compare_antisym ex ey);
    destruct (ex ?= ey)%Z; simpl; try reflexivity;
    rewrite Hm; try reflexivity.
Qed.

(** [x <= y] excludes [y < x]. *)
Lemma leb_not_gt (x y : float) :
  PrimFloat.leb x y = true -> PrimFloat.ltb y x = false.
Proof.
  rewrite FloatAxioms.leb_spec, FloatAxioms.ltb_spec. unfold SFleb, SFltb.
  rewrite (SFcompare_antisym (Prim2SF x) (Prim2SF y)).
  destruct (SFcompare (Prim2SF x) (Prim2SF y)) as [[]|]; simpl; congruence.
Qed.

(** Two values that compare equal compare alike with any third. *)
Lemma SFcompare_Eq_l (x c d : spec_float) :
  SFcompare x c = Some Eq -> SFcompare x d = SFcompare c d.
Proof.
  destruct x as [sx|sx| |sx mx ex], c as [sc|sc| |sc mc ec]; simpl;
    try discriminate;
    try (destruct sx; discriminate); try (destruct sc; discriminate).
  - intros _. destruct d; reflexivity.
  - destruct sx, sc; try discriminate; intros _; reflexivity.
  - destruct sx, sc; try discriminate;
      destruct (ex ?= ec)%Z eqn:He; try discriminate;
      apply Z.compare_eq in He; subst ec; intros Hm;
      assert (mx = mc) as ->
        by (apply Pos.compare_eq; unfold Pos.compare;
            destruct (Pos.compare_cont Eq mx mc); simpl in Hm; congruence);
      reflexivity.
Qed.

(** A float equal to one int differs from any int that the first
    differs from. *)
Lemma float_eq_int_other (x : float) (n m : Z) :
  Py.float_eq_int x n = true ->
  Py.float_eq_int (Py.float_of_int n) m = false ->
  Py.float_eq_int x m = false.
Proof.
  unfold Py.float_eq_int. rewrite !FloatAxioms.eqb_spec. unfold SFeqb.
  destruct (SFcompare (Prim2SF x) (Prim2SF (Py.float_of_int n))) as [[]|] eqn:E;
    try discriminate.
  intros _. now rewrite (SFcompare_Eq_l _ _ _ E).
Qed.

End FloatOrder.

(** ** The normaliser of syncoid-list *)

Section SyncoidDisplay.
Import SyncoidList.

(** [get_status_display] reads the clock once, prints nothing and
    never raises. *)
Lemma get_status_display_runs status last_success w :
  exists v,
    get_status_display status last_success w =
      (Return v,
       {| clock := clock w; reads := S (reads w); console := console w |}).
Proof. unfold get_status_display, bind, datetime_now_timestamp, ret. eauto. Qed.

Lemma verdict_in_progress last_success w :
  verdict (Some 2) last_success w =
    Return ("RUNNING", "cyan", "Replication in progress").
Proof. reflexivity. Qed.

Lemma verdict_failed last_success w :
  verdict (Some 0) last_success w = Return FAILED_verdict.
Proof. reflexivity. Qed.

Lemma verdict_success_no_timestamp w :
  verdict (Some 1) None w = Return ("OK", "green", "Healthy (no timestamp)").
Proof. reflexivity. Qed.

Lemma verdict_success_aged t w :
  verdict (Some 1) (Some t) w =
    Return (if Py.float_gt_int (age_hours w t) STALE_THRESHOLD_HOURS
            then STALE_verdict else ("OK", "green", "Healthy")).
Proof.
  unfold verdict, get_status_display, bind, datetime_now_timestamp, ret, age_hours, now_of.
  simpl. now destruct (Py.float_gt_int _ _).
Qed.

(** Without a status, and with any status other than 0, 1 and 2. *)
Lemma verdict_other status last_success w :
  status <> Some 0 -> status <> Some 1 -> status <> Some 2 ->
  verdict status last_success w =
    Return (match last_success with
            | Some t =>
                if Py.float_gt_int (age_hours w t) STALE_THRESHOLD_HOURS
                then STALE_verdict else UNKNOWN_verdict
            | None => UNKNOWN_verdict
            end).
Proof.
  intros H0 H1 H2.
  unfold verdict, get_status_display, bind, datetime_now_timestamp, ret, age_hours, now_of.
  simpl. repeat case_decide; try congruence.
  destruct last_success as [t|]; [|reflexivity].
  now destruct (Py.float_gt_int _ _).
Qed.

End SyncoidDisplay.

(** ** Acquisition from Prometheus: identities known from the info
    metric alone *)

Section Discovery.
Import SyncoidList.

Lemma untouched_dict_set d k v jobs :
  dataset v = k ->
  (k = d -> status v = None /\ last_success v = None) ->
  untouched_at d jobs -> untouched_at d (dict_set k v jobs).
Proof.
  intros Hk Hv. unfold untouched_at.
  induction 1 as [|[k' v'] jobs' Hhd Htl IH]; simpl.
  - constructor; [split; assumption | constructor].
  - destruct (String.eqb k k'); constructor; auto.
Qed.

Lemma untouched_dict_update d k f jobs :
  k <> d ->
  (forall j, dataset (f j) = dataset j) ->
  untouched_at d jobs -> untouched_at d (dict_update k f jobs).
Proof.
  intros Hk Hf. unfold untouched_at.
  induction 1 as [|[k' v'] jobs' [Hkey Hhd] Htl IH]; simpl; [constructor|].
  destruct (String.eqb_spec k k') as [->|Hne]; constructor; auto.
  simpl in *. split; [now rewrite Hf|]. intros ->. contradiction.
Qed.

Lemma untouched_discover_jobs d items jobs :
  untouched_at d jobs -> untouched_at d (discover_jobs items jobs).
Proof.
  revert jobs. induction items as [|item items IH]; intros jobs Hjobs; simpl; [assumption|].
  destruct (negb _); [now apply IH|].
  apply IH, untouched_dict_set; auto.
Qed.

Lemma untouched_fetch_status d items jobs jobs' :
  (forall item, In item items -> label "dataset" (metric item) <> d) ->
  fetch_status items jobs = Return jobs' ->
  untouched_at d jobs -> untouched_at d jobs'.
Proof.
  revert jobs. induction items as [|item items IH]; intros jobs Hsilent; simpl.
  - intros [= <-]. auto.
  - assert (forall i, In i items -> label "dataset" (metric i) <> d) as Hrest
      by (intros i Hi; apply Hsilent; now right).
    destruct (dict_mem _ jobs); [|now apply IH].
    destruct (int_of_value item) as [n|e].
    + intros Hrun Hjobs. apply (IH _ Hrest Hrun).
      apply untouched_dict_update; auto. apply Hsilent. now left.
    + destruct (swallowed e); [now apply IH | discriminate].
Qed.

Lemma untouched_fetch_last_success d items jobs jobs' :
  (forall item, In item items -> label "dataset" (metric item) <> d) ->
  fetch_last_success items jobs = Return jobs' ->
  untouched_at d jobs -> untouched_at d jobs'.
Proof.
  revert jobs. induction items as [|item items IH]; intros jobs Hsilent; simpl.
  - intros [= <-]. auto.
  - assert (forall i, In i items -> label "dataset" (metric i) <> d) as Hrest
      by (intros i Hi; apply Hsilent; now right).
    destruct (dict_mem _ jobs); [|now apply IH].
    destruct (float_of_value item) as [x|e].
    + intros Hrun Hjobs. apply (IH _ Hrest Hrun).
      apply untouched_dict_update; auto. apply Hsilent. now left.
    + destruct (swallowed e); [now apply IH | discriminate].
Qed.

Lemma untouched_values d jobs j :
  untouched_at d jobs -> In j (dict_values jobs) -> dataset j = d ->
  status j = None /\ last_success j = None.
Proof.
  unfold untouched_at, dict_values. rewrite List.Forall_forall, in_map_iff.
  intros Hall [[k v] [<- Hin]] Hd. simpl in *.
  destruct (Hall _ Hin) as [Hkey Hnone]. simpl in *. apply Hnone. congruence.
Qed.

(** A dataset that only the info metric mentions comes out of the
  acquisition with neither a status nor a last success time. *)
Lemma info_only_job_has_no_signal env base_url api_key jobs d j :
  get_syncoid_metrics_from_prometheus env base_url api_key = Return jobs ->
  silent_about d (query_prometheus env base_url "syncoid_replication_status" api_key) ->
  silent_about d
    (query_prometheus env base_url "syncoid_replication_last_success_timestamp" api_key) ->
  In j jobs -> dataset j = d ->
  status j = None /\ last_success j = None.
Proof.
  unfold get_syncoid_metrics_from_prometheus, silent_about. simpl.
  destruct (query_prometheus env base_url "syncoid_replication_info" api_key)
    as [info|]; [|intros [= <-] _ _ []].
  intros Hrun Hstatus Hlast.
  assert (untouched_at d (discover_jobs info [])) as H0
    by (apply untouched_discover_jobs; constructor).
  destruct (query_prometheus env base_url "syncoid_replication_status" api_key)
    as [sitems|].
  - destruct (fetch_status sitems (discover_jobs info [])) as [jobs1|] eqn:E1;
      [|discriminate].
    assert (untouched_at d jobs1) as H1
      by (eapply untouched_fetch_status; eauto).
    destruct (query_prometheus env base_url
                "syncoid_replication_last_success_timestamp" api_key) as [litems|].
    + destruct (fetch_last_success litems jobs1) as [jobs2|] eqn:E2; [|discriminate].
      injection Hrun as <-. apply untouched_values; auto.
      eapply (untouched_fetch_last_success d litems); eauto.
    + injection Hrun as <-. apply untouched_values; auto.
  - destruct (query_prometheus env base_url
                "syncoid_replication_last_success_timestamp" api_key) as [litems|].
    + destruct (fetch_last_success litems (discover_jobs info [])) as [jobs2|] eqn:E2;
        [|discriminate].
      injection Hrun as <-. apply untouched_values; auto.
      eapply (untouched_fetch_last_success d litems); eauto.
    + injection Hrun as <-. apply untouched_values; auto.
Qed.

End Discovery.

(** ** Sorting keeps the rows *)

Section SortedRows.
Context {A K : Type} (lt : K -> K -> bool) (key : A -> K).

Lemma In_insert_by_key (x y : A) (l : list A) :
  In y (Py.insert_by_key lt key x l) <-> y = x \/ In y l.
Proof.
  induction l as [|z l IH]; simpl.
  - intuition congruence.
  - destruct (lt (key z) (key x)); simpl; rewrite ?IH; intuition congruence.
Qed.

Lemma In_sorted (y : A) (l : list A) :
  In y (Py.sorted lt key l) <-> In y l.
Proof.
  unfold Py.sorted. induction l as [|x l IH]; simpl; [tauto|].
  rewrite In_insert_by_key, IH. intuition congruence.
Qed.

End SortedRows.

(** ** The dashboard of backup-status *)

Section Dashboard.
Import BackupStatus.

Lemma get_status_for_age_fresh age system :
  Py.float_le_int age (26 * 3600) = true ->
  get_status_for_age age system = ("[bold green]OK[/bold green]", "Healthy").
Proof.
  intros Hle. unfold get_status_for_age, Py.float_gt_int.
  change (STALE_THRESHOLD_HOURS * 3600) with (26 * 3600).
  now rewrite (leb_not_gt _ _ Hle).
Qed.

Lemma get_status_for_age_stale age system :
  Py.float_gt_int age (26 * 3600) = true ->
  get_status_for_age age system = STALE_cell.
Proof.
  intros Hgt. unfold get_status_for_age.
  change (STALE_THRESHOLD_HOURS * 3600) with (26 * 3600).
  now rewrite Hgt.
Qed.

Lemma status_and_details_failed interpret s age :
  (interpret = get_syncoid_status \/ interpret = get_restic_status) ->
  Py.float_eq_int s 0 = true ->
  status_and_details interpret (Some s) age = FAILED_cell.
Proof.
  intros Hi H0. unfold status_and_details.
  assert (Py.float_eq_int s 1 = false) as ->
    by (apply (float_eq_int_other s 0 1 H0); reflexivity).
  destruct Hi as [-> | ->]; unfold get_syncoid_status, get_restic_status;
    now rewrite H0.
Qed.

Lemma status_and_details_running s age :
  Py.float_eq_int s 2 = true ->
  status_and_details get_syncoid_status (Some s) age = RUNNING_cell.
Proof.
  intros H2. unfold status_and_details, get_syncoid_status.
  assert (Py.float_eq_int s 1 = false) as ->
    by (apply (float_eq_int_other s 2 1 H2); reflexivity).
  assert (Py.float_eq_int s 0 = false) as ->
    by (apply (float_eq_int_other s 2 0 H2); reflexivity).
  now rewrite H2.
Qed.

(** With a success status the age decides, and only towards STALE. *)
Lemma status_and_details_success interpret s age :
  (interpret = get_syncoid_status \/ interpret = get_restic_status) ->
  Py.float_eq_int s 1 = true ->
  status_and_details interpret (Some s) age =
    if Py.float_gt_int age (26 * 3600) then STALE_cell
    else ("[bold green]OK[/bold green]", "Success").
Proof.
  intros Hi H1. unfold status_and_details. rewrite H1.
  assert (Py.float_eq_int s 0 = false) as H0
    by (apply (float_eq_int_other s 1 0 H1); reflexivity).
  assert (Py.float_eq_int s 2 = false) as H2
    by (apply (float_eq_int_other s 1 2 H1); reflexivity).
  unfold get_status_for_age.
  change (STALE_THRESHOLD_HOURS * 3600) with (26 * 3600).
  destruct Hi as [-> | ->]; unfold get_syncoid_status, get_restic_status;
    rewrite H0, ?H2; destruct (Py.float_gt_int age (26 * 3600)); reflexivity.
Qed.

Lemma syncoid_row_verdict results res :
  row_verdict (syncoid_row_of results res) =
    status_and_details get_syncoid_status
      (syncoid_current_status results res) (value res).
Proof.
  unfold syncoid_row_of, syncoid_current_status, row_verdict.
  now destruct (status_and_details _ _ _).
Qed.

Lemma restic_row_verdict results res :
  row_verdict (restic_row_of results res) =
    status_and_details get_restic_status
      (restic_current_status results res) (value res).
Proof.
  unfold restic_row_of, restic_current_status, row_verdict.
  now destruct (status_and_details _ _ _).
Qed.

Lemma has_error_flagged results repo :
  has_error results repo = true <-> repo_error_flagged results repo.
Proof.
  unfold has_error, repo_error_flagged. rewrite existsb_exists.
  split; intros [e [Hin He]]; exists e; split; auto.
  - now apply bool_decide_eq_true in He.
  - now apply bool_decide_eq_true.
Qed.

Lemma pgbackrest_row_verdict results repo_info res :
  pgbackrest_verdict (pgbackrest_row_of results repo_info res) =
    if has_error results (label "repo_key" "unknown" (metric res)) then ERROR_cell
    else get_status_for_age (value res) "backup".
Proof.
  unfold pgbackrest_row_of, pgbackrest_verdict.
  destruct (has_error _ _); [reflexivity|].
  now destruct (get_status_for_age _ _).
Qed.

(** The Syncoid section of the dashboard uses the dashboard's own
  threshold of 26 hours, not the 2 hours of syncoid-list. *)
Lemma dashboard_syncoid_threshold results res s :
  syncoid_current_status results res = Some s ->
  Py.float_eq_int s 1 = true ->
  row_verdict (syncoid_row_of results res) =
    if Py.float_gt_int (value res) (26 * 3600) then STALE_cell
    else ("[bold green]OK[/bold green]", "Success").
Proof.
  intros Hs H1. rewrite syncoid_row_verdict, Hs.
  apply status_and_details_success; auto.
Qed.

End Dashboard.

(** ** The JSON report of syncoid-list *)

Section JsonReport.
Import SyncoidList.

(** Two job lists with the same signals go through the loop of
  [print_json_output] alike: the loop returns, with the same counts,
  the same verdicts and the same final world. *)
Lemma json_loop_same_signal jobs1 jobs2 stats w :
  map signal_of jobs1 = map signal_of jobs2 ->
  exists stats' outs1 outs2 w',
    json_loop jobs1 stats w = (Return (stats', outs1), w') /\
    json_loop jobs2 stats w = (Return (stats', outs2), w') /\
    map json_verdict outs1 = map json_verdict outs2.
Proof.
  revert jobs2 stats w.
  induction jobs1 as [|j1 jobs1 IH]; intros [|j2 jobs2] stats w Hsig;
    try discriminate.
  - exists stats, [], [], w. auto.
  - cbn [map] in Hsig. injection Hsig as Hs Hl Hrest.
    cbn [json_loop]. unfold bind at 1 3. rewrite Hs, Hl.
    destruct (get_status_display_runs (status j2) (last_success j2) w)
      as [[[text color] details] ->].
    cbv beta iota zeta.
    set (st := if decide (is_Some (stats !! Py.lower text)) then _ else _).
    set (w1 := {| clock := clock w; reads := S (reads w); console := console w |}).
    destruct (IH jobs2 st w1 Hrest) as (stats' & o1 & o2 & w' & E1 & E2 & Hv).
    unfold bind. rewrite E1, E2. unfold ret.
    eexists _, _, _, _. split; [reflexivity|]. split; [reflexivity|].
    cbn [map]. now rewrite Hv.
Qed.

End JsonReport.

(** ** The filters of syncoid-list *)

Section Filters.
Import SyncoidList.

Lemma filter_jobs_none env needle field jobs :
  (forall j, In j jobs ->
     Py.contains (str_lower env needle) (str_lower env (field j)) = false) ->
  filter_jobs env needle field jobs = [].
Proof.
  unfold filter_jobs. induction jobs as [|j jobs IH]; intros Hnone; [reflexivity|].
  cbn [List.filter]. rewrite (Hnone j) by now left.
  apply IH. intros j' Hj'. apply Hnone. now right.
Qed.

Lemma filter_jobs_incl env needle field jobs j :
  In j (filter_jobs env needle field jobs) -> In j jobs.
Proof. unfold filter_jobs. rewrite filter_In. tauto. Qed.

(** The two filters of [main], applied in its order, leave nothing when
  one of them is given and matches no job. *)
Lemma filters_leave_nothing env args jobs :
  matches_none env (arg_dataset args) dataset jobs \/
  matches_none env (arg_target args) target_host jobs ->
  apply_filters env args jobs = [].
Proof.
  unfold apply_filters.
  intros [[Hgiven Hnone] | [Hgiven Hnone]]; rewrite Hgiven.
  - rewrite (filter_jobs_none _ _ _ _ Hnone). now destruct (given (arg_target args)).
  - apply filter_jobs_none. intros j Hj. apply Hnone.
    destruct (given (arg_dataset args)); [|assumption].
    now apply filter_jobs_incl in Hj.
Qed.

Lemma print_json_output_nil host mode w :
  print_json_output [] host mode w =
    (Return tt,
     {| clock := clock w; reads := reads w;
        console := console w ++ [PrintJson (empty_report host mode)] |}).
Proof. reflexivity. Qed.

Lemma after_printing_nil w : after_printing [] w = w.
Proof. unfold after_printing. rewrite app_nil_r. now destruct w. Qed.

(** After a successful acquisition [main] has printed its preamble and
  goes on with the filtered jobs. *)
Lemma main_after_acquisition env args w jobs mode :
  acquired env args = Some (jobs, mode) ->
  main env args w =
    (if arg_json args then
       bind (print_json_output (apply_filters env args jobs) (fqdn_of args) mode)
         (fun _ => ret 0)
     else
       match apply_filters env args jobs with
       | [] =>
           bind (emit (ConsolePrint "[yellow]No syncoid replication jobs found.[/yellow]"))
             (fun _ =>
                bind (emit (ConsolePrint
                              ("[dim]Data source: " +:+ source_of args +:+ "[/dim]")))
                  (fun _ => ret 1))
       | _ :: _ =>
           bind (print_table_output (apply_filters env args jobs) (source_of args))
             (fun _ => ret 0)
       end)
      (after_printing (preamble args) w).
Proof.
  unfold acquired, main, apply_filters, preamble, source_of. fold (fqdn_of args).
  destruct (arg_verify args).
  - unfold warmup_ssh_connection.
    destruct (ssh_echo_ok env (fqdn_of args)) eqn:Essh; [|discriminate].
    intros [= <- <-].
    destruct (arg_json args); unfold bind at 1 2 3, ret at 1 2, emit at 1;
      rewrite ?Essh; cbn [negb]; cbv beta iota zeta.
    + now rewrite after_printing_nil.
    + reflexivity.
  - destruct (get_syncoid_metrics_from_prometheus env (arg_prometheus_url args)
                (arg_api_key args)) as [acquired_jobs|]; [|discriminate].
    intros [= <- <-].
    unfold bind at 1 2 3, lift, ret at 1 2.
    destruct (negb (given (arg_api_key args))); cbv beta iota zeta.
    + unfold emit at 1. reflexivity.
    + now rewrite after_printing_nil.
Qed.

End Filters.

(** * The claims *)

Section Claims.
Import SyncoidList BackupStatus Examples.

(** C1. A signal with neither a status code nor a last success time is
  normalised to UNKNOWN ("No status metric"), never to OK. The same
  holds for every job that the Prometheus acquisition knows from the
  info metric alone: whatever the clock reads, a dataset that neither
  the status query nor the last-success query mentions gets the
  verdict UNKNOWN. *)
Theorem absent_status_and_age_is_unknown :
  (forall w,
     verdict None None w = Return UNKNOWN_verdict /\
     forall color details, verdict None None w <> Return ("OK", color, details)) /\
  (forall env base_url api_key jobs d j w,
     get_syncoid_metrics_from_prometheus env base_url api_key = Return jobs ->
     silent_about d
       (SyncoidList.query_prometheus env base_url "syncoid_replication_status" api_key) ->
     silent_about d
       (SyncoidList.query_prometheus env base_url
          "syncoid_replication_last_success_timestamp" api_key) ->
     In j jobs -> dataset j = d ->
     verdict (status j) (last_success j) w = Return UNKNOWN_verdict /\
     forall color details,
       verdict (status j) (last_success j) w <> Return ("OK", color, details)).
Proof.
  split; [intros w; split; [reflexivity | intros color details; discriminate]|].
  intros env base_url api_key jobs d j w Hrun Hs Hl Hin Hd.
  destruct (info_only_job_has_no_signal _ _ _ _ _ _ Hrun Hs Hl Hin Hd) as [-> ->].
  split; [reflexivity | intros color details; discriminate].
Qed.

Lemma absent_status_and_age_is_unknown_witness :
  (exists plex,
     get_syncoid_metrics_from_prometheus (example_env plex_status_only)
       DEFAULT_PROMETHEUS_URL None = Return [sonarr_info_only; plex]) /\
  verdict (status sonarr_info_only) (last_success sonarr_info_only)
    (world_at 1764370000%float) = Return UNKNOWN_verdict.
Proof.
  split; [eexists; vm_compute; reflexivity|].
  refine (proj1 (proj2 absent_status_and_age_is_unknown
                   (example_env plex_status_only) DEFAULT_PROMETHEUS_URL None
                   _ "tank/services/sonarr" sonarr_info_only
                   (world_at 1764370000%float) _ _ _ _ _)).
  - vm_compute. reflexivity.
  - intros l item [= <-] [<- | []]. vm_compute. discriminate.
  - intros l item [= <-] [<- | []]. vm_compute. discriminate.
  - now left.
  - reflexivity.
Defined.

(** C2. A present failed status code (0) yields FAILED whatever the
  age: in syncoid-list for every last success time and clock reading,
  and in the dashboard for every Syncoid and Restic row whose current
  status equals 0, however recent its age sample. The verdict is
  neither OK nor STALE. *)
Theorem failed_status_outranks_staleness :
  (forall last_success w, verdict (Some 0) last_success w = Return FAILED_verdict) /\
  (forall results res s,
     syncoid_current_status results res = Some s ->
     Py.float_eq_int s 0 = true ->
     row_verdict (syncoid_row_of results res) = FAILED_cell) /\
  (forall results res s,
     restic_current_status results res = Some s ->
     Py.float_eq_int s 0 = true ->
     row_verdict (restic_row_of results res) = FAILED_cell).
Proof.
  split; [apply verdict_failed|]. split; intros results res s Hs H0.
  - rewrite syncoid_row_verdict, Hs. apply status_and_details_failed; auto.
  - rewrite restic_row_verdict, Hs. apply status_and_details_failed; auto.
Qed.

Lemma failed_status_outranks_staleness_witness :
  syncoid_rows
    (dashboard_results "syncoid_age" "syncoid_status" "dataset" "tank/services/sonarr"
       1%float 0%float) =
    [("tank/services/sonarr", "unknown", 1%float,
      "[bold red]FAILED[/bold red]", "Last run failed")] /\
  row_verdict
    (syncoid_row_of
       (dashboard_results "syncoid_age" "syncoid_status" "dataset" "tank/services/sonarr"
          1%float 0%float)
       {| BackupStatus.metric := {[ "dataset" := "tank/services/sonarr" ]};
          BackupStatus.value := 1%float |}) = FAILED_cell /\
  row_verdict
    (restic_row_of
       (dashboard_results "restic_age" "restic_status" "backup_job" "system"
          1%float 0%float)
       {| BackupStatus.metric := {[ "backup_job" := "system" ]};
          BackupStatus.value := 1%float |}) = FAILED_cell.
Proof.
  split; [vm_compute; reflexivity|]. split.
  - apply (proj1 (proj2 failed_status_outranks_staleness) _ _ 0%float);
      vm_compute; reflexivity.
  - apply (proj2 (proj2 failed_status_outranks_staleness) _ _ 0%float);
      vm_compute; reflexivity.
Defined.

(** C3. A replication job whose status code is 2 is RUNNING whatever
  its age: in syncoid-list for every last success time and clock
  reading, and in the dashboard for every Syncoid row whose current
  status equals 2 and every age sample. *)
Theorem in_progress_ignores_age :
  (forall last_success w,
     verdict (Some 2) last_success w =
       Return ("RUNNING", "cyan", "Replication in progress")) /\
  (forall results res s,
     syncoid_current_status results res = Some s ->
     Py.float_eq_int s 2 = true ->
     row_verdict (syncoid_row_of results res) = RUNNING_cell).
Proof.
  split; [apply verdict_in_progress|]. intros results res s Hs H2.
  rewrite syncoid_row_verdict, Hs. now apply status_and_details_running.
Qed.

Lemma in_progress_ignores_age_witness :
  verdict (Some 2) (Some 1%float) (world_at 10000%float) =
    Return ("RUNNING", "cyan", "Replication in progress") /\
  row_verdict
    (syncoid_row_of
       (dashboard_results "syncoid_age" "syncoid_status" "dataset" "tank/services/sonarr"
          999999%float 2%float)
       {| BackupStatus.metric := {[ "dataset" := "tank/services/sonarr" ]};
          BackupStatus.value := 999999%float |}) = RUNNING_cell.
Proof.
  split; [apply (proj1 in_progress_ignores_age)|].
  apply (proj2 in_progress_ignores_age _ _ 2%float); vm_compute; reflexivity.
Defined.

(** C4, as the code has it. The comparison with the threshold is
  strict: for a success status (1) an age up to and including the
  threshold yields OK, and the verdict is STALE, with the detail
  "Last success > Xh ago", exactly when the age is strictly over the
  threshold; an age that compares with nothing (NaN) therefore yields
  OK. The threshold is 26 hours in every section of the dashboard: for
  Restic rows and for Syncoid rows with status 1, and for pgBackRest
  rows without a repository error. It is 2 hours in syncoid-list, on
  the age in hours that the script computes from the clock and the
  last success time. *)
Theorem staleness_threshold_is_strict :
  (forall age system,
     get_status_for_age age system =
       (if Py.float_gt_int age (26 * 3600) then STALE_cell else OK_healthy_cell) /\
     (Py.float_le_int age (26 * 3600) = true ->
      get_status_for_age age system = OK_healthy_cell) /\
     (get_status_for_age age system = STALE_cell <->
      Py.float_gt_int age (26 * 3600) = true)) /\
  (forall results res s,
     restic_current_status results res = Some s ->
     Py.float_eq_int s 1 = true ->
     row_verdict (restic_row_of results res) =
       (if Py.float_gt_int (BackupStatus.value res) (26 * 3600) then STALE_cell
        else OK_success_cell) /\
     (Py.float_le_int (BackupStatus.value res) (26 * 3600) = true ->
      row_verdict (restic_row_of results res) = OK_success_cell) /\
     (row_verdict (restic_row_of results res) = STALE_cell <->
      Py.float_gt_int (BackupStatus.value res) (26 * 3600) = true)) /\
  (forall results res s,
     syncoid_current_status results res = Some s ->
     Py.float_eq_int s 1 = true ->
     row_verdict (syncoid_row_of results res) =
       (if Py.float_gt_int (BackupStatus.value res) (26 * 3600) then STALE_cell
        else OK_success_cell) /\
     (Py.float_le_int (BackupStatus.value res) (26 * 3600) = true ->
      row_verdict (syncoid_row_of results res) = OK_success_cell) /\
     (row_verdict (syncoid_row_of results res) = STALE_cell <->
      Py.float_gt_int (BackupStatus.value res) (26 * 3600) = true)) /\
  (forall results repo_info res,
     ~ repo_error_flagged results
         (BackupStatus.label "repo_key" "unknown" (BackupStatus.metric res)) ->
     pgbackrest_verdict (pgbackrest_row_of results repo_info res) =
       (if Py.float_gt_int (BackupStatus.value res) (26 * 3600) then STALE_cell
        else OK_healthy_cell) /\
     (Py.float_le_int (BackupStatus.value res) (26 * 3600) = true ->
      pgbackrest_verdict (pgbackrest_row_of results repo_info res) = OK_healthy_cell) /\
     (pgbackrest_verdict (pgbackrest_row_of results repo_info res) = STALE_cell <->
      Py.float_gt_int (BackupStatus.value res) (26 * 3600) = true)) /\
  (forall t w,
     verdict (Some 1) (Some t) w =
       Return (if Py.float_gt_int (age_hours w t) 2 then STALE_verdict
               else ("OK", "green", "Healthy")) /\
     (Py.float_le_int (age_hours w t) 2 = true ->
      verdict (Some 1) (Some t) w = Return ("OK", "green", "Healthy")) /\
     (verdict (Some 1) (Some t) w = Return STALE_verdict <->
      Py.float_gt_int (age_hours w t) 2 = true)).
Proof.
  assert (forall x n, Py.float_le_int x n = true -> Py.float_gt_int x n = false)
    as Hfresh by (intros x n; apply leb_not_gt).
  assert (forall (V : Type) (over : bool) (v stale ok : V) (at_or_under : bool),
            stale <> ok ->
            (at_or_under = true -> over = false) ->
            v = (if over then stale else ok) ->
            v = (if over then stale else ok) /\
            (at_or_under = true -> v = ok) /\
            (v = stale <-> over = true)) as Hstrict.
  { intros V over v stale ok at_or_under Hne Hunder ->.
    split; [reflexivity|]. split.
    - intros Hu. now rewrite (Hunder Hu).
    - destruct over; split; congruence. }
  split; [|split; [|split; [|split]]].
  - intros age system. apply Hstrict; [discriminate | apply Hfresh |].
    unfold get_status_for_age.
    change (BackupStatus.STALE_THRESHOLD_HOURS * 3600) with (26 * 3600).
    now destruct (Py.float_gt_int age (26 * 3600)).
  - intros results res s Hs H1. apply Hstrict; [discriminate | apply Hfresh |].
    rewrite restic_row_verdict, Hs. apply status_and_details_success; auto.
  - intros results res s Hs H1. apply Hstrict; [discriminate | apply Hfresh |].
    now apply (dashboard_syncoid_threshold results res s).
  - intros results repo_info res Hclean.
    apply Hstrict; [discriminate | apply Hfresh |].
    rewrite pgbackrest_row_verdict.
    destruct (has_error _ _) eqn:E; [now apply has_error_flagged in E|].
    unfold get_status_for_age.
    change (BackupStatus.STALE_THRESHOLD_HOURS * 3600) with (26 * 3600).
    now destruct (Py.float_gt_int _ (26 * 3600)).
  - intros t w. rewrite verdict_success_aged.
    change SyncoidList.STALE_THRESHOLD_HOURS with 2.
    split; [reflexivity|]. split.
    + intros Hle. now rewrite (Hfresh _ _ Hle).
    + destruct (Py.float_gt_int (age_hours w t) 2); split;
        try reflexivity; discriminate.
Qed.

Lemma staleness_threshold_is_strict_witness :
  row_verdict
    (restic_row_of
       (dashboard_results "restic_age" "restic_status" "backup_job" "system"
          93601%float 1%float)
       {| BackupStatus.metric := {[ "backup_job" := "system" ]};
          BackupStatus.value := 93601%float |}) = STALE_cell /\
  row_verdict
    (restic_row_of
       (dashboard_results "restic_age" "restic_status" "backup_job" "system"
          93600%float 1%float)
       {| BackupStatus.metric := {[ "backup_job" := "system" ]};
          BackupStatus.value := 93600%float |}) = OK_success_cell /\
  row_verdict
    (syncoid_row_of
       (dashboard_results "syncoid_age" "syncoid_status" "dataset" "tank/services/sonarr"
          93600%float 1%float)
       {| BackupStatus.metric := {[ "dataset" := "tank/services/sonarr" ]};
          BackupStatus.value := 93600%float |}) = OK_success_cell /\
  pgbackrest_verdict
    (pgbackrest_row_of (pgbackrest_results nan false) ∅
       {| BackupStatus.metric := list_to_map [("repo_key", "1"); ("type", "full")];
          BackupStatus.value := nan |}) = OK_healthy_cell /\
  verdict (Some 1) (Some 2800%float) (world_at 10000%float) =
    Return ("OK", "green", "Healthy") /\
  verdict (Some 1) (Some 2799%float) (world_at 10000%float) = Return STALE_verdict.
Proof.
  destruct staleness_threshold_is_strict as (_ & Hrestic & Hsyncoid & Hpg & Hlist).
  split; [|split; [|split; [|split; [|split]]]].
  - apply (Hrestic _ _ 1%float); vm_compute; reflexivity.
  - apply (Hrestic _ _ 1%float); vm_compute; reflexivity.
  - apply (Hsyncoid _ _ 1%float); vm_compute; reflexivity.
  - refine (eq_trans (proj1 (Hpg (pgbackrest_results nan false) ∅ _ _)) _).
    + intros (err & Hin & _). vm_compute in Hin. exact Hin.
    + vm_compute. reflexivity.
  - apply Hlist. vm_compute. reflexivity.
  - apply Hlist. vm_compute. reflexivity.
Defined.

(** C4 as stated fails in two ways. On the boundary: an age exactly at
  the threshold is at or over it, yet the verdict is OK and not STALE;
  a Restic job with status 1 and age 93600 s (26 h) is OK, and a
  replication job with status 1 whose last success is 7200 s (2 h) old
  is OK in syncoid-list. On the threshold of Replication: in the
  dashboard a Syncoid row with status 1 and an age of 3 hours, which
  is over 2 hours, is OK. *)
Lemma stale_at_threshold_counterexample :
  PrimFloat.leb (Py.float_of_int (26 * 3600)) 93600%float = true /\
  get_status_for_age 93600%float "backup" = OK_healthy_cell /\
  row_verdict
    (restic_row_of
       (dashboard_results "restic_age" "restic_status" "backup_job" "system"
          93600%float 1%float)
       {| BackupStatus.metric := {[ "backup_job" := "system" ]};
          BackupStatus.value := 93600%float |}) = OK_success_cell /\
  age_hours (world_at 10000%float) 2800%float = 2%float /\
  verdict (Some 1) (Some 2800%float) (world_at 10000%float) =
    Return ("OK", "green", "Healthy") /\
  ~ (forall age,
       PrimFloat.leb (Py.float_of_int (26 * 3600)) age = true ->
       (get_status_for_age age "backup").1 = "[bold yellow]STALE[/bold yellow]") /\
  Py.float_gt_int 10800%float (2 * 3600) = true /\
  syncoid_rows
    (dashboard_results "syncoid_age" "syncoid_status" "dataset" "tank/services/sonarr"
       10800%float 1%float) =
    [("tank/services/sonarr", "unknown", 10800%float,
      "[bold green]OK[/bold green]", "Success")].
Proof.
  repeat split; try (vm_compute; reflexivity).
  intros Hall. specialize (Hall 93600%float eq_refl). vm_compute in Hall. discriminate.
Qed.

(** C5, as the code has it. A replication job with status 1 (success)
  and no last success time is reported OK with the detail
  "Healthy (no timestamp)": the missing age is not examined and the
  verdict is neither UNKNOWN nor STALE. *)
Theorem success_without_timestamp_is_ok :
  forall w,
    verdict (Some 1) None w = Return ("OK", "green", "Healthy (no timestamp)").
Proof. apply verdict_success_no_timestamp. Qed.

(** C5 as stated fails: with status 1 and no last success time the
  verdict is OK, not UNKNOWN. *)
Lemma success_without_timestamp_counterexample :
  verdict (Some 1) None (world_at 1764370000%float) =
    Return ("OK", "green", "Healthy (no timestamp)") /\
  verdict (Some 1) None (world_at 1764370000%float) <> Return UNKNOWN_verdict.
Proof. split; [reflexivity | discriminate]. Qed.

(** C6. Every pgBackRest age sample yields a row of the section with
  its repository key and its age. When a sample of the repository
  error query carries that key the row is ERROR with the detail
  "Repository error", whatever the age; otherwise the row is what the
  staleness check on the age gives. *)
Theorem repository_error_outranks_age :
  forall results res,
    In res (results_get results "pgbackrest_age") ->
    exists row,
      In row (pgbackrest_rows results) /\
      pgbackrest_repo row =
        BackupStatus.label "repo_key" "unknown" (BackupStatus.metric res) /\
      pgbackrest_age row = BackupStatus.value res /\
      (repo_error_flagged results (pgbackrest_repo row) ->
       pgbackrest_verdict row = ERROR_cell) /\
      (~ repo_error_flagged results (pgbackrest_repo row) ->
       pgbackrest_verdict row = get_status_for_age (BackupStatus.value res) "backup").
Proof.
  intros results res Hin.
  set (repo_info := build_repo_info (results_get results "pgbackrest_repo_info") ∅).
  exists (pgbackrest_row_of results repo_info res).
  assert (pgbackrest_repo (pgbackrest_row_of results repo_info res) =
            BackupStatus.label "repo_key" "unknown" (BackupStatus.metric res)) as Hrepo.
  { unfold pgbackrest_row_of, pgbackrest_repo.
    now destruct (if has_error _ _ then _ else _). }
  assert (pgbackrest_age (pgbackrest_row_of results repo_info res) =
            BackupStatus.value res) as Hage.
  { unfold pgbackrest_row_of, pgbackrest_age.
    now destruct (if has_error _ _ then _ else _). }
  split; [|split; [exact Hrepo|split; [exact Hage|]]].
  - unfold pgbackrest_rows. apply In_sorted, in_map, Hin.
  - rewrite Hrepo, pgbackrest_row_verdict. split; intros Hflag.
    + apply has_error_flagged in Hflag. now rewrite Hflag.
    + destruct (has_error _ _) eqn:E; [|reflexivity].
      now apply has_error_flagged in E.
Qed.

Lemma repository_error_outranks_age_witness :
  exists row,
    In row (pgbackrest_rows (pgbackrest_results 10%float true)) /\
    pgbackrest_age row = 10%float /\
    pgbackrest_verdict row = ERROR_cell.
Proof.
  destruct (repository_error_outranks_age (pgbackrest_results 10%float true)
              {| BackupStatus.metric := list_to_map [("repo_key", "1"); ("type", "full")];
                 BackupStatus.value := 10%float |})
    as (row & Hin & Hrepo & Hage & Hflagged & _).
  - vm_compute. now left.
  - exists row. split; [exact Hin|]. split; [exact Hage|].
    apply Hflagged. rewrite Hrepo.
    exists {| BackupStatus.metric := {[ "repo_key" := "1" ]};
              BackupStatus.value := 2%float |}.
    split; [vm_compute; now left | vm_compute; reflexivity].
Defined.

(** C7. The verdict of [get_status_display] is determined by the status
  code, the last success time and the reading of the clock: in any two
  worlds whose clocks read the same time the call returns, and returns
  the same status text, colour and detail. *)
Theorem normaliser_is_deterministic :
  forall status last_success w1 w2,
    now_of w1 = now_of w2 ->
    verdict status last_success w1 = verdict status last_success w2 /\
    exists v, verdict status last_success w1 = Return v.
Proof.
  intros status last_success w1 w2 Hnow.
  unfold verdict, get_status_display, bind, datetime_now_timestamp, ret.
  unfold now_of in Hnow. simpl. rewrite Hnow. eauto.
Qed.

Lemma normaliser_is_deterministic_witness :
  verdict (Some 1) (Some 2799%float) (world_at 10000%float) =
  verdict (Some 1) (Some 2799%float)
    {| clock := fun n => if Nat.eqb n 3 then 10000%float else 5%float;
       reads := 3;
       console := [ConsolePrint "[dim]Connecting to forge.holthome.net...[/dim]"] |}.
Proof.
  apply (normaliser_is_deterministic (Some 1) (Some 2799%float)
           (world_at 10000%float)
           {| clock := fun n => if Nat.eqb n 3 then 10000%float else 5%float;
              reads := 3;
              console := [ConsolePrint "[dim]Connecting to forge.holthome.net...[/dim]"] |}).
  reflexivity.
Defined.

(** C10. In syncoid-list a status code other than 0, 1 and 2 is treated
  exactly as an absent one, for every last success time and clock
  reading: STALE when the age exceeds the threshold of 2 hours, and
  otherwise, also without a last success time, UNKNOWN with the detail
  "No status metric". The verdict is never RUNNING, FAILED or OK. *)
Theorem out_of_range_status_is_like_absent :
  forall s last_success w,
    s <> 0 -> s <> 1 -> s <> 2 ->
    verdict (Some s) last_success w = verdict None last_success w /\
    verdict (Some s) last_success w =
      Return (match last_success with
              | Some t =>
                  if Py.float_gt_int (age_hours w t) 2 then STALE_verdict
                  else UNKNOWN_verdict
              | None => UNKNOWN_verdict
              end).
Proof.
  intros s last_success w H0 H1 H2.
  rewrite (verdict_other (Some s)) by congruence.
  rewrite (verdict_other None) by congruence.
  split; reflexivity.
Qed.

Lemma out_of_range_status_is_like_absent_witness :
  verdict (Some 3) (Some 2799%float) (world_at 10000%float) = Return STALE_verdict /\
  verdict (Some (-1)) (Some 2800%float) (world_at 10000%float) = Return UNKNOWN_verdict /\
  verdict (Some 3) None (world_at 10000%float) = verdict None None (world_at 10000%float).
Proof.
  split; [|split].
  - rewrite (proj2 (out_of_range_status_is_like_absent 3 (Some 2799%float)
                      (world_at 10000%float) ltac:(lia) ltac:(lia) ltac:(lia))).
    vm_compute. reflexivity.
  - rewrite (proj2 (out_of_range_status_is_like_absent (-1) (Some 2800%float)
                      (world_at 10000%float) ltac:(lia) ltac:(lia) ltac:(lia))).
    vm_compute. reflexivity.
  - apply (out_of_range_status_is_like_absent 3 None (world_at 10000%float)); lia.
Defined.

(** C8. The verdict does not depend on where a signal comes from. Two
  jobs with the same status code and the same last success time get
  the same verdict in the same world, whatever their other fields; and
  two job lists with the same signals, one reported in mode
  "prometheus" and one in mode "verify", give JSON reports with the
  same status texts and details and the same summary. *)
Theorem provenance_does_not_leak :
  (forall jp jv w,
     signal_of jp = signal_of jv ->
     verdict (status jp) (last_success jp) w =
     verdict (status jv) (last_success jv) w) /\
  (forall jobs_p jobs_v host w,
     map signal_of jobs_p = map signal_of jobs_v ->
     exists out_p out_v w',
       json_output_of jobs_p host "prometheus" w = (Return out_p, w') /\
       json_output_of jobs_v host "verify" w = (Return out_v, w') /\
       map json_verdict (jo_jobs out_p) = map json_verdict (jo_jobs out_v) /\
       jo_summary out_p = jo_summary out_v).
Proof.
  split.
  - intros jp jv w [= -> ->]. reflexivity.
  - intros jobs_p jobs_v host w Hsig.
    destruct (json_loop_same_signal _ _ initial_stats w Hsig)
      as (stats' & o1 & o2 & w' & E1 & E2 & Hv).
    assert (length jobs_p = length jobs_v) as Hlen
      by (rewrite <- (length_map signal_of jobs_p), Hsig; apply length_map).
    unfold json_output_of, bind. rewrite E1, E2. unfold ret.
    eexists _, _, _. split; [reflexivity|]. split; [reflexivity|].
    cbn. now rewrite Hv, Hlen.
Qed.

Lemma provenance_does_not_leak_witness :
  exists jobs_p out_p out_v w',
    get_syncoid_metrics_from_prometheus (example_env both_statuses)
      DEFAULT_PROMETHEUS_URL None = Return jobs_p /\
    json_output_of jobs_p "forge.holthome.net" "prometheus"
      (world_at 1764370000%float) = (Return out_p, w') /\
    json_output_of
      (get_syncoid_verify_data (example_env both_statuses) "forge.holthome.net")
      "forge.holthome.net" "verify" (world_at 1764370000%float) = (Return out_v, w') /\
    map json_verdict (jo_jobs out_p) =
      [("FAILED", "Last run failed"); ("OK", "Healthy")] /\
    map json_verdict (jo_jobs out_p) = map json_verdict (jo_jobs out_v) /\
    jo_summary out_p = jo_summary out_v.
Proof.
  eexists.
  edestruct (proj2 provenance_does_not_leak) as (out_p & out_v & w' & Ep & Ev & Hv & Hs);
    [|exists out_p, out_v, w'; split; [vm_compute; reflexivity|];
      split; [exact Ep|]; split; [exact Ev|]; split; [|split; [exact Hv | exact Hs]]].
  - vm_compute. reflexivity.
  - vm_compute in Ep. injection Ep as <- _. vm_compute. reflexivity.
Defined.

(** C9, as the code has it. When the acquisition succeeds and the
  filters leave no job, as they do when a dataset or target filter
  that is given matches no job, the JSON mode prints a report with an
  empty job list and all summary counts zero and exits with status 0;
  the table mode prints "No syncoid replication jobs found." and the
  data source and exits with status 1. In both modes the run prints
  and returns exactly what a run with the same command line does whose
  acquisition finds no job at all. *)
Theorem empty_filter_result :
  forall env args w jobs mode,
    acquired env args = Some (jobs, mode) ->
    (matches_none env (arg_dataset args) dataset jobs \/
     matches_none env (arg_target args) target_host jobs ->
     apply_filters env args jobs = []) /\
    (apply_filters env args jobs = [] ->
     (arg_json args = true ->
      main env args w =
        (Return 0,
         after_printing
           (preamble args ++ [PrintJson (empty_report (fqdn_of args) mode)]) w)) /\
     (arg_json args = false ->
      main env args w =
        (Return 1, after_printing (preamble args ++ no_jobs_lines args) w)) /\
     (forall env',
        acquired env' args = Some ([], mode) ->
        main env args w = main env' args w)).
Proof.
  intros env args w jobs mode Hacq.
  split; [apply filters_leave_nothing|]. intros Hempty.
  pose proof (main_after_acquisition env args w jobs mode Hacq) as Hmain.
  rewrite Hempty in Hmain. split; [|split].
  - intros Hjson. rewrite Hmain, Hjson. unfold bind.
    rewrite print_json_output_nil. unfold ret, after_printing.
    cbn [clock reads console]. now rewrite <- app_assoc.
  - intros Hjson. rewrite Hmain, Hjson. unfold bind, emit, ret, after_printing.
    cbn [clock reads console]. unfold no_jobs_lines. now rewrite <- !app_assoc.
  - intros env' Hacq'.
    rewrite Hmain, (main_after_acquisition env' args w [] mode Hacq').
    assert (apply_filters env' args [] = []) as ->; [|reflexivity].
    unfold apply_filters, filter_jobs.
    now destruct (given (arg_dataset args)), (given (arg_target args)).
Qed.

Lemma empty_filter_result_witness :
  main (example_env both_statuses) (example_args (Some "radarr") false true)
    (world_at 1764370000%float) =
    (Return 0,
     after_printing [PrintJson (empty_report "forge.holthome.net" "prometheus")]
       (world_at 1764370000%float)) /\
  main (example_env both_statuses) (example_args (Some "radarr") false false)
    (world_at 1764370000%float) =
    (Return 1,
     after_printing
       [ConsolePrint "[yellow]No syncoid replication jobs found.[/yellow]";
        ConsolePrint "[dim]Data source: http://forge.holthome.net:9090[/dim]"]
       (world_at 1764370000%float)) /\
  main (example_env both_statuses) (example_args (Some "radarr") false false)
    (world_at 1764370000%float) =
  main silent_env (example_args (Some "radarr") false false) (world_at 1764370000%float).
Proof.
  assert (forall json,
            exists jobs,
              acquired (example_env both_statuses) (example_args (Some "radarr") false json) =
                Some (jobs, "prometheus") /\
              matches_none (example_env both_statuses)
                (arg_dataset (example_args (Some "radarr") false json)) dataset jobs)
    as Hin.
  { intros json. eexists. split; [vm_compute; reflexivity|].
    split; [reflexivity|].
    intros j [<- | [<- | []]]; vm_compute; reflexivity. }
  split; [|split].
  - destruct (Hin true) as (jobs & Hacq & Hnone).
    destruct (empty_filter_result (example_env both_statuses)
                (example_args (Some "radarr") false true) (world_at 1764370000%float)
                jobs "prometheus" Hacq) as [Hleave Hrun].
    exact (proj1 (Hrun (Hleave (or_introl Hnone))) eq_refl).
  - destruct (Hin false) as (jobs & Hacq & Hnone).
    destruct (empty_filter_result (example_env both_statuses)
                (example_args (Some "radarr") false false) (world_at 1764370000%float)
                jobs "prometheus" Hacq) as [Hleave Hrun].
    exact (proj1 (proj2 (Hrun (Hleave (or_introl Hnone)))) eq_refl).
  - destruct (Hin false) as (jobs & Hacq & Hnone).
    destruct (empty_filter_result (example_env both_statuses)
                (example_args (Some "radarr") false false) (world_at 1764370000%float)
                jobs "prometheus" Hacq) as [Hleave Hrun].
    apply (proj2 (proj2 (Hrun (Hleave (or_introl Hnone))))).
    vm_compute. reflexivity.
Defined.

(** C9 as stated fails in the table mode: the dataset filter "radarr"
  matches neither of the two acquired jobs, and the run exits with
  status 1, printing exactly what a run prints whose acquisition finds
  no job at all. *)
Lemma empty_filter_result_counterexample :
  (exists jobs,
     acquired (example_env both_statuses) (example_args (Some "radarr") false false) =
       Some (jobs, "prometheus") /\
     length jobs = 2%nat /\
     matches_none (example_env both_statuses) (Some "radarr") dataset jobs) /\
  (main (example_env both_statuses) (example_args (Some "radarr") false false)
     (world_at 1764370000%float)).1 = Return 1 /\
  (main (example_env both_statuses) (example_args (Some "radarr") false false)
     (world_at 1764370000%float)).1 <> Return 0 /\
  main (example_env both_statuses) (example_args (Some "radarr") false false)
    (world_at 1764370000%float) =
  main silent_env (example_args None false false) (world_at 1764370000%float).
Proof.
  split; [|split; [vm_compute; reflexivity|split; [vm_compute; discriminate|]]].
  - eexists. split; [vm_compute; reflexivity|]. split; [reflexivity|].
    split; [reflexivity|].
    intros j [<- | [<- | []]]; vm_compute; reflexivity.
  - vm_compute. reflexivity.
Qed.

End Claims.

(** * Further properties of the two scripts *)

(** ** The verdicts of syncoid-list *)

Section DisplayFacts.
Import SyncoidList.

(** OK is only ever reported for status 1: a job without a status, or
  with any other status, is never OK whatever its last success time.
  With a last success time the age is then not over the threshold. *)
Theorem ok_requires_success_status :
  forall status last_success w colour details,
    verdict status last_success w = Return ("OK", colour, details) ->
    status = Some 1 /\
    match last_success with
    | Some t =>
        Py.float_gt_int (age_hours w t) STALE_THRESHOLD_HOURS = false /\
        details = "Healthy"
    | None => details = "Healthy (no timestamp)"
    end.
Proof.
  intros status last_success w colour details.
  destruct (decide (status = Some 1)) as [-> | H1].
  - destruct last_success as [t|].
    + rewrite verdict_success_aged.
      destruct (Py.float_gt_int _ _); [discriminate|].
      intros [= <- <-]. auto.
    + rewrite verdict_success_no_timestamp. intros [= <- <-]. auto.
  - destruct (decide (status = Some 0)) as [-> | H0]; [discriminate|].
    destruct (decide (status = Some 2)) as [-> | H2]; [discriminate|].
    rewrite verdict_other by assumption.
    destruct last_success as [t|]; [destruct (Py.float_gt_int _ _)|]; discriminate.
Qed.

Lemma ok_requires_success_status_witness :
  Some 1 = Some 1 /\
  Py.float_gt_int (age_hours (world_at 10000%float) 2800%float)
    STALE_THRESHOLD_HOURS = false /\
  "Healthy" = "Healthy".
Proof.
  apply (ok_requires_success_status (Some 1) (Some 2800%float)
           (world_at 10000%float) "green" "Healthy").
  vm_compute. reflexivity.
Defined.

(** STALE is reported exactly when the status is neither failed (0) nor
  in progress (2), a last success time is known and the age computed
  from it is over the threshold: a missing last success time never
  makes a job STALE, with or without a status. *)
Theorem stale_iff_overdue :
  forall status last_success w,
    (exists colour details,
       verdict status last_success w = Return ("STALE", colour, details)) <->
    status <> Some 0 /\ status <> Some 2 /\
    exists t,
      last_success = Some t /\
      Py.float_gt_int (age_hours w t) STALE_THRESHOLD_HOURS = true.
Proof.
  intros status last_success w. split.
  - intros (colour & details & Hv).
    destruct (decide (status = Some 0)) as [-> | H0]; [discriminate|].
    destruct (decide (status = Some 2)) as [-> | H2]; [discriminate|].
    split; [assumption|]. split; [assumption|].
    destruct (decide (status = Some 1)) as [-> | H1].
    + destruct last_success as [t|]; [|discriminate].
      rewrite verdict_success_aged in Hv.
      destruct (Py.float_gt_int _ _) eqn:E; [eauto | discriminate].
    + rewrite verdict_other in Hv by assumption.
      destruct last_success as [t|]; [|discriminate].
      destruct (Py.float_gt_int _ _) eqn:E; [eauto | discriminate].
  - intros (H0 & H2 & t & -> & Hage). exists "yellow", "Last success > 2h ago".
    destruct (decide (status = Some 1)) as [-> | H1].
    + rewrite verdict_success_aged, Hage. reflexivity.
    + rewrite verdict_other, Hage by assumption. reflexivity.
Qed.

Lemma verdict_palette :
  forall status last_success w,
    exists text colour details,
      verdict status last_success w = Return (text, colour, details) /\
      In (text, colour) palette.
Proof.
  intros status last_success w.
  destruct (decide (status = Some 2)) as [-> | H2].
  { eexists _, _, _. split; [apply verdict_in_progress|]. simpl. auto. }
  destruct (decide (status = Some 0)) as [-> | H0].
  { eexists _, _, _. split; [apply verdict_failed|]. simpl. auto. }
  destruct (decide (status = Some 1)) as [-> | H1].
  - destruct last_success as [t|].
    + rewrite verdict_success_aged.
      destruct (Py.float_gt_int _ _); eexists _, _, _;
        (split; [reflexivity | simpl; auto 6]).
    + eexists _, _, _. split; [apply verdict_success_no_timestamp|]. simpl. auto 6.
  - rewrite verdict_other by assumption.
    destruct last_success as [t|]; [destruct (Py.float_gt_int _ _)|];
      eexists _, _, _; (split; [reflexivity | simpl; auto 6]).
Qed.

(** Whatever the inputs, the call returns one of five status texts,
  each always with the same colour. *)
Theorem verdict_in_palette :
  forall status last_success w,
    exists text colour details,
      verdict status last_success w = Return (text, colour, details) /\
      In (text, colour) palette.
Proof. exact verdict_palette. Qed.

End DisplayFacts.

(** ** The JSON report: jobs and summary *)

Section JsonFacts.
Import SyncoidList.

Lemma after_reads_0 w : after_reads 0 w = w.
Proof. destruct w. unfold after_reads. simpl. f_equal. lia. Qed.

Lemma after_reads_S i w :
  after_reads i {| clock := clock w; reads := S (reads w); console := console w |} =
  after_reads (S i) w.
Proof. unfold after_reads. simpl. f_equal. lia. Qed.

(** Lower-casing tells the five status texts apart. *)
Lemma lower_palette_inj t t' :
  In t (map fst palette) -> In t' (map fst palette) ->
  Py.lower t = Py.lower t' -> t = t'.
Proof.
  simpl. intros Ht Ht' Heq.
  repeat (destruct Ht as [<- | Ht]; [|]); try contradiction;
    repeat (destruct Ht' as [<- | Ht']; [|]); try contradiction;
    try reflexivity; discriminate Heq.
Qed.

Lemma count_text_cons text jj outs :
  count_text text (jj :: outs) =
  (if String.eqb (jj_status_text jj) text then 1 else 0) + count_text text outs.
Proof.
  unfold count_text. cbn [List.filter].
  destruct (String.eqb _ _); cbn [length]; lia.
Qed.

(** The loop of [print_json_output]: it returns, having read the clock
  once per job and printed nothing; it copies every job in order,
  judges the [i]-th job with the [i]-th reading, and adds to each
  count the number of reported jobs with that status text. *)
Lemma json_loop_spec jobs stats w :
  (forall text, In text (map fst palette) -> is_Some (stats !! Py.lower text)) ->
  exists stats' outs,
    json_loop jobs stats w = (Return (stats', outs), after_reads (length jobs) w) /\
    map reported_fields outs = map copied_fields jobs /\
    (forall i j,
       jobs !! i = Some j ->
       exists jj colour,
         outs !! i = Some jj /\
         verdict (status j) (last_success j) (after_reads i w) =
           Return (jj_status_text jj, colour, jj_details jj)) /\
    Forall (fun jj => In (jj_status_text jj) (map fst palette)) outs /\
    (forall text,
       In text (map fst palette) ->
       stats' !!! Py.lower text = stats !!! Py.lower text + count_text text outs).
Proof.
  revert stats w. induction jobs as [|j jobs IH]; intros stats w Hkeys.
  - exists stats, []. rewrite after_reads_0. repeat split; auto.
    + intros i j Hi. discriminate.
    + intros text _. unfold count_text. simpl. lia.
  - destruct (verdict_palette (status j) (last_success j) w)
      as (text & colour & details & Hv & Hin).
    destruct (get_status_display_runs (status j) (last_success j) w) as [v Hrun].
    assert (v = (text, colour, details)) as ->
      by (unfold verdict in Hv; rewrite Hrun in Hv; simpl in Hv; congruence).
    assert (In text (map fst palette)) as Htext
      by (apply (in_map fst) in Hin; exact Hin).
    cbn [json_loop]. unfold bind at 1. rewrite Hrun. cbv beta iota zeta.
    destruct (decide (is_Some (stats !! Py.lower text))) as [_|Hno];
      [|destruct Hno; auto].
    set (w1 := {| clock := clock w; reads := S (reads w); console := console w |}).
    destruct (IH (increment (Py.lower text) stats) w1)
      as (stats' & outs & Eloop & Hfields & Hverdicts & Hpal & Hcount).
    { intros t Ht. unfold increment. apply lookup_insert_is_Some.
      destruct (decide (Py.lower text = Py.lower t)); auto. }
    unfold bind. rewrite Eloop. unfold ret.
    eexists _, _. split; [subst w1; rewrite after_reads_S; reflexivity|].
    split; [cbn [map]; now rewrite Hfields|].
    split; [|split].
    + intros [|i] j' Hi.
      * injection Hi as <-. eexists _, colour. split; [reflexivity|].
        rewrite after_reads_0. exact Hv.
      * destruct (Hverdicts i j' Hi) as (jj & c & Hjj & Hjv).
        exists jj, c. split; [exact Hjj|].
        subst w1. rewrite after_reads_S in Hjv. exact Hjv.
    + constructor; [exact Htext | exact Hpal].
    + intros t Ht. rewrite (Hcount t Ht), count_text_cons. cbn [jj_status_text].
      unfold increment. rewrite lookup_total_insert.
      destruct (decide (Py.lower text = Py.lower t)) as [Heq|Hne].
      * apply (lower_palette_inj _ _ Htext Ht) in Heq. subst t.
        rewrite String.eqb_refl. lia.
      * destruct (String.eqb_spec text t) as [->|_]; [congruence | lia].
Qed.

Lemma initial_stats_keys text :
  In text (map fst palette) -> is_Some (initial_stats !! Py.lower text).
Proof.
  simpl. intros Ht.
  repeat (destruct Ht as [<- | Ht]; [vm_compute; eauto|]). contradiction.
Qed.

Lemma initial_stats_zero text :
  In text (map fst palette) -> initial_stats !!! Py.lower text = 0.
Proof.
  simpl. intros Ht.
  repeat (destruct Ht as [<- | Ht]; [vm_compute; reflexivity|]). contradiction.
Qed.

(** Every reported job carries exactly one of the five status texts. *)
Lemma count_text_total outs :
  Forall (fun jj => In (jj_status_text jj) (map fst palette)) outs ->
  count_text "RUNNING" outs + count_text "FAILED" outs + count_text "STALE" outs +
  count_text "OK" outs + count_text "UNKNOWN" outs = Z.of_nat (length outs).
Proof.
  induction 1 as [|jj outs Hjj _ IH].
  - reflexivity.
  - rewrite !count_text_cons. cbn [length]. simpl in Hjj.
    repeat (destruct Hjj as [<- | Hjj]; [simpl; lia|]). contradiction.
Qed.

Lemma json_output_of_spec :
  forall jobs host mode w,
    exists out,
      json_output_of jobs host mode w = (Return out, after_reads (length jobs) w) /\
      jo_host out = host /\ jo_mode out = mode /\
      map reported_fields (jo_jobs out) = map copied_fields jobs /\
      forall i j,
        jobs !! i = Some j ->
        exists jj colour,
          jo_jobs out !! i = Some jj /\
          verdict (status j) (last_success j) (after_reads i w) =
            Return (jj_status_text jj, colour, jj_details jj).
Proof.
  intros jobs host mode w.
  destruct (json_loop_spec jobs initial_stats w initial_stats_keys)
    as (stats' & outs & Eloop & Hfields & Hverdicts & _ & _).
  unfold json_output_of, bind. rewrite Eloop. unfold ret.
  eexists. split; [reflexivity|]. cbn. auto.
Qed.

(** The JSON report never fails and is complete: it reads the clock
  once per job and prints nothing itself, carries the host and the
  mode it is given, lists every job in the order given with its
  fields unchanged, and gives the [i]-th job the verdict of
  [get_status_display] at the [i]-th reading of the clock. *)
Theorem json_report_lists_every_job :
  forall jobs host mode w,
    exists out,
      json_output_of jobs host mode w = (Return out, after_reads (length jobs) w) /\
      jo_host out = host /\ jo_mode out = mode /\
      map reported_fields (jo_jobs out) = map copied_fields jobs /\
      forall i j,
        jobs !! i = Some j ->
        exists jj colour,
          jo_jobs out !! i = Some jj /\
          verdict (status j) (last_success j) (after_reads i w) =
            Return (jj_status_text jj, colour, jj_details jj).
Proof. exact json_output_of_spec. Qed.

Lemma json_report_lists_every_job_witness :
  exists out jj colour,
    json_output_of [Examples.sonarr_info_only; Examples.plex_acquired]
      "forge.holthome.net" "prometheus" (world_at 1764370000%float) =
      (Return out, after_reads 2 (world_at 1764370000%float)) /\
    jo_jobs out !! 1%nat = Some jj /\
    verdict (status Examples.plex_acquired) (last_success Examples.plex_acquired)
      (after_reads 1 (world_at 1764370000%float)) =
      Return (jj_status_text jj, colour, jj_details jj).
Proof.
  destruct (json_report_lists_every_job
              [Examples.sonarr_info_only; Examples.plex_acquired]
              "forge.holthome.net" "prometheus" (world_at 1764370000%float))
    as (out & Hout & _ & _ & _ & Hverdicts).
  destruct (Hverdicts 1%nat Examples.plex_acquired eq_refl) as (jj & colour & Hjj & Hv).
  exists out, jj, colour. auto.
Defined.

(** The summary of the JSON report agrees with the jobs it lists: each
  count is the number of listed jobs with that status text, [total] is
  the number of listed jobs and [healthy] is [ok + running]. UNKNOWN
  jobs have no count of their own: they are what [total] exceeds the
  four counts by. *)
Theorem json_summary_counts_listed_jobs :
  forall jobs host mode w,
    exists out w',
      json_output_of jobs host mode w = (Return out, w') /\
      total (jo_summary out) = Z.of_nat (length (jo_jobs out)) /\
      ok (jo_summary out) = count_text "OK" (jo_jobs out) /\
      running (jo_summary out) = count_text "RUNNING" (jo_jobs out) /\
      stale (jo_summary out) = count_text "STALE" (jo_jobs out) /\
      failed (jo_summary out) = count_text "FAILED" (jo_jobs out) /\
      healthy (jo_summary out) = ok (jo_summary out) + running (jo_summary out) /\
      total (jo_summary out) =
        ok (jo_summary out) + running (jo_summary out) + stale (jo_summary out) +
        failed (jo_summary out) + count_text "UNKNOWN" (jo_jobs out).
Proof.
  intros jobs host mode w.
  destruct (json_loop_spec jobs initial_stats w initial_stats_keys)
    as (stats' & outs & Eloop & Hfields & _ & Hpal & Hcount).
  assert (length outs = length jobs) as Hlen
    by (rewrite <- (length_map reported_fields outs), Hfields; apply length_map).
  assert (forall text, In text (map fst palette) ->
            stats' !!! Py.lower text = count_text text outs) as Hc.
  { intros text Ht. rewrite (Hcount text Ht), (initial_stats_zero text Ht). lia. }
  pose proof (Hc "OK" ltac:(simpl; auto 6)) as Hok.
  pose proof (Hc "RUNNING" ltac:(simpl; auto 6)) as Hrunning.
  pose proof (Hc "STALE" ltac:(simpl; auto 6)) as Hstale.
  pose proof (Hc "FAILED" ltac:(simpl; auto 6)) as Hfailed.
  change (Py.lower "OK") with "ok" in Hok.
  change (Py.lower "RUNNING") with "running" in Hrunning.
  change (Py.lower "STALE") with "stale" in Hstale.
  change (Py.lower "FAILED") with "failed" in Hfailed.
  pose proof (count_text_total outs Hpal) as Htotal.
  unfold json_output_of, bind. rewrite Eloop. unfold ret.
  eexists _, _. split; [reflexivity|].
  cbn [jo_summary jo_jobs total ok running stale failed healthy].
  rewrite Hok, Hrunning, Hstale, Hfailed, <- Hlen.
  repeat split; lia.
Qed.

End JsonFacts.

(** ** Sorting *)

Section StringOrder.

Lemma ascii_compare_refl (a : ascii) : Ascii.compare a a = Eq.
Proof. apply N.compare_refl. Qed.

Lemma ascii_compare_lt_trans (a b c : ascii) :
  Ascii.compare a b = Lt -> Ascii.compare b c = Lt -> Ascii.compare a c = Lt.
Proof.
  unfold Ascii.compare. rewrite !N.compare_lt_iff. apply N.lt_trans.
Qed.

Lemma string_compare_refl (s : string) : String.compare s s = Eq.
Proof. induction s as [|a s IH]; simpl; [|rewrite ascii_compare_refl]; auto. Qed.

Lemma string_compare_lt_trans (a b c : string) :
  String.compare a b = Lt -> String.compare b c = Lt -> String.compare a c = Lt.
Proof.
  revert b c. induction a as [|x a IH]; intros [|y b] [|z c]; simpl;
    try discriminate; auto.
  destruct (Ascii.compare x y) eqn:Exy; try discriminate;
    destruct (Ascii.compare y z) eqn:Eyz; try discriminate; intros Hab Hbc.
  - apply Ascii.compare_eq_iff in Exy, Eyz. subst.
    rewrite ascii_compare_refl. eauto.
  - apply Ascii.compare_eq_iff in Exy. subst. now rewrite Eyz.
  - apply Ascii.compare_eq_iff in Eyz. subst. now rewrite Exy.
  - now rewrite (ascii_compare_lt_trans _ _ _ Exy Eyz).
Qed.

Lemma string_ltb_asym (a b : string) :
  String.ltb a b = true -> String.ltb b a = false.
Proof.
  unfold String.ltb. rewrite (String.compare_antisym b a).
  destruct (String.compare a b); simpl; congruence.
Qed.

(** Two strings neither of which is below the other are equal. *)
Lemma string_ltb_connected (a b : string) :
  String.ltb a b = false -> String.ltb b a = false -> a = b.
Proof.
  unfold String.ltb. rewrite (String.compare_antisym b a).
  destruct (String.compare a b) eqn:E; simpl; try discriminate.
  intros _ _. now apply String.compare_eq_iff.
Qed.

Lemma string_ltb_negtrans (a b c : string) :
  String.ltb b a = false -> String.ltb c b = false -> String.ltb c a = false.
Proof.
  unfold String.ltb.
  rewrite (String.compare_antisym b a), (String.compare_antisym c b),
    (String.compare_antisym c a).
  destruct (String.compare a b) eqn:Eab; simpl; try discriminate;
    destruct (String.compare b c) eqn:Ebc; simpl; try discriminate; intros _ _.
  - apply String.compare_eq_iff in Eab, Ebc. subst. now rewrite string_compare_refl.
  - apply String.compare_eq_iff in Eab. subst. now rewrite Ebc.
  - apply String.compare_eq_iff in Ebc. subst. now rewrite Eab.
  - now rewrite (string_compare_lt_trans _ _ _ Eab Ebc).
Qed.

Lemma pair_ltb_asym (p q : string * string) :
  Py.pair_ltb p q = true -> Py.pair_ltb q p = false.
Proof.
  unfold Py.pair_ltb. destruct p as [p1 p2], q as [q1 q2]. simpl.
  destruct (String.ltb p1 q1) eqn:E1; simpl.
  - intros _. rewrite (string_ltb_asym _ _ E1). simpl.
    destruct (String.eqb_spec q1 p1) as [->|_]; [|reflexivity].
    unfold String.ltb in E1. now rewrite string_compare_refl in E1.
  - destruct (String.eqb_spec p1 q1) as [->|_]; [|discriminate]. simpl.
    intros E2. rewrite E1, String.eqb_refl, (string_ltb_asym _ _ E2). reflexivity.
Qed.

Lemma pair_ltb_negtrans (p q r : string * string) :
  Py.pair_ltb q p = false -> Py.pair_ltb r q = false -> Py.pair_ltb r p = false.
Proof.
  unfold Py.pair_ltb. destruct p as [p1 p2], q as [q1 q2], r as [r1 r2]. simpl.
  rewrite !orb_false_iff, !andb_false_iff.
  intros [Hqp Hqp2] [Hrq Hrq2].
  split; [exact (string_ltb_negtrans _ _ _ Hqp Hrq)|].
  destruct (String.eqb_spec r1 p1) as [->|_]; [right | now left].
  assert (q1 = p1) as -> by (symmetry; now apply string_ltb_connected).
  rewrite String.eqb_refl in Hqp2, Hrq2.
  destruct Hqp2 as [|Hqp2]; [discriminate|].
  destruct Hrq2 as [|Hrq2]; [discriminate|].
  exact (string_ltb_negtrans _ _ _ Hqp2 Hrq2).
Qed.

End StringOrder.

Section SortedFacts.
Context {A K : Type} (lt : K -> K -> bool) (key : A -> K).
Hypothesis lt_asym : forall a b, lt a b = true -> lt b a = false.
Hypothesis lt_negtrans :
  forall a b c, lt b a = false -> lt c b = false -> lt c a = false.

Lemma sorted_permutation (l : list A) : Permutation (Py.sorted lt key l) l.
Proof.
  unfold Py.sorted. induction l as [|x l IH]; simpl; [constructor|].
  transitivity (x :: foldr (Py.insert_by_key lt key) [] l); [|now constructor].
  generalize (foldr (Py.insert_by_key lt key) [] l). clear IH.
  intros s. induction s as [|y s IH]; simpl; [reflexivity|].
  destruct (lt (key y) (key x)); [|reflexivity].
  rewrite IH. apply perm_swap.
Qed.

Lemma insert_strongly_sorted (x : A) (l : list A) :
  StronglySorted (fun a b => lt (key b) (key a) = false) l ->
  StronglySorted (fun a b => lt (key b) (key a) = false) (Py.insert_by_key lt key x l).
Proof.
  induction 1 as [|y l Hl IH Hy]; simpl.
  - repeat constructor.
  - destruct (lt (key y) (key x)) eqn:E.
    + constructor; [exact IH|].
      rewrite List.Forall_forall in *. intros z Hz.
      apply In_insert_by_key in Hz as [-> | Hz]; [|auto].
      now apply lt_asym.
    + constructor; [now constructor|].
      constructor; [exact E|].
      rewrite List.Forall_forall in *. intros z Hz.
      eapply lt_negtrans; [exact E | auto].
Qed.

Lemma sorted_strongly_sorted (l : list A) :
  StronglySorted (fun a b => lt (key b) (key a) = false) (Py.sorted lt key l).
Proof.
  unfold Py.sorted. induction l as [|x l IH]; simpl; [constructor|].
  now apply insert_strongly_sorted.
Qed.

Lemma lt_irrefl (a : K) : lt a a = false.
Proof.
  destruct (lt a a) eqn:E; [|reflexivity].
  pose proof (lt_asym _ _ E) as E'. congruence.
Qed.

Section Stable.
Context (same : K -> K -> bool).
Hypothesis same_eq : forall a b, same a b = true -> a = b.

Lemma insert_filter_same (x : A) (l : list A) (k : K) :
  List.filter (fun y => same (key y) k) (Py.insert_by_key lt key x l) =
  if same (key x) k then x :: List.filter (fun y => same (key y) k) l
  else List.filter (fun y => same (key y) k) l.
Proof.
  induction l as [|y l IH]; simpl; [reflexivity|].
  destruct (lt (key y) (key x)) eqn:E; simpl; [|reflexivity].
  rewrite IH. destruct (same (key y) k) eqn:Ey; [|reflexivity].
  destruct (same (key x) k) eqn:Ex; [|reflexivity].
  apply same_eq in Ex, Ey. rewrite Ex, Ey, lt_irrefl in E. discriminate.
Qed.

(** Elements with the same key keep their order. *)
Lemma sorted_stable (l : list A) (k : K) :
  List.filter (fun y => same (key y) k) (Py.sorted lt key l) =
  List.filter (fun y => same (key y) k) l.
Proof.
  unfold Py.sorted. induction l as [|x l IH]; simpl; [reflexivity|].
  rewrite insert_filter_same, IH. reflexivity.
Qed.

End Stable.

End SortedFacts.

Lemma sorted_ext {A K : Type} (lt : K -> K -> bool) (key key' : A -> K) (l : list A) :
  (forall x, key x = key' x) -> Py.sorted lt key l = Py.sorted lt key' l.
Proof.
  intros Hext. unfold Py.sorted. induction l as [|x l IH]; simpl; [reflexivity|].
  rewrite IH. generalize (foldr (Py.insert_by_key lt key') [] l).
  intros s. induction s as [|y s IHs]; simpl; [reflexivity|].
  now rewrite !Hext, IHs.
Qed.

(** ** The rows of the dashboard *)

Section DashboardRows.
Import BackupStatus.

Lemma syncoid_rows_key results :
  syncoid_rows results =
  Py.sorted String.ltb row_name
    (map (syncoid_row_of results) (results_get results "syncoid_age")).
Proof. apply sorted_ext. now intros [[[[? ?] ?] ?] ?]. Qed.

Lemma restic_rows_key results :
  restic_rows results =
  Py.sorted String.ltb row_name
    (map (restic_row_of results) (results_get results "restic_age")).
Proof. apply sorted_ext. now intros [[[[? ?] ?] ?] ?]. Qed.

Lemma pgbackrest_rows_key results :
  pgbackrest_rows results =
  Py.sorted Py.pair_ltb pgbackrest_key
    (map (pgbackrest_row_of results
            (build_repo_info (results_get results "pgbackrest_repo_info") ∅))
       (results_get results "pgbackrest_age")).
Proof. apply sorted_ext. now intros [[[[[? ?] ?] ?] ?] ?]. Qed.

(** Each section of the dashboard has exactly the rows of its age
  samples, one per sample, in ascending order of the sort key (the
  dataset, the job name, or the repository and then the backup type);
  rows with the same key keep the order of their samples. *)
Theorem dashboard_sections_are_sorted :
  forall results,
    (Permutation (syncoid_rows results)
       (map (syncoid_row_of results) (results_get results "syncoid_age")) /\
     StronglySorted (fun a b => String.ltb (row_name b) (row_name a) = false)
       (syncoid_rows results) /\
     forall name,
       List.filter (fun row => String.eqb (row_name row) name) (syncoid_rows results) =
       List.filter (fun row => String.eqb (row_name row) name)
         (map (syncoid_row_of results) (results_get results "syncoid_age"))) /\
    (Permutation (restic_rows results)
       (map (restic_row_of results) (results_get results "restic_age")) /\
     StronglySorted (fun a b => String.ltb (row_name b) (row_name a) = false)
       (restic_rows results) /\
     forall name,
       List.filter (fun row => String.eqb (row_name row) name) (restic_rows results) =
       List.filter (fun row => String.eqb (row_name row) name)
         (map (restic_row_of results) (results_get results "restic_age"))) /\
    (Permutation (pgbackrest_rows results)
       (map (pgbackrest_row_of results
               (build_repo_info (results_get results "pgbackrest_repo_info") ∅))
          (results_get results "pgbackrest_age")) /\
     StronglySorted
       (fun a b => Py.pair_ltb (pgbackrest_key b) (pgbackrest_key a) = false)
       (pgbackrest_rows results)).
Proof.
  intros results.
  rewrite syncoid_rows_key, restic_rows_key, pgbackrest_rows_key.
  split; [|split]; (split; [apply sorted_permutation|]).
  - split; [apply sorted_strongly_sorted;
            [apply string_ltb_asym | apply string_ltb_negtrans]|].
    intros name.
    apply (sorted_stable String.ltb row_name string_ltb_asym String.eqb).
    intros a b. apply String.eqb_eq.
  - split; [apply sorted_strongly_sorted;
            [apply string_ltb_asym | apply string_ltb_negtrans]|].
    intros name.
    apply (sorted_stable String.ltb row_name string_ltb_asym String.eqb).
    intros a b. apply String.eqb_eq.
  - apply sorted_strongly_sorted; [apply pair_ltb_asym | apply pair_ltb_negtrans].
Qed.

End DashboardRows.

(** ** The verdicts of the dashboard *)

Section DashboardFacts.
Import BackupStatus.

Lemma status_and_details_cells interpret cells current_status age :
  (forall s, In (interpret s) cells) ->
  In (status_and_details interpret current_status age)
     (STALE_cell :: OK_healthy_cell :: cells).
Proof.
  intros Hcells. unfold status_and_details.
  destruct current_status as [s|].
  - pose proof (Hcells s) as Hs. destruct (interpret s) as [st de].
    destruct (Py.float_eq_int s 1); [|now do 2 right].
    unfold get_status_for_age.
    destruct (Py.float_gt_int age (STALE_THRESHOLD_HOURS * 3600));
      [now left | now do 2 right].
  - unfold get_status_for_age.
    destruct (Py.float_gt_int age (STALE_THRESHOLD_HOURS * 3600));
      [now left | right; now left].
Qed.

(** The dashboard has no UNKNOWN: every Syncoid row is FAILED, RUNNING,
  STALE or OK, every Restic row is FAILED, STALE or OK, and every
  pgBackRest row is ERROR, STALE or OK. A job without a status sample
  is therefore OK or STALE on its age alone. *)
Theorem dashboard_has_no_unknown :
  forall results,
    Forall (fun row =>
              In (row_verdict row)
                 [STALE_cell; OK_healthy_cell; FAILED_cell; RUNNING_cell; OK_success_cell])
           (syncoid_rows results) /\
    Forall (fun row =>
              In (row_verdict row)
                 [STALE_cell; OK_healthy_cell; FAILED_cell; OK_success_cell])
           (restic_rows results) /\
    Forall (fun row =>
              In (pgbackrest_verdict row) [ERROR_cell; STALE_cell; OK_healthy_cell])
           (pgbackrest_rows results).
Proof.
  intros results. rewrite !List.Forall_forall.
  split; [|split]; intros row Hrow; apply In_sorted, in_map_iff in Hrow as [res [<- _]].
  - rewrite syncoid_row_verdict. apply status_and_details_cells.
    intros s. unfold get_syncoid_status.
    destruct (Py.float_eq_int s 0); [now left|].
    destruct (Py.float_eq_int s 2); [right; now left | do 2 right; now left].
  - rewrite restic_row_verdict. apply status_and_details_cells.
    intros s. unfold get_restic_status.
    destruct (Py.float_eq_int s 0); [now left | right; now left].
  - rewrite pgbackrest_row_verdict.
    destruct (has_error _ _); [now left|]. right.
    unfold get_status_for_age.
    destruct (Py.float_gt_int _ _); [now left | right; now left].
Qed.

(** In the dashboard a Syncoid status that is none of 0, 1 and 2, and a
  Restic status that is neither 0 nor 1, is reported OK ("Success")
  whatever the age: the age is only examined for status 1. *)
Theorem dashboard_unexpected_status_is_ok :
  (forall results res s,
     syncoid_current_status results res = Some s ->
     Py.float_eq_int s 0 = false -> Py.float_eq_int s 1 = false ->
     Py.float_eq_int s 2 = false ->
     row_verdict (syncoid_row_of results res) = OK_success_cell) /\
  (forall results res s,
     restic_current_status results res = Some s ->
     Py.float_eq_int s 0 = false -> Py.float_eq_int s 1 = false ->
     row_verdict (restic_row_of results res) = OK_success_cell).
Proof.
  split.
  - intros results res s Hs H0 H1 H2. rewrite syncoid_row_verdict, Hs.
    unfold status_and_details, get_syncoid_status. now rewrite H0, H1, H2.
  - intros results res s Hs H0 H1. rewrite restic_row_verdict, Hs.
    unfold status_and_details, get_restic_status. now rewrite H0, H1.
Qed.

Lemma dashboard_unexpected_status_is_ok_witness :
  row_verdict
    (syncoid_row_of
       (Examples.dashboard_results "syncoid_age" "syncoid_status" "dataset"
          "tank/services/sonarr" 999999%float 3%float)
       {| metric := {[ "dataset" := "tank/services/sonarr" ]};
          value := 999999%float |}) = OK_success_cell /\
  row_verdict
    (restic_row_of
       (Examples.dashboard_results "restic_age" "restic_status" "backup_job"
          "system" 999999%float nan)
       {| metric := {[ "backup_job" := "system" ]};
          value := 999999%float |}) = OK_success_cell.
Proof.
  split.
  - apply (proj1 dashboard_unexpected_status_is_ok _ _ 3%float);
      vm_compute; reflexivity.
  - apply (proj2 dashboard_unexpected_status_is_ok _ _ nan);
      vm_compute; reflexivity.
Defined.

Lemma current_status_of_None key name items :
  current_status_of key name items = None <->
  forall item, In item items -> metric item !! key <> Some name.
Proof.
  induction items as [|x items IH]; simpl.
  - split; [intros _ item [] | reflexivity].
  - case_bool_decide as Hx.
    + split; [discriminate | intros H; destruct (H x); auto].
    + rewrite IH. split.
      * intros H item [<- | Hin]; auto.
      * intros H item Hin. apply H. now right.
Qed.

Lemma current_status_of_Some key name items v :
  current_status_of key name items = Some v ->
  exists before item after,
    items = (before ++ item :: after)%list /\
    metric item !! key = Some name /\ value item = v /\
    forall x, In x before -> metric x !! key <> Some name.
Proof.
  induction items as [|x items IH]; simpl; [discriminate|].
  case_bool_decide as Hx.
  - intros [= <-]. exists [], x, items. repeat split; auto; intros ? [].
  - intros Hv. destruct (IH Hv) as (before & item & after & -> & Hk & Hval & Hbefore).
    exists (x :: before), item, after. repeat split; auto.
    intros y [<- | Hy]; auto.
Qed.

Lemma current_status_of_first key name before item after :
  metric item !! key = Some name ->
  (forall x, In x before -> metric x !! key <> Some name) ->
  current_status_of key name (before ++ item :: after) = Some (value item).
Proof.
  intros Hitem. induction before as [|b before IH]; intros Hbefore; cbn.
  - now rewrite bool_decide_eq_true_2.
  - rewrite bool_decide_eq_false_2 by (apply Hbefore; now left).
    apply IH. intros x Hx. apply Hbefore. now right.
Qed.

Lemma current_status_of_iff key name items v :
  current_status_of key name items = Some v <->
  exists before item after,
    items = (before ++ item :: after)%list /\
    metric item !! key = Some name /\ value item = v /\
    forall x, In x before -> metric x !! key <> Some name.
Proof.
  split; [apply current_status_of_Some|].
  intros (before & item & after & -> & Hitem & <- & Hbefore).
  now apply current_status_of_first.
Qed.

(** The current status of a job is the value of the first status
  sample that carries its name, whatever later samples with that name
  say, and the row is judged from it. When no status sample carries
  the name, the row is judged on its age alone: STALE over 26 hours,
  otherwise OK ("Healthy"). *)
Theorem first_status_sample_decides :
  forall results res,
    (forall v,
       syncoid_current_status results res = Some v <->
       exists before item after,
         results_get results "syncoid_status" = (before ++ item :: after)%list /\
         metric item !! "dataset" = Some (label "dataset" "unknown" (metric res)) /\
         value item = v /\
         forall x, In x before ->
           metric x !! "dataset" <> Some (label "dataset" "unknown" (metric res))) /\
    (forall v,
       restic_current_status results res = Some v <->
       exists before item after,
         results_get results "restic_status" = (before ++ item :: after)%list /\
         metric item !! "backup_job" = Some (label "backup_job" "unknown" (metric res)) /\
         value item = v /\
         forall x, In x before ->
           metric x !! "backup_job" <> Some (label "backup_job" "unknown" (metric res))) /\
    row_verdict (syncoid_row_of results res) =
      status_and_details get_syncoid_status
        (syncoid_current_status results res) (value res) /\
    row_verdict (restic_row_of results res) =
      status_and_details get_restic_status
        (restic_current_status results res) (value res) /\
    ((forall item,
        In item (results_get results "syncoid_status") ->
        metric item !! "dataset" <> Some (label "dataset" "unknown" (metric res))) ->
     row_verdict (syncoid_row_of results res) = get_status_for_age (value res) "backup") /\
    ((forall item,
        In item (results_get results "restic_status") ->
        metric item !! "backup_job" <> Some (label "backup_job" "unknown" (metric res))) ->
     row_verdict (restic_row_of results res) = get_status_for_age (value res) "backup").
Proof.
  intros results res.
  split; [intros v; apply current_status_of_iff|].
  split; [intros v; apply current_status_of_iff|].
  split; [apply syncoid_row_verdict|]. split; [apply restic_row_verdict|]. split.
  - intros Hnone. apply current_status_of_None in Hnone.
    rewrite syncoid_row_verdict. unfold syncoid_current_status. now rewrite Hnone.
  - intros Hnone. apply current_status_of_None in Hnone.
    rewrite restic_row_verdict. unfold restic_current_status. now rewrite Hnone.
Qed.

Lemma first_status_sample_decides_witness :
  syncoid_current_status Examples.repeated_status_results
    {| metric := {[ "dataset" := "tank/services/sonarr" ]}; value := 120%float |} =
    Some 0%float /\
  row_verdict
    (syncoid_row_of Examples.repeated_status_results
       {| metric := {[ "dataset" := "tank/services/sonarr" ]};
          value := 120%float |}) = FAILED_cell /\
  row_verdict
    (syncoid_row_of
       (Examples.dashboard_results "syncoid_age" "syncoid_status" "dataset"
          "tank/services/plex" 120%float 0%float)
       {| metric := {[ "dataset" := "tank/services/sonarr" ]};
          value := 120%float |}) = OK_healthy_cell.
Proof.
  destruct (first_status_sample_decides Examples.repeated_status_results
              {| metric := {[ "dataset" := "tank/services/sonarr" ]};
                 value := 120%float |}) as (Hfirst & _ & Hrow & _).
  assert (syncoid_current_status Examples.repeated_status_results
            {| metric := {[ "dataset" := "tank/services/sonarr" ]};
               value := 120%float |} = Some 0%float) as Hstatus.
  { apply Hfirst.
    exists [ {| metric := {[ "dataset" := "tank/services/plex" ]}; value := 1%float |} ],
           {| metric := {[ "dataset" := "tank/services/sonarr" ]}; value := 0%float |},
           [ {| metric := {[ "dataset" := "tank/services/sonarr" ]}; value := 1%float |} ].
    split; [vm_compute; reflexivity|]. split; [vm_compute; reflexivity|].
    split; [reflexivity|].
    intros x [<- | []]. vm_compute. discriminate. }
  split; [exact Hstatus|]. split.
  - rewrite Hrow, Hstatus. vm_compute. reflexivity.
  - rewrite (proj1 (proj2 (proj2 (proj2 (proj2 (first_status_sample_decides
               (Examples.dashboard_results "syncoid_age" "syncoid_status" "dataset"
                  "tank/services/plex" 120%float 0%float)
               {| metric := {[ "dataset" := "tank/services/sonarr" ]};
                  value := 120%float |})))))).
    + vm_compute. reflexivity.
    + intros item Hin. vm_compute in Hin. destruct Hin as [<- | []].
      vm_compute. discriminate.
Defined.

End DashboardFacts.

(** ** The repository names of the dashboard *)

Section RepoInfo.
Import BackupStatus.

Lemma build_repo_info_step res repo_info items :
  build_repo_info (res :: items) repo_info =
  build_repo_info items
    (<[label "repo_key" "unknown" (metric res) := repo_display_of res]> repo_info).
Proof.
  cbn [build_repo_info]. unfold repo_display_of.
  now destruct (Py.str_truthy _).
Qed.

Lemma build_repo_info_silent k items repo_info :
  (forall res, In res items -> label "repo_key" "unknown" (metric res) <> k) ->
  build_repo_info items repo_info !! k = repo_info !! k.
Proof.
  revert repo_info. induction items as [|res items IH]; intros repo_info Hsilent.
  - reflexivity.
  - rewrite build_repo_info_step, IH by (intros r Hr; apply Hsilent; now right).
    apply lookup_insert_ne. apply Hsilent. now left.
Qed.

Lemma build_repo_info_last k before res after repo_info :
  label "repo_key" "unknown" (metric res) = k ->
  (forall r, In r after -> label "repo_key" "unknown" (metric r) <> k) ->
  build_repo_info (before ++ res :: after) repo_info !! k = Some (repo_display_of res).
Proof.
  intros Hk Hafter. revert repo_info.
  induction before as [|b before IH]; intros repo_info.
  - cbn [app]. rewrite build_repo_info_step, build_repo_info_silent by assumption.
    rewrite Hk. apply lookup_insert_eq.
  - cbn [app]. rewrite build_repo_info_step. apply IH.
Qed.

Lemma pgbackrest_display_row results repo_info res :
  pgbackrest_display (pgbackrest_row_of results repo_info res) =
  default ("repo" +:+ label "repo_key" "unknown" (metric res))
    (repo_info !! label "repo_key" "unknown" (metric res)).
Proof.
  unfold pgbackrest_row_of, pgbackrest_display.
  now destruct (if has_error _ _ then _ else _).
Qed.

(** The repository column of a pgBackRest row is what the last info
  sample with the row's repository key says ("name (location)", or the
  name alone), and "repo" followed by the key when no info sample has
  that key. *)
Theorem repository_display_of_rows :
  forall results res,
    let repo := label "repo_key" "unknown" (metric res) in
    let row :=
      pgbackrest_row_of results
        (build_repo_info (results_get results "pgbackrest_repo_info") ∅) res in
    ((forall info,
        In info (results_get results "pgbackrest_repo_info") ->
        label "repo_key" "unknown" (metric info) <> repo) ->
     pgbackrest_display row = "repo" +:+ repo) /\
    (forall before info after,
       results_get results "pgbackrest_repo_info" = (before ++ info :: after)%list ->
       label "repo_key" "unknown" (metric info) = repo ->
       (forall r, In r after -> label "repo_key" "unknown" (metric r) <> repo) ->
       pgbackrest_display row = repo_display_of info).
Proof.
  intros results res repo row. subst row. rewrite pgbackrest_display_row.
  fold repo. split.
  - intros Hsilent. rewrite build_repo_info_silent by assumption.
    now rewrite lookup_empty.
  - intros before info after -> Hk Hafter.
    now rewrite (build_repo_info_last repo before info after ∅ Hk Hafter).
Qed.

Lemma repository_display_of_rows_witness :
  pgbackrest_display
    (pgbackrest_row_of (Examples.pgbackrest_results 10%float false)
       (build_repo_info
          (results_get (Examples.pgbackrest_results 10%float false)
             "pgbackrest_repo_info") ∅)
       {| metric := list_to_map [("repo_key", "1"); ("type", "full")];
          value := 10%float |}) = "repo1" /\
  pgbackrest_display
    (pgbackrest_row_of Examples.pgbackrest_results_with_info
       (build_repo_info
          (results_get Examples.pgbackrest_results_with_info "pgbackrest_repo_info") ∅)
       {| metric := list_to_map [("repo_key", "1"); ("type", "full")];
          value := 10%float |}) = "NFS (nas-1)".
Proof.
  split.
  - refine (proj1 (repository_display_of_rows (Examples.pgbackrest_results 10%float false)
                     {| metric := list_to_map [("repo_key", "1"); ("type", "full")];
                        value := 10%float |}) _).
    intros info Hin. vm_compute in Hin. destruct Hin.
  - refine (proj2 (repository_display_of_rows Examples.pgbackrest_results_with_info
                     {| metric := list_to_map [("repo_key", "1"); ("type", "full")];
                        value := 10%float |})
              [Examples.pgbackrest_first_info; Examples.pgbackrest_other_info]
              Examples.pgbackrest_last_info [] _ _ _).
    + vm_compute. reflexivity.
    + vm_compute. reflexivity.
    + intros r [].
Defined.

End RepoInfo.

(** ** The jobs that the Prometheus acquisition builds *)

Section AcquisitionFacts.
Import SyncoidList.

Lemma dict_mem_In k jobs : dict_mem k jobs = true <-> In k (map fst jobs).
Proof.
  induction jobs as [|[k' v] jobs IH]; simpl; [split; [discriminate | tauto]|].
  rewrite orb_true_iff, IH, String.eqb_eq. intuition congruence.
Qed.

Lemma dict_update_keys k f jobs : map fst (dict_update k f jobs) = map fst jobs.
Proof.
  induction jobs as [|[k' v] jobs IH]; simpl; [reflexivity|].
  destruct (String.eqb k k'); simpl; congruence.
Qed.

Lemma dict_set_keys k v jobs :
  map fst (dict_set k v jobs) =
  if dict_mem k jobs then map fst jobs else (map fst jobs ++ [k])%list.
Proof.
  induction jobs as [|[k' v'] jobs IH]; simpl; [reflexivity|].
  destruct (String.eqb_spec k k') as [->|Hne]; simpl; [reflexivity|].
  rewrite IH. now destruct (dict_mem k jobs).
Qed.

Lemma Forall_dict_set (P : string * Job -> Prop) k v jobs :
  P (k, v) -> Forall P jobs -> Forall P (dict_set k v jobs).
Proof.
  intros Hv. induction 1 as [|[k' v'] jobs Hhd Htl IH]; simpl.
  - constructor; [assumption | constructor].
  - destruct (String.eqb k k'); constructor; auto.
Qed.

Lemma Forall_dict_update (P : string * Job -> Prop) k f jobs :
  (forall v, P (k, v) -> P (k, f v)) ->
  Forall P jobs -> Forall P (dict_update k f jobs).
Proof.
  intros Hf. induction 1 as [|[k' v'] jobs Hhd Htl IH]; simpl; [constructor|].
  destruct (String.eqb_spec k k') as [->|Hne]; constructor; auto.
Qed.

Lemma discover_jobs_Forall (P : string * Job -> Prop) items jobs :
  (forall item,
     In item items ->
     label "dataset" (metric item) <> "" ->
     forall j, dataset j = label "dataset" (metric item) ->
               status j = None -> last_success j = None ->
               P (label "dataset" (metric item), j)) ->
  Forall P jobs -> Forall P (discover_jobs items jobs).
Proof.
  revert jobs. induction items as [|item items IH]; intros jobs Hnew Hjobs; simpl.
  - assumption.
  - assert (forall i, In i items -> label "dataset" (metric i) <> "" ->
              forall j, dataset j = label "dataset" (metric i) ->
                        status j = None -> last_success j = None ->
                        P (label "dataset" (metric i), j)) as Hrest
      by (intros i Hi; apply Hnew; now right).
    unfold Py.str_truthy. rewrite negb_involutive.
    destruct (String.eqb_spec (label "dataset" (metric item)) "") as [He|Hne].
    + now apply IH.
    + apply IH; [assumption|]. apply Forall_dict_set; [|assumption].
      apply Hnew; auto. now left.
Qed.

Lemma discover_jobs_keys items jobs d :
  In d (map fst (discover_jobs items jobs)) <->
  In d (map fst jobs) \/
  (d <> "" /\ exists item, In item items /\ label "dataset" (metric item) = d).
Proof.
  revert jobs. induction items as [|item items IH]; intros jobs; simpl.
  - split; [auto | intros [H | (_ & item & [] & _)]; exact H].
  - unfold Py.str_truthy. rewrite negb_involutive.
    destruct (String.eqb_spec (label "dataset" (metric item)) "") as [He|Hne].
    + rewrite IH. split; (intros [H | (Hd & i & Hi & Hl)]; [now left | right]).
      * split; [assumption|]. exists i. auto.
      * split; [assumption|]. exists i. split; [|assumption].
        destruct Hi as [<- | Hi]; [congruence | assumption].
    + rewrite IH, dict_set_keys.
      destruct (dict_mem _ jobs) eqn:Emem.
      * apply dict_mem_In in Emem.
        split; (intros [H | (Hd & i & Hi & Hl)]; [now left |]).
        -- right. split; [assumption|]. exists i. auto.
        -- destruct Hi as [<- | Hi]; [left; congruence|].
           right. split; [assumption|]. exists i. auto.
      * rewrite in_app_iff. simpl. split.
        -- intros [[H | [<- | []]] | (Hd & i & Hi & Hl)]; [now left | right | right].
           ++ split; [assumption|]. exists item. auto.
           ++ split; [assumption|]. exists i. auto.
        -- intros [H | (Hd & i & [<- | Hi] & Hl)]; [left; now left | left; right; now left|].
           right. split; [assumption|]. exists i. auto.
Qed.

Lemma discover_jobs_NoDup items jobs :
  NoDup (map fst jobs) -> NoDup (map fst (discover_jobs items jobs)).
Proof.
  revert jobs. induction items as [|item items IH]; intros jobs Hnd; simpl.
  - assumption.
  - destruct (negb _); [now apply IH|]. apply IH. rewrite dict_set_keys.
    destruct (dict_mem _ jobs) eqn:Emem; [assumption|].
    apply NoDup_app. split; [assumption|]. split.
    + intros x Hx [Heq | []]%list_elem_of_In. apply list_elem_of_In in Hx.
      apply dict_mem_In in Hx. congruence.
    + apply NoDup_singleton.
Qed.

Lemma fetch_status_keys items jobs jobs' :
  fetch_status items jobs = Return jobs' -> map fst jobs' = map fst jobs.
Proof.
  revert jobs. induction items as [|item items IH]; intros jobs; simpl.
  - now intros [= <-].
  - destruct (dict_mem _ jobs); [|apply IH].
    destruct (int_of_value item) as [n|e].
    + intros H. rewrite (IH _ H). apply dict_update_keys.
    + destruct (swallowed e); [apply IH | discriminate].
Qed.

Lemma fetch_last_success_keys items jobs jobs' :
  fetch_last_success items jobs = Return jobs' -> map fst jobs' = map fst jobs.
Proof.
  revert jobs. induction items as [|item items IH]; intros jobs; simpl.
  - now intros [= <-].
  - destruct (dict_mem _ jobs); [|apply IH].
    destruct (float_of_value item) as [x|e].
    + intros H. rewrite (IH _ H). apply dict_update_keys.
    + destruct (swallowed e); [apply IH | discriminate].
Qed.

Lemma fetch_status_Forall (P : string * Job -> Prop) items jobs jobs' :
  (forall item n v,
     In item items -> int_of_value item = Return n ->
     P (label "dataset" (metric item), v) ->
     P (label "dataset" (metric item), set_status (Some n) v)) ->
  fetch_status items jobs = Return jobs' ->
  Forall P jobs -> Forall P jobs'.
Proof.
  revert jobs. induction items as [|item items IH]; intros jobs Hset; simpl.
  - now intros [= <-].
  - assert (forall i n v, In i items -> int_of_value i = Return n ->
              P (label "dataset" (metric i), v) ->
              P (label "dataset" (metric i), set_status (Some n) v)) as Hrest
      by (intros i n v Hi; apply Hset; now right).
    destruct (dict_mem _ jobs); [|now apply IH].
    destruct (int_of_value item) as [n|e] eqn:En.
    + intros Hrun Hjobs. apply (IH _ Hrest Hrun).
      apply Forall_dict_update; [|assumption].
      intros v. apply Hset; [now left | assumption].
    + destruct (swallowed e); [now apply IH | discriminate].
Qed.

Lemma fetch_last_success_Forall (P : string * Job -> Prop) items jobs jobs' :
  (forall item x v,
     In item items -> float_of_value item = Return x ->
     P (label "dataset" (metric item), v) ->
     P (label "dataset" (metric item), set_last_success (Some x) v)) ->
  fetch_last_success items jobs = Return jobs' ->
  Forall P jobs -> Forall P jobs'.
Proof.
  revert jobs. induction items as [|item items IH]; intros jobs Hset; simpl.
  - now intros [= <-].
  - assert (forall i x v, In i items -> float_of_value i = Return x ->
              P (label "dataset" (metric i), v) ->
              P (label "dataset" (metric i), set_last_success (Some x) v)) as Hrest
      by (intros i x v Hi; apply Hset; now right).
    destruct (dict_mem _ jobs); [|now apply IH].
    destruct (float_of_value item) as [x|e] eqn:Ex.
    + intros Hrun Hjobs. apply (IH _ Hrest Hrun).
      apply Forall_dict_update; [|assumption].
      intros v. apply Hset; [now left | assumption].
    + destruct (swallowed e); [now apply IH | discriminate].
Qed.

(** The shape of a successful acquisition: the jobs are the values of
  a dictionary with the keys of the first loop, and every property of
  entries that the three loops establish or keep holds of it. *)
Lemma acquisition_invariant env base_url api_key info jobs :
  query_prometheus env base_url "syncoid_replication_info" api_key = Some info ->
  get_syncoid_metrics_from_prometheus env base_url api_key = Return jobs ->
  exists dict,
    jobs = dict_values dict /\
    map fst dict = map fst (discover_jobs info []) /\
    forall P : string * Job -> Prop,
      (forall item,
         In item info -> label "dataset" (metric item) <> "" ->
         forall j, dataset j = label "dataset" (metric item) ->
                   status j = None -> last_success j = None ->
                   P (label "dataset" (metric item), j)) ->
      (forall items item n v,
         query_prometheus env base_url "syncoid_replication_status" api_key = Some items ->
         In item items -> int_of_value item = Return n ->
         P (label "dataset" (metric item), v) ->
         P (label "dataset" (metric item), set_status (Some n) v)) ->
      (forall items item x v,
         query_prometheus env base_url
           "syncoid_replication_last_success_timestamp" api_key = Some items ->
         In item items -> float_of_value item = Return x ->
         P (label "dataset" (metric item), v) ->
         P (label "dataset" (metric item), set_last_success (Some x) v)) ->
      Forall P dict.
Proof.
  unfold get_syncoid_metrics_from_prometheus. simpl. intros -> Hrun.
  set (jobs0 := discover_jobs info []) in *.
  destruct (query_prometheus env base_url "syncoid_replication_status" api_key)
    as [sitems|] eqn:Es.
  - destruct (fetch_status sitems jobs0) as [jobs1|] eqn:E1; [|discriminate].
    destruct (query_prometheus env base_url
                "syncoid_replication_last_success_timestamp" api_key)
      as [litems|] eqn:El.
    + destruct (fetch_last_success litems jobs1) as [jobs2|] eqn:E2; [|discriminate].
      injection Hrun as <-. exists jobs2. split; [reflexivity|].
      split; [now rewrite (fetch_last_success_keys _ _ _ E2),
                          (fetch_status_keys _ _ _ E1)|].
      intros P Hnew Hstatus Hlast.
      eapply fetch_last_success_Forall; [|exact E2|].
      * intros; eapply Hlast; eauto.
      * eapply fetch_status_Forall; [|exact E1|].
        -- intros; eapply Hstatus; eauto.
        -- apply discover_jobs_Forall; [assumption | constructor].
    + injection Hrun as <-. exists jobs1. split; [reflexivity|].
      split; [exact (fetch_status_keys _ _ _ E1)|].
      intros P Hnew Hstatus Hlast.
      eapply fetch_status_Forall; [|exact E1|].
      * intros; eapply Hstatus; eauto.
      * apply discover_jobs_Forall; [assumption | constructor].
  - destruct (query_prometheus env base_url
                "syncoid_replication_last_success_timestamp" api_key)
      as [litems|] eqn:El.
    + destruct (fetch_last_success litems jobs0) as [jobs2|] eqn:E2; [|discriminate].
      injection Hrun as <-. exists jobs2. split; [reflexivity|].
      split; [exact (fetch_last_success_keys _ _ _ E2)|].
      intros P Hnew Hstatus Hlast.
      eapply fetch_last_success_Forall; [|exact E2|].
      * intros; eapply Hlast; eauto.
      * apply discover_jobs_Forall; [assumption | constructor].
    + injection Hrun as <-. exists jobs0. split; [reflexivity|].
      split; [reflexivity|].
      intros P Hnew Hstatus Hlast.
      apply discover_jobs_Forall; [assumption | constructor].
Qed.

Lemma keyed_values dict :
  Forall (fun kv : string * Job => dataset kv.2 = kv.1) dict ->
  map dataset (dict_values dict) = map fst dict.
Proof.
  unfold dict_values. induction 1 as [|[k v] dict Hkv _ IH]; simpl; [reflexivity|].
  simpl in Hkv. congruence.
Qed.

(** A successful acquisition has exactly one job for each non-empty
  dataset that a sample of the info metric names: no dataset twice,
  none without an info sample, and none left out. *)
Theorem one_job_per_info_dataset :
  forall env base_url api_key info jobs,
    query_prometheus env base_url "syncoid_replication_info" api_key = Some info ->
    get_syncoid_metrics_from_prometheus env base_url api_key = Return jobs ->
    NoDup (map dataset jobs) /\
    forall d,
      In d (map dataset jobs) <->
      d <> "" /\ exists item, In item info /\ label "dataset" (metric item) = d.
Proof.
  intros env base_url api_key info jobs Hinfo Hrun.
  destruct (acquisition_invariant _ _ _ _ _ Hinfo Hrun) as (dict & -> & Hkeys & Hall).
  rewrite keyed_values, Hkeys.
  - split; [apply discover_jobs_NoDup; constructor|].
    intros d. rewrite discover_jobs_keys. simpl. tauto.
  - apply Hall.
    + intros item _ _ j Hj _ _. exact Hj.
    + intros items item n v _ _ _ Hv. exact Hv.
    + intros items item x v _ _ _ Hv. exact Hv.
Qed.

Lemma one_job_per_info_dataset_witness :
  exists jobs,
    get_syncoid_metrics_from_prometheus (Examples.example_env Examples.both_statuses)
      DEFAULT_PROMETHEUS_URL None = Return jobs /\
    map dataset jobs = ["tank/services/sonarr"; "tank/services/plex"] /\
    NoDup (map dataset jobs).
Proof.
  eexists. split; [vm_compute; reflexivity|]. split; [reflexivity|].
  eapply (one_job_per_info_dataset (Examples.example_env Examples.both_statuses)
            DEFAULT_PROMETHEUS_URL None).
  - vm_compute. reflexivity.
  - vm_compute. reflexivity.
Defined.

(** What the conversions of a sample value give. *)
Lemma float_of_value_Return item x :
  float_of_value item = Return x <->
  (value item = Missing /\ x = 0%float) \/
  (exists converted, value item = Elements converted /\
                     converted !! 1%nat = Some (Return x)).
Proof.
  unfold float_of_value. destruct (value item) as [|converted|e].
  - change (Py.float_of_int 0) with 0%float. split.
    + intros [= <-]. now left.
    + intros [[_ ->] | (c & [=] & _)]. reflexivity.
  - destruct (converted !! 1%nat) as [[y|e]|] eqn:E; split;
      try discriminate;
      try (intros [[[=] _] | (c & [= <-] & Hc)]; congruence).
    intros [= <-]. right. eauto.
  - split; [discriminate | intros [[[=] _] | (c & [=] & _)]].
Qed.

Lemma int_of_value_Return item n :
  int_of_value item = Return n <->
  exists x, float_of_value item = Return x /\ Py.int_of_float x = Return n.
Proof.
  unfold int_of_value. destruct (float_of_value item) as [x|e]; split.
  - eauto.
  - now intros (y & [= <-] & Hn).
  - discriminate.
  - intros (y & [=] & _).
Qed.

Lemma set_status_same v : set_status (status v) v = v.
Proof. now destruct v. Qed.

Lemma set_last_success_same v : set_last_success (last_success v) v = v.
Proof. now destruct v. Qed.

Lemma dict_update_absent k f jobs :
  dict_mem k jobs = false -> dict_update k f jobs = jobs.
Proof.
  induction jobs as [|[k' v] jobs IH]; simpl; [reflexivity|].
  destruct (String.eqb k k'); [discriminate|]. intros H. now rewrite IH.
Qed.

(** With distinct keys an update touches every entry of its key. *)
Lemma dict_update_map k f jobs :
  NoDup (map fst jobs) ->
  dict_update k f jobs =
  map (fun kv : string * Job => if String.eqb k kv.1 then (kv.1, f kv.2) else kv) jobs.
Proof.
  induction jobs as [|[k' v] jobs IH]; simpl; [reflexivity|].
  intros Hnd. apply NoDup_cons in Hnd as [Hk' Hnd].
  destruct (String.eqb_spec k k') as [->|Hne].
  - f_equal. rewrite <- (IH Hnd). symmetry. apply dict_update_absent.
    destruct (dict_mem k' jobs) eqn:E; [|reflexivity].
    apply dict_mem_In in E. destruct Hk'. now apply list_elem_of_In.
  - now rewrite IH.
Qed.

Lemma fetch_status_entries items :
  forall jobs jobs',
    NoDup (map fst jobs) ->
    fetch_status items jobs = Return jobs' ->
    jobs' =
      map (fun kv : string * Job =>
             (kv.1, set_status (reading_after int_of_value kv.1 (status kv.2) items) kv.2))
        jobs.
Proof.
  induction items as [|item items IH]; intros jobs jobs' Hnd; cbn [fetch_status].
  - intros [= <-]. symmetry. rewrite <- (map_id jobs) at 2.
    apply map_ext. intros [k v]. cbn. now rewrite set_status_same.
  - assert (forall kv : string * Job,
              dict_mem (label "dataset" (metric item)) jobs = false ->
              In kv jobs ->
              String.eqb (label "dataset" (metric item)) kv.1 = false) as Hother.
    { intros [k v] Hmem Hin. cbn [fst]. apply String.eqb_neq. intros Heq.
      rewrite Heq in Hmem.
      assert (dict_mem k jobs = true) as Hk
        by (apply dict_mem_In, in_map_iff; now exists (k, v)).
      congruence. }
    destruct (dict_mem (label "dataset" (metric item)) jobs) eqn:Emem.
    + destruct (int_of_value item) as [n|e] eqn:Ev.
      * intros Hrun. apply IH in Hrun; [|now rewrite dict_update_keys].
        rewrite Hrun, dict_update_map, map_map by assumption.
        apply map_ext. intros [k v]. cbn [fst snd].
        unfold reading_after. cbn [fold_left]. rewrite Ev.
        destruct (String.eqb (label "dataset" (metric item)) k); reflexivity.
      * destruct (swallowed e); [|discriminate].
        intros Hrun. rewrite (IH _ _ Hnd Hrun).
        apply map_ext. intros [k v]. cbn [fst snd].
        unfold reading_after. cbn [fold_left]. rewrite Ev.
        now destruct (String.eqb (label "dataset" (metric item)) k).
    + intros Hrun. rewrite (IH _ _ Hnd Hrun).
      apply map_ext_in. intros [k v] Hin. cbn [fst snd].
      unfold reading_after. cbn [fold_left].
      pose proof (Hother (k, v) eq_refl Hin) as Hk. cbn [fst] in Hk.
      now rewrite Hk.
Qed.

Lemma fetch_last_success_entries items :
  forall jobs jobs',
    NoDup (map fst jobs) ->
    fetch_last_success items jobs = Return jobs' ->
    jobs' =
      map (fun kv : string * Job =>
             (kv.1,
              set_last_success
                (reading_after float_of_value kv.1 (last_success kv.2) items) kv.2))
        jobs.
Proof.
  induction items as [|item items IH]; intros jobs jobs' Hnd; cbn [fetch_last_success].
  - intros [= <-]. symmetry. rewrite <- (map_id jobs) at 2.
    apply map_ext. intros [k v]. cbn. now rewrite set_last_success_same.
  - assert (forall kv : string * Job,
              dict_mem (label "dataset" (metric item)) jobs = false ->
              In kv jobs ->
              String.eqb (label "dataset" (metric item)) kv.1 = false) as Hother.
    { intros [k v] Hmem Hin. cbn [fst]. apply String.eqb_neq. intros Heq.
      rewrite Heq in Hmem.
      assert (dict_mem k jobs = true) as Hk
        by (apply dict_mem_In, in_map_iff; now exists (k, v)).
      congruence. }
    destruct (dict_mem (label "dataset" (metric item)) jobs) eqn:Emem.
    + destruct (float_of_value item) as [x|e] eqn:Ev.
      * intros Hrun. apply IH in Hrun; [|now rewrite dict_update_keys].
        rewrite Hrun, dict_update_map, map_map by assumption.
        apply map_ext. intros [k v]. cbn [fst snd].
        unfold reading_after. cbn [fold_left]. rewrite Ev.
        destruct (String.eqb (label "dataset" (metric item)) k); reflexivity.
      * destruct (swallowed e); [|discriminate].
        intros Hrun. rewrite (IH _ _ Hnd Hrun).
        apply map_ext. intros [k v]. cbn [fst snd].
        unfold reading_after. cbn [fold_left]. rewrite Ev.
        now destruct (String.eqb (label "dataset" (metric item)) k).
    + intros Hrun. rewrite (IH _ _ Hnd Hrun).
      apply map_ext_in. intros [k v] Hin. cbn [fst snd].
      unfold reading_after. cbn [fold_left].
      pose proof (Hother (k, v) eq_refl Hin) as Hk. cbn [fst] in Hk.
      now rewrite Hk.
Qed.

(** The signals of the jobs of a successful acquisition, as readings
  of the two result vectors. *)
Lemma acquired_signals env base_url api_key jobs j :
  get_syncoid_metrics_from_prometheus env base_url api_key = Return jobs ->
  In j jobs ->
  status j =
    last_reading int_of_value (dataset j)
      (default [] (query_prometheus env base_url "syncoid_replication_status" api_key)) /\
  last_success j =
    last_reading float_of_value (dataset j)
      (default []
         (query_prometheus env base_url
            "syncoid_replication_last_success_timestamp" api_key)).
Proof.
  unfold get_syncoid_metrics_from_prometheus. cbn zeta.
  change (if "info" =? "status" then _ else _)%string with "syncoid_replication_info".
  change (if "status" =? "status" then _ else _)%string with "syncoid_replication_status".
  change (if "last_success" =? "status" then _ else _)%string
    with "syncoid_replication_last_success_timestamp".
  destruct (query_prometheus env base_url "syncoid_replication_info" api_key)
    as [info|]; [|intros [= <-] []].
  set (jobs0 := discover_jobs info []).
  assert (NoDup (map fst jobs0)) as Hnd0 by (apply discover_jobs_NoDup; constructor).
  assert (Forall (fun kv : string * Job =>
                    dataset kv.2 = kv.1 /\ status kv.2 = None /\ last_success kv.2 = None)
            jobs0) as Hnew.
  { apply discover_jobs_Forall; [|constructor]. intros item _ _ v Hd Hs Hl. auto. }
  rewrite List.Forall_forall in Hnew.
  intros Hrun Hj.
  destruct (match query_prometheus env base_url "syncoid_replication_status" api_key with
            | Some items => fetch_status items jobs0
            | None => Return jobs0
            end) as [jobs1|] eqn:E1; [|discriminate].
  assert (jobs1 =
            map (fun kv : string * Job =>
                   (kv.1,
                    set_status
                      (reading_after int_of_value kv.1 (status kv.2)
                         (default []
                            (query_prometheus env base_url
                               "syncoid_replication_status" api_key))) kv.2))
              jobs0) as H1.
  { destruct (query_prometheus env base_url "syncoid_replication_status" api_key)
      as [sitems|]; [now apply fetch_status_entries|].
    injection E1 as <-. exact (fetch_status_entries [] jobs0 jobs0 Hnd0 eq_refl). }
  assert (NoDup (map fst jobs1)) as Hnd1.
  { rewrite H1, map_map. cbn [fst]. exact Hnd0. }
  destruct (match query_prometheus env base_url
                    "syncoid_replication_last_success_timestamp" api_key with
            | Some items => fetch_last_success items jobs1
            | None => Return jobs1
            end) as [jobs2|] eqn:E2; [|discriminate].
  assert (jobs2 =
            map (fun kv : string * Job =>
                   (kv.1,
                    set_last_success
                      (reading_after float_of_value kv.1 (last_success kv.2)
                         (default []
                            (query_prometheus env base_url
                               "syncoid_replication_last_success_timestamp" api_key)))
                      kv.2))
              jobs1) as H2.
  { destruct (query_prometheus env base_url
                "syncoid_replication_last_success_timestamp" api_key)
      as [litems|]; [now apply fetch_last_success_entries|].
    injection E2 as <-. exact (fetch_last_success_entries [] jobs1 jobs1 Hnd1 eq_refl). }
  injection Hrun as <-. unfold dict_values in Hj.
  rewrite H2, H1, !map_map in Hj. apply in_map_iff in Hj as ([k v] & <- & Hkv).
  destruct (Hnew _ Hkv) as (Hd & Hs & Hl). cbn [fst snd] in *.
  cbn [status last_success dataset set_status set_last_success].
  rewrite Hd, Hs, Hl. split; reflexivity.
Qed.

(** Every signal of a job is read off the samples that carry its
  dataset. The status of a job is the reading of the status metric
  for its dataset: what the last sample with that dataset whose value
  converts to an integer gives, and nothing when there is no such
  sample; the last success time is the reading of the last-success
  metric in the same way. A job therefore has a status only if the
  status metric has a sample with the job's dataset, and the status
  is then 0 when that sample has no value entry, and otherwise the
  second element of its value, truncated to an integer. It has a last
  success time only if the last-success metric has a sample with its
  dataset, and the time is then 0.0 when that sample has no value
  entry, and otherwise the second element of its value. *)
Theorem signals_come_from_samples :
  forall env base_url api_key jobs j,
    get_syncoid_metrics_from_prometheus env base_url api_key = Return jobs ->
    In j jobs ->
    status j =
      last_reading int_of_value (dataset j)
        (default []
           (query_prometheus env base_url "syncoid_replication_status" api_key)) /\
    last_success j =
      last_reading float_of_value (dataset j)
        (default []
           (query_prometheus env base_url
              "syncoid_replication_last_success_timestamp" api_key)) /\
    (forall n,
       status j = Some n ->
       exists items item,
         query_prometheus env base_url "syncoid_replication_status" api_key = Some items /\
         In item items /\ label "dataset" (metric item) = dataset j /\
         ((value item = Missing /\ n = 0) \/
          exists converted x,
            value item = Elements converted /\
            converted !! 1%nat = Some (Return x) /\
            Py.int_of_float x = Return n)) /\
    (forall t,
       last_success j = Some t ->
       exists items item,
         query_prometheus env base_url
           "syncoid_replication_last_success_timestamp" api_key = Some items /\
         In item items /\ label "dataset" (metric item) = dataset j /\
         ((value item = Missing /\ t = 0%float) \/
          exists converted,
            value item = Elements converted /\
            converted !! 1%nat = Some (Return t))).
Proof.
  intros env base_url api_key jobs j Hrun Hj.
  destruct (acquired_signals env base_url api_key jobs j Hrun Hj) as [Hstatus Hlast].
  split; [exact Hstatus|]. split; [exact Hlast|]. clear Hstatus Hlast.
  destruct (query_prometheus env base_url "syncoid_replication_info" api_key)
    as [info|] eqn:Hinfo.
  2:{ unfold get_syncoid_metrics_from_prometheus in Hrun. simpl in Hrun.
      rewrite Hinfo in Hrun. injection Hrun as <-. destruct Hj. }
  destruct (acquisition_invariant _ _ _ _ _ Hinfo Hrun) as (dict & -> & _ & Hall).
  unfold dict_values in Hj. apply in_map_iff in Hj as [[k v] [<- Hkv]].
  assert (Forall (fun kv : string * Job =>
    dataset kv.2 = kv.1 /\
    (forall n, status kv.2 = Some n ->
       exists items item,
         query_prometheus env base_url "syncoid_replication_status" api_key = Some items /\
         In item items /\ label "dataset" (metric item) = kv.1 /\
         int_of_value item = Return n) /\
    (forall t, last_success kv.2 = Some t ->
       exists items item,
         query_prometheus env base_url
           "syncoid_replication_last_success_timestamp" api_key = Some items /\
         In item items /\ label "dataset" (metric item) = kv.1 /\
         float_of_value item = Return t)) dict) as HP.
  { apply Hall.
  - intros item _ _ j' Hj' Hsn Hln. simpl.
    split; [assumption|]. rewrite Hsn, Hln. split; intros ?; discriminate.
  - intros items item n v' Hq Hin Hint (Hkey & Hs & Hl). simpl in *.
    split; [assumption|]. split; [|assumption].
    intros n' [= <-]. exists items, item. auto.
  - intros items item x v' Hq Hin Hx (Hkey & Hs & Hl). simpl in *.
    split; [assumption|]. split; [assumption|].
    intros t [= <-]. exists items, item. auto. }
  rewrite List.Forall_forall in HP.
  destruct (HP _ Hkv) as (Hkey & Hs & Hl). simpl in *. rewrite Hkey. split.
  - intros n Hn. destruct (Hs n Hn) as (items & item & Hq & Hin & Hd & Hv).
    exists items, item. split; [assumption|]. split; [assumption|].
    split; [assumption|].
    apply int_of_value_Return in Hv as (x & Hx & Hint).
    apply float_of_value_Return in Hx as [[Hm ->] | (converted & Hc & H1)].
    + left. split; [assumption|]. vm_compute in Hint. congruence.
    + right. eauto.
  - intros t Ht. destruct (Hl t Ht) as (items & item & Hq & Hin & Hd & Hv).
    exists items, item. split; [assumption|]. split; [assumption|].
    split; [assumption|]. now apply float_of_value_Return.
Qed.

Lemma signals_come_from_samples_witness :
  (exists jobs,
     get_syncoid_metrics_from_prometheus
       (Examples.example_env Examples.valueless_status)
       DEFAULT_PROMETHEUS_URL None = Return jobs /\
     map status jobs = [None; Some 0]) /\
  last_reading int_of_value "tank/services/plex" Examples.valueless_status = Some 0 /\
  exists items item,
    query_prometheus (Examples.example_env Examples.valueless_status)
      DEFAULT_PROMETHEUS_URL "syncoid_replication_status" None = Some items /\
    In item items /\
    label "dataset" (metric item) = "tank/services/plex" /\
    ((value item = Missing /\ 0 = 0) \/
     exists converted x,
       value item = Elements converted /\
       converted !! 1%nat = Some (Return x) /\
       Py.int_of_float x = Return 0).
Proof.
  split; [eexists; split; vm_compute; reflexivity|].
  destruct (signals_come_from_samples
              (Examples.example_env Examples.valueless_status)
              DEFAULT_PROMETHEUS_URL None
              [Examples.sonarr_info_only;
               {| dataset := "tank/services/plex";
                  unit_name := "syncoid-tank-services-plex";
                  target_host := "nas-1.holthome.net";
                  target_name := "NFS";
                  target_location := "nas-1";
                  status := Some 0;
                  last_success := Some 1764367254%float;
                  instance := Some "forge.holthome.net:9100";
                  systemd_state := None |}]
              {| dataset := "tank/services/plex";
                 unit_name := "syncoid-tank-services-plex";
                 target_host := "nas-1.holthome.net";
                 target_name := "NFS";
                 target_location := "nas-1";
                 status := Some 0;
                 last_success := Some 1764367254%float;
                 instance := Some "forge.holthome.net:9100";
                 systemd_state := None |})
    as (Hstatus & _ & Honly & _).
  - vm_compute. reflexivity.
  - right. now left.
  - split; [symmetry; exact Hstatus | exact (Honly 0 eq_refl)].
Defined.

Lemma dict_mem_dict_update k k' f jobs :
  dict_mem k (dict_update k' f jobs) = dict_mem k jobs.
Proof.
  induction jobs as [|[k0 v] jobs IH]; simpl; [reflexivity|].
  destruct (String.eqb k' k0); simpl; congruence.
Qed.

Lemma int_of_float_overflow x :
  Py.int_of_float x = Raise OverflowError <-> exists s, Prim2SF x = S754_infinity s.
Proof.
  unfold Py.int_of_float.
  destruct (Prim2SF x) as [s|s| |s m e]; split;
    try discriminate; try (intros [s' H]; discriminate); eauto.
Qed.

Lemma harmless_cons {A} (convert : sample -> outcome A) known item items :
  harmless convert known (item :: items) <->
  (known (label "dataset" (metric item)) ->
   forall e, convert item = Raise e -> swallowed e = true) /\
  harmless convert known items.
Proof. unfold harmless. split; [now inversion 1 | intros []; now constructor]. Qed.

Lemma first_escape_here {A} (convert : sample -> outcome A) known item items e :
  known (label "dataset" (metric item)) -> convert item = Raise e ->
  swallowed e = false ->
  first_escape convert known (item :: items) e.
Proof.
  intros Hk Hc He. split; [assumption|]. exists [], item, items.
  repeat split; try assumption. constructor.
Qed.

Lemma first_escape_later {A} (convert : sample -> outcome A) known item items e :
  (known (label "dataset" (metric item)) ->
   forall e', convert item = Raise e' -> swallowed e' = true) ->
  first_escape convert known items e ->
  first_escape convert known (item :: items) e.
Proof.
  intros Hitem (He & before & x & after & -> & Hb & Hk & Hc).
  split; [assumption|]. exists (item :: before), x, after.
  repeat split; try assumption. now apply harmless_cons.
Qed.

(** A list of samples has no escape when it is harmless, and at most
  one first escape. *)
Lemma harmless_no_escape {A} (convert : sample -> outcome A) known items e :
  harmless convert known items -> ~ first_escape convert known items e.
Proof.
  intros Hall (He & before & x & after & -> & _ & Hk & Hc).
  unfold harmless in Hall. rewrite List.Forall_forall in Hall.
  assert (swallowed e = true) as Hs
    by (apply (Hall x); [apply in_elt | assumption | assumption]).
  congruence.
Qed.

Lemma first_escape_unique {A} (convert : sample -> outcome A) known items e1 e2 :
  first_escape convert known items e1 -> first_escape convert known items e2 ->
  e1 = e2.
Proof.
  induction items as [|item items IH].
  - intros (_ & before & ? & ? & Hnil & _). now destruct before.
  - intros (He1 & b1 & x1 & a1 & E1 & Hb1 & Hk1 & Hc1)
           (He2 & b2 & x2 & a2 & E2 & Hb2 & Hk2 & Hc2).
    destruct b1 as [|y1 b1], b2 as [|y2 b2];
      cbn [app] in E1, E2; injection E1 as Hi1 Hl1; injection E2 as Hi2 Hl2.
    + assert (x1 = x2) as <- by congruence. congruence.
    + assert (y2 = x1) as -> by congruence.
      apply harmless_cons in Hb2 as [Hx _].
      specialize (Hx Hk1 _ Hc1). congruence.
    + assert (y1 = x2) as -> by congruence.
      apply harmless_cons in Hb1 as [Hx _].
      specialize (Hx Hk2 _ Hc2). congruence.
    + apply harmless_cons in Hb1 as [_ Hb1]. apply harmless_cons in Hb2 as [_ Hb2].
      apply IH; (split; [assumption|]).
      * exists b1, x1, a1. auto.
      * exists b2, x2, a2. auto.
Qed.

(** The second loop returns when its samples are harmless and
  otherwise raises their first escape. *)
Lemma fetch_status_outcome (known : string -> Prop) items jobs :
  (forall d, known d <-> dict_mem d jobs = true) ->
  match fetch_status items jobs with
  | Return _ => harmless int_of_value known items
  | Raise e => first_escape int_of_value known items e
  end.
Proof.
  revert jobs. induction items as [|item items IH]; intros jobs Hknown;
    cbn [fetch_status]; [constructor|].
  destruct (dict_mem (label "dataset" (metric item)) jobs) eqn:Emem.
  - destruct (int_of_value item) as [n|e0] eqn:Ev.
    + assert (forall d, known d <->
                dict_mem d (dict_update (label "dataset" (metric item))
                              (set_status (Some n)) jobs) = true) as Hknown'
        by (intros d; now rewrite dict_mem_dict_update).
      specialize (IH _ Hknown').
      destruct (fetch_status items _) as [jobs'|e].
      * apply harmless_cons. split; [intros _ e He; congruence | assumption].
      * apply first_escape_later; [intros _ e' He; congruence | assumption].
    + destruct (swallowed e0) eqn:Es.
      * specialize (IH _ Hknown). destruct (fetch_status items jobs) as [jobs'|e].
        -- apply harmless_cons. split; [intros _ e He; congruence | assumption].
        -- apply first_escape_later; [intros _ e' He; congruence | assumption].
      * apply first_escape_here; [now apply Hknown | assumption | assumption].
  - assert (~ known (label "dataset" (metric item))) as Hunknown
      by (rewrite Hknown; congruence).
    specialize (IH _ Hknown). destruct (fetch_status items jobs) as [jobs'|e].
    + apply harmless_cons. split; [intros Hk; contradiction | assumption].
    + apply first_escape_later; [intros Hk; contradiction | assumption].
Qed.

(** So does the third loop. *)
Lemma fetch_last_success_outcome (known : string -> Prop) items jobs :
  (forall d, known d <-> dict_mem d jobs = true) ->
  match fetch_last_success items jobs with
  | Return _ => harmless float_of_value known items
  | Raise e => first_escape float_of_value known items e
  end.
Proof.
  revert jobs. induction items as [|item items IH]; intros jobs Hknown;
    cbn [fetch_last_success]; [constructor|].
  destruct (dict_mem (label "dataset" (metric item)) jobs) eqn:Emem.
  - destruct (float_of_value item) as [x|e0] eqn:Ev.
    + assert (forall d, known d <->
                dict_mem d (dict_update (label "dataset" (metric item))
                              (set_last_success (Some x)) jobs) = true) as Hknown'
        by (intros d; now rewrite dict_mem_dict_update).
      specialize (IH _ Hknown').
      destruct (fetch_last_success items _) as [jobs'|e].
      * apply harmless_cons. split; [intros _ e He; congruence | assumption].
      * apply first_escape_later; [intros _ e' He; congruence | assumption].
    + destruct (swallowed e0) eqn:Es.
      * specialize (IH _ Hknown).
        destruct (fetch_last_success items jobs) as [jobs'|e].
        -- apply harmless_cons. split; [intros _ e He; congruence | assumption].
        -- apply first_escape_later; [intros _ e' He; congruence | assumption].
      * apply first_escape_here; [now apply Hknown | assumption | assumption].
  - assert (~ known (label "dataset" (metric item))) as Hunknown
      by (rewrite Hknown; congruence).
    specialize (IH _ Hknown). destruct (fetch_last_success items jobs) as [jobs'|e].
    + apply harmless_cons. split; [intros Hk; contradiction | assumption].
    + apply first_escape_later; [intros Hk; contradiction | assumption].
Qed.

(** The failures of the Prometheus acquisition. It raises [e] exactly
  when the info query answers and either the status loop meets a
  first escape [e], or the status loop passes and the last-success
  loop meets a first escape [e]. An escape is a sample, for a dataset
  that the info metric names, on which the conversion of the value
  raises an exception other than [ValueError] and [TypeError]; for the
  value that Prometheus sends, a list, that is [IndexError] when the
  list has fewer than two elements, what [float] raises on its second
  element and, for a status, [OverflowError] when that element is
  infinite. A status that is NaN is skipped. *)
Theorem acquisition_failures :
  forall env base_url api_key,
    (forall e,
       get_syncoid_metrics_from_prometheus env base_url api_key = Raise e <->
       exists info,
         query_prometheus env base_url "syncoid_replication_info" api_key = Some info /\
         ((exists items,
             query_prometheus env base_url "syncoid_replication_status" api_key =
               Some items /\
             first_escape int_of_value (named_by info) items e) \/
          ((forall items,
              query_prometheus env base_url "syncoid_replication_status" api_key =
                Some items ->
              harmless int_of_value (named_by info) items) /\
           exists items,
             query_prometheus env base_url
               "syncoid_replication_last_success_timestamp" api_key = Some items /\
             first_escape float_of_value (named_by info) items e))) /\
    (forall item e,
       float_of_value item = Raise e <->
       value item = Unindexable e \/
       exists converted,
         value item = Elements converted /\
         ((converted !! 1%nat = None /\ e = IndexError) \/
          converted !! 1%nat = Some (Raise e))) /\
    (forall item e,
       int_of_value item = Raise e <->
       float_of_value item = Raise e \/
       exists x,
         float_of_value item = Return x /\
         ((e = OverflowError /\ exists s, Prim2SF x = S754_infinity s) \/
          (e = ValueError /\ Prim2SF x = S754_nan))).
Proof.
  intros env base_url api_key. split; [|split].
  - intros e. unfold get_syncoid_metrics_from_prometheus. simpl.
    destruct (query_prometheus env base_url "syncoid_replication_info" api_key)
      as [info|]; [|split; [discriminate | intros (? & [=] & _)]].
    set (jobs0 := discover_jobs info []).
    assert (forall d, named_by info d <-> dict_mem d jobs0 = true) as Hknown.
    { intros d. unfold named_by, jobs0.
      rewrite dict_mem_In, discover_jobs_keys. simpl. tauto. }
    assert (forall jobs1, map fst jobs1 = map fst jobs0 ->
              forall d, named_by info d <-> dict_mem d jobs1 = true) as Hkeep.
    { intros jobs1 Hkeys d. rewrite Hknown, !dict_mem_In. now rewrite Hkeys. }
    destruct (query_prometheus env base_url "syncoid_replication_status" api_key)
      as [sitems|].
    + pose proof (fetch_status_outcome (named_by info) sitems jobs0 Hknown) as Hs.
      destruct (fetch_status sitems jobs0) as [jobs1|e1] eqn:E1.
      * assert (forall d, named_by info d <-> dict_mem d jobs1 = true) as Hknown1
          by (apply Hkeep; exact (fetch_status_keys _ _ _ E1)).
        destruct (query_prometheus env base_url
                    "syncoid_replication_last_success_timestamp" api_key)
          as [litems|].
        -- pose proof (fetch_last_success_outcome (named_by info) litems jobs1 Hknown1)
             as Hl.
           destruct (fetch_last_success litems jobs1) as [jobs2|e2]; split.
           ++ discriminate.
           ++ intros (info' & [= <-] & [(items & [= <-] & Hesc) |
                                        (_ & items & [= <-] & Hesc)]).
              ** now apply harmless_no_escape in Hesc.
              ** now apply harmless_no_escape in Hesc.
           ++ intros [= <-]. exists info. split; [reflexivity|]. right.
              split; [now intros items [= <-]|]. eauto.
           ++ intros (info' & [= <-] & [(items & [= <-] & Hesc) |
                                        (_ & items & [= <-] & Hesc)]).
              ** now apply harmless_no_escape in Hesc.
              ** f_equal. exact (first_escape_unique _ _ _ _ _ Hl Hesc).
        -- split; [discriminate|].
           intros (info' & [= <-] & [(items & [= <-] & Hesc) | (_ & items & [=] & _)]).
           now apply harmless_no_escape in Hesc.
      * split.
        -- intros [= <-]. exists info. split; [reflexivity|]. left. eauto.
        -- intros (info' & [= <-] & [(items & [= <-] & Hesc) | (Hpass & _)]).
           ++ f_equal. exact (first_escape_unique _ _ _ _ _ Hs Hesc).
           ++ specialize (Hpass sitems eq_refl).
              now apply harmless_no_escape in Hs.
    + destruct (query_prometheus env base_url
                  "syncoid_replication_last_success_timestamp" api_key)
        as [litems|].
      * pose proof (fetch_last_success_outcome (named_by info) litems jobs0 Hknown)
          as Hl.
        destruct (fetch_last_success litems jobs0) as [jobs2|e2]; split.
        -- discriminate.
        -- intros (info' & [= <-] & [(items & [=] & _) | (_ & items & [= <-] & Hesc)]).
           now apply harmless_no_escape in Hesc.
        -- intros [= <-]. exists info. split; [reflexivity|]. right.
           split; [intros items [=]|]. eauto.
        -- intros (info' & [= <-] & [(items & [=] & _) | (_ & items & [= <-] & Hesc)]).
           f_equal. exact (first_escape_unique _ _ _ _ _ Hl Hesc).
      * split; [discriminate|].
        intros (info' & [= <-] & [(items & [=] & _) | (_ & items & [=] & _)]).
  - intros item e. unfold float_of_value. destruct (value item) as [|converted|e0].
    + split; [discriminate | intros [H | (c & H & _)]; discriminate].
    + destruct (converted !! 1%nat) as [[y|e0]|] eqn:E; split.
      * discriminate.
      * intros [H | (c & [= <-] & [[Hn _] | Hr])]; congruence.
      * intros [= <-]. right. eauto.
      * intros [H | (c & [= <-] & [[Hn _] | Hr])]; congruence.
      * intros [= <-]. right. eauto.
      * intros [H | (c & [= <-] & [[_ ->] | Hr])]; congruence.
    + split; [intros [= <-]; now left|].
      intros [[= <-] | (c & H & _)]; [reflexivity | discriminate].
  - intros item e. unfold int_of_value.
    destruct (float_of_value item) as [x|e0].
    + unfold Py.int_of_float. destruct (Prim2SF x) as [s|s| |s m ex] eqn:Ex; split.
      * discriminate.
      * intros [H | (y & [= <-] & [[_ (s' & Hs)] | [_ Hs]])]; congruence.
      * intros [= <-]. right. eauto 7.
      * intros [H | (y & [= <-] & [[-> _] | [_ Hs]])]; congruence.
      * intros [= <-]. right. eauto 7.
      * intros [H | (y & [= <-] & [[_ (s' & Hs)] | [-> _]])]; congruence.
      * discriminate.
      * intros [H | (y & [= <-] & [[_ (s' & Hs)] | [_ Hs]])]; congruence.
    + split; [intros [= <-]; now left|].
      intros [[= <-] | (y & H & _)]; [reflexivity | discriminate].
Qed.

Lemma acquisition_failures_witness :
  get_syncoid_metrics_from_prometheus (Examples.example_env Examples.infinite_status)
    DEFAULT_PROMETHEUS_URL None = Raise OverflowError /\
  get_syncoid_metrics_from_prometheus (Examples.example_env Examples.short_status)
    DEFAULT_PROMETHEUS_URL None = Raise IndexError /\
  get_syncoid_metrics_from_prometheus
    (Examples.with_last_success Examples.short_status
       (Examples.example_env Examples.both_statuses))
    DEFAULT_PROMETHEUS_URL None = Raise IndexError.
Proof.
  assert (named_by Examples.info_samples (label "dataset" Examples.plex_labels))
    as Hplex.
  { split; [discriminate|].
    exists {| metric := Examples.plex_labels; value := Examples.sent 1%float |}.
    split; [right; now left | reflexivity]. }
  assert (forall (v : value_entry) (e : exn),
            swallowed e = false ->
            int_of_value {| metric := Examples.plex_labels; value := v |} = Raise e ->
            first_escape int_of_value (named_by Examples.info_samples)
              [ {| metric := Examples.plex_labels; value := v |} ] e) as Hstatus.
  { intros v e He Hv. split; [exact He|].
    exists [], {| metric := Examples.plex_labels; value := v |}, [].
    split; [reflexivity|]. split; [constructor|]. split; [exact Hplex | exact Hv]. }
  split; [|split].
  - apply (proj2 (proj1 (acquisition_failures
                           (Examples.example_env Examples.infinite_status)
                           DEFAULT_PROMETHEUS_URL None) OverflowError)).
    exists Examples.info_samples. split; [reflexivity|]. left.
    exists Examples.infinite_status. split; [reflexivity|].
    apply Hstatus; [reflexivity | vm_compute; reflexivity].
  - apply (proj2 (proj1 (acquisition_failures
                           (Examples.example_env Examples.short_status)
                           DEFAULT_PROMETHEUS_URL None) IndexError)).
    exists Examples.info_samples. split; [reflexivity|]. left.
    exists Examples.short_status. split; [reflexivity|].
    apply Hstatus; [reflexivity | vm_compute; reflexivity].
  - apply (proj2 (proj1 (acquisition_failures
                           (Examples.with_last_success Examples.short_status
                              (Examples.example_env Examples.both_statuses))
                           DEFAULT_PROMETHEUS_URL None) IndexError)).
    exists Examples.info_samples. split; [reflexivity|]. right. split.
    + intros items [= <-].
      repeat constructor; intros _ e He; vm_compute in He; discriminate.
    + exists Examples.short_status. split; [reflexivity|]. split; [reflexivity|].
      exists [], {| metric := Examples.plex_labels;
                    value := Elements [Return 1764370000%float] |}, [].
      split; [reflexivity|]. split; [constructor|].
      split; [exact Hplex | reflexivity].
Defined.

End AcquisitionFacts.

(** ** The jobs of the verify mode *)

Section VerifyFacts.
Import SyncoidList.

(** In verify mode every job comes from one service and always has a
  status, so it is never UNKNOWN: an activating unit is RUNNING
  whatever its last result; otherwise a unit whose result is "success"
  is OK or STALE; every other unit is FAILED and carries no last
  success time, whatever exit timestamp systemd reports. *)
Theorem verify_mode_verdicts :
  forall env host j w,
    In j (get_syncoid_verify_data env host) ->
    exists svc,
      In svc (discover_syncoid_services env host) /\
      dataset j = svc_dataset svc /\ unit_name j = svc_unit svc /\
      if String.eqb (svc_active_state svc) "activating" then
        verdict (status j) (last_success j) w =
          Return ("RUNNING", "cyan", "Replication in progress")
      else if String.eqb (svc_result svc) "success" then
        verdict (status j) (last_success j) w = Return ("OK", "green", "Healthy") \/
        verdict (status j) (last_success j) w =
          Return ("OK", "green", "Healthy (no timestamp)") \/
        verdict (status j) (last_success j) w = Return STALE_verdict
      else
        last_success j = None /\
        verdict (status j) (last_success j) w = Return FAILED_verdict.
Proof.
  intros env host j w Hj. unfold get_syncoid_verify_data in Hj.
  apply in_map_iff in Hj as [svc [<- Hsvc]]. exists svc.
  split; [assumption|]. split; [reflexivity|]. split; [reflexivity|].
  unfold verify_job. cbn [status last_success].
  destruct (String.eqb (svc_active_state svc) "activating").
  - apply verdict_in_progress.
  - destruct (String.eqb (svc_result svc) "success").
    + rewrite andb_true_r.
      destruct (if Py.str_truthy _ then _ else _) as [t|].
      * rewrite verdict_success_aged.
        destruct (Py.float_gt_int _ _); auto.
      * right. left. apply verdict_success_no_timestamp.
    + rewrite andb_false_r. split; [reflexivity | apply verdict_failed].
Qed.

Lemma verify_mode_verdicts_witness :
  exists svc,
    In svc (discover_syncoid_services (Examples.example_env Examples.both_statuses)
              "forge.holthome.net") /\
    svc_dataset svc = "tank/services/sonarr" /\
    svc_result svc = "exit-code" /\
    verdict (Some 0) None (world_at 1764370000%float) = Return FAILED_verdict.
Proof.
  destruct (verify_mode_verdicts (Examples.example_env Examples.both_statuses)
              "forge.holthome.net"
              (verify_job (Examples.example_env Examples.both_statuses)
                 {| svc_unit := "syncoid-tank-services-sonarr";
                    svc_dataset := "tank/services/sonarr";
                    svc_active_state := "failed";
                    svc_sub_state := "failed";
                    svc_exit_timestamp := "Fri 2025-11-28 16:00:12 EST";
                    svc_result := "exit-code";
                    svc_target_host := Some "nas-1.holthome.net" |})
              (world_at 1764370000%float))
    as (svc & Hin & Hd & Hu & Hv).
  - now left.
  - destruct Hin as [<- | [<- | []]]; [|discriminate Hd].
    eexists. split; [now left|]. split; [reflexivity|]. split; [reflexivity|].
    exact (proj2 Hv).
Defined.

(** In verify mode the target of a job is never empty: it is the host
  that the service replicates to, or "unknown"; and since such a job
  has neither a target name nor a target location, this is what the
  Target column of the table shows. *)
Theorem verify_mode_target :
  forall env host j,
    In j (get_syncoid_verify_data env host) ->
    target_host j <> "" /\ target_display_of j = target_host j.
Proof.
  intros env host j Hj. unfold get_syncoid_verify_data in Hj.
  apply in_map_iff in Hj as [svc [<- _]].
  unfold target_display_of, verify_job. cbn [target_host target_name target_location].
  change (Py.str_truthy "") with false. cbn [andb].
  destruct (svc_target_host svc) as [h|].
  - destruct (Py.str_truthy h) eqn:Eh.
    + rewrite Eh. split; [|reflexivity].
      intros ->. discriminate Eh.
    + split; [discriminate | reflexivity].
  - split; [discriminate | reflexivity].
Qed.

Lemma verify_mode_target_witness :
  target_display_of
    (verify_job (Examples.example_env Examples.both_statuses)
       {| svc_unit := "syncoid-tank-services-sonarr";
          svc_dataset := "tank/services/sonarr";
          svc_active_state := "failed";
          svc_sub_state := "failed";
          svc_exit_timestamp := "Fri 2025-11-28 16:00:12 EST";
          svc_result := "exit-code";
          svc_target_host := Some "nas-1.holthome.net" |}) = "nas-1.holthome.net".
Proof.
  refine (proj2 (verify_mode_target (Examples.example_env Examples.both_statuses)
                   "forge.holthome.net" _ _)).
  now left.
Defined.

End VerifyFacts.

(** ** The filters of syncoid-list, as substring tests *)

Section FilterFacts.
Import SyncoidList.

Lemma app_String (c : ascii) (a b : string) :
  String c a +:+ b = String c (a +:+ b).
Proof. reflexivity. Qed.

Lemma prefix_app (n h : string) :
  String.prefix n h = true <-> exists s, h = n +:+ s.
Proof.
  revert h. induction n as [|c n IH]; intros h.
  - split; [intros _; exists h; reflexivity | intros _; now destruct h].
  - destruct h as [|d h]; simpl.
    + split; [discriminate | intros [s Hs]; discriminate].
    + destruct (ascii_dec c d) as [->|Hne].
      * rewrite IH. split; intros [s Hs]; exists s;
          rewrite app_String in *; congruence.
      * split; [discriminate | intros [s Hs]; rewrite app_String in Hs; congruence].
Qed.

(** [contains] is the substring test. *)
Lemma contains_app (n h : string) :
  Py.contains n h = true <-> exists p s, h = p +:+ n +:+ s.
Proof.
  induction h as [|d h IH]; cbn [Py.contains]; rewrite orb_true_iff, prefix_app.
  - split.
    + intros [[s Hs] | ?]; [|discriminate]. exists "", s. exact Hs.
    + intros (p & s & Hps). left. destruct p; [exists s; exact Hps | discriminate].
  - rewrite IH. split.
    + intros [[s Hs] | (p & s & Hps)]; [exists "", s; exact Hs|].
      exists (String d p), s. rewrite app_String. congruence.
    + intros ([|c p] & s & Hps); [left; exists s; exact Hps|].
      right. exists p, s. rewrite app_String in Hps. congruence.
Qed.

Lemma lower_ascii_idem (c : ascii) : Py.lower_ascii (Py.lower_ascii c) = Py.lower_ascii c.
Proof. destruct c as [[] [] [] [] [] [] [] []]; reflexivity. Qed.

Lemma lower_idem (s : string) : Py.lower (Py.lower s) = Py.lower s.
Proof. induction s as [|c s IH]; simpl; [|rewrite lower_ascii_idem, IH]; reflexivity. Qed.

Lemma lower_ascii_is_ascii (c : ascii) :
  (nat_of_ascii c <? 128)%nat = true ->
  (nat_of_ascii (Py.lower_ascii c) <? 128)%nat = true.
Proof. destruct c as [[] [] [] [] [] [] [] []]; intros H; try reflexivity; exact H. Qed.

Lemma lower_is_ascii (s : string) : is_ascii s = true -> is_ascii (Py.lower s) = true.
Proof.
  unfold is_ascii. induction s as [|c s IH]; [reflexivity|].
  cbn [Py.lower list_ascii_of_string forallb]. rewrite !andb_true_iff.
  intros [Hc Hs]. split; [now apply lower_ascii_is_ascii | now apply IH].
Qed.

Lemma filter_jobs_sublist env needle field jobs :
  sublist (filter_jobs env needle field jobs) jobs.
Proof.
  unfold filter_jobs. induction jobs as [|j jobs IH]; simpl; [constructor|].
  destruct (Py.contains _ _); now constructor.
Qed.

(** A filter keeps exactly the jobs whose field, in lower case, has the
  lower-cased filter text as a substring, and it keeps them in their
  order. On ASCII text, where lower-casing is the one of ASCII, the
  case of the filter text does not matter, and the filter is the
  substring test on the ASCII lower-casings. *)
Theorem filter_is_case_insensitive_substring :
  forall env needle field jobs,
    (forall j,
       In j (filter_jobs env needle field jobs) <->
       In j jobs /\
       exists before after,
         str_lower env (field j) = before +:+ str_lower env needle +:+ after) /\
    sublist (filter_jobs env needle field jobs) jobs /\
    (lowers_ascii env -> is_ascii needle = true ->
     filter_jobs env (Py.lower needle) field jobs = filter_jobs env needle field jobs) /\
    (lowers_ascii env -> is_ascii needle = true ->
     forall j,
       In j jobs -> is_ascii (field j) = true ->
       (In j (filter_jobs env needle field jobs) <->
        exists before after,
          Py.lower (field j) = before +:+ Py.lower needle +:+ after)).
Proof.
  intros env needle field jobs. split; [|split; [|split]].
  - intros j. unfold filter_jobs. rewrite filter_In, contains_app. reflexivity.
  - apply filter_jobs_sublist.
  - intros Hlow Hneedle. unfold filter_jobs.
    now rewrite (Hlow (Py.lower needle)), (Hlow needle), lower_idem
      by (try apply lower_is_ascii; assumption).
  - intros Hlow Hneedle j Hj Hfield. unfold filter_jobs.
    rewrite filter_In, contains_app, (Hlow needle), (Hlow (field j)) by assumption.
    tauto.
Qed.

Lemma filter_is_case_insensitive_substring_witness :
  filter_jobs (Examples.example_env Examples.both_statuses) "plex" dataset
    [Examples.sonarr_info_only; Examples.plex_acquired] =
  filter_jobs (Examples.example_env Examples.both_statuses) "PLEX" dataset
    [Examples.sonarr_info_only; Examples.plex_acquired] /\
  (In Examples.plex_acquired
     (filter_jobs (Examples.example_env Examples.both_statuses) "PLEX" dataset
        [Examples.sonarr_info_only; Examples.plex_acquired]) <->
   exists before after,
     Py.lower (dataset Examples.plex_acquired) = before +:+ Py.lower "PLEX" +:+ after).
Proof.
  destruct (filter_is_case_insensitive_substring
              (Examples.example_env Examples.both_statuses) "PLEX" dataset
              [Examples.sonarr_info_only; Examples.plex_acquired])
    as (_ & _ & Hcase & Hascii).
  split.
  - apply Hcase; [intros s _; reflexivity | reflexivity].
  - apply Hascii; [intros s _; reflexivity | reflexivity | right; now left | reflexivity].
Defined.

Lemma apply_filters_none env args jobs :
  given (arg_dataset args) = false -> given (arg_target args) = false ->
  apply_filters env args jobs = jobs.
Proof. unfold apply_filters. now intros -> ->. Qed.

Lemma apply_filters_sublist env args jobs : sublist (apply_filters env args jobs) jobs.
Proof.
  unfold apply_filters.
  destruct (given (arg_dataset args)), (given (arg_target args));
    try reflexivity; try apply filter_jobs_sublist.
  etransitivity; apply filter_jobs_sublist.
Qed.

End FilterFacts.

(** ** The runs of syncoid-list *)

Section MainFacts.
Import SyncoidList.

(** In JSON mode a run whose acquisition succeeds never fails: it
  exits with status 0 and the last thing it prints is the report,
  which carries the host name and the mode of the acquisition and
  lists the jobs that pass the filters, in their order and with their
  fields unchanged. Without filters these are all the acquired jobs. *)
Theorem json_mode_reports_filtered_jobs :
  forall env args w jobs mode,
    acquired env args = Some (jobs, mode) ->
    arg_json args = true ->
    exists out w',
      main env args w = (Return 0, w') /\
      last (console w') = Some (PrintJson out) /\
      jo_host out = fqdn_of args /\ jo_mode out = mode /\
      map reported_fields (jo_jobs out) =
        map copied_fields (apply_filters env args jobs) /\
      (given (arg_dataset args) = false -> given (arg_target args) = false ->
       map reported_fields (jo_jobs out) = map copied_fields jobs).
Proof.
  intros env args w jobs mode Hacq Hjson.
  rewrite (main_after_acquisition env args w jobs mode Hacq), Hjson.
  set (w1 := after_printing (preamble args) w).
  destruct (json_output_of_spec (apply_filters env args jobs) (fqdn_of args) mode w1)
    as (out & Eout & Hhost & Hmode & Hfields & _).
  unfold print_json_output, bind. rewrite Eout. unfold emit, ret.
  eexists out, _. split; [reflexivity|].
  cbn [console]. split; [apply last_snoc|].
  split; [assumption|]. split; [assumption|]. split; [assumption|].
  intros Hd Ht. now rewrite Hfields, apply_filters_none.
Qed.

Lemma json_mode_reports_filtered_jobs_witness :
  exists out w',
    main (Examples.example_env Examples.both_statuses)
      (Examples.example_args (Some "PLEX") true true)
      (world_at 1764370000%float) = (Return 0, w') /\
    last (console w') = Some (PrintJson out) /\
    jo_mode out = "verify" /\
    map jj_dataset (jo_jobs out) = ["tank/services/plex"].
Proof.
  destruct (json_mode_reports_filtered_jobs
              (Examples.example_env Examples.both_statuses)
              (Examples.example_args (Some "PLEX") true true)
              (world_at 1764370000%float)
              (get_syncoid_verify_data (Examples.example_env Examples.both_statuses)
                 "forge.holthome.net")
              "verify")
    as (out & w' & Hmain & Hlast & _ & Hmode & Hfields & _).
  - reflexivity.
  - reflexivity.
  - exists out, w'. split; [exact Hmain|]. split; [exact Hlast|].
    split; [exact Hmode|].
    vm_compute in Hmain. injection Hmain as <-.
    vm_compute in Hlast. injection Hlast as <-. reflexivity.
Defined.

(** The exit status of a run. When SSH does not connect in verify mode
  the run exits with 1; an exception of the Prometheus acquisition
  escapes from the run. After a successful acquisition the JSON mode
  exits with 0, and the table mode exits with 1 when no job passes the
  filters and otherwise with 0 unless rendering the table raises. *)
Theorem exit_status_of_a_run :
  forall env args w,
    match acquired env args with
    | None =>
        if arg_verify args then (main env args w).1 = Return 1
        else
          exists e,
            get_syncoid_metrics_from_prometheus env
              (arg_prometheus_url args) (arg_api_key args) = Raise e /\
            (main env args w).1 = Raise e
    | Some (jobs, mode) =>
        if arg_json args then (main env args w).1 = Return 0
        else
          match apply_filters env args jobs with
          | [] => (main env args w).1 = Return 1
          | _ :: _ =>
              (main env args w).1 = Return 0 \/ exists e, (main env args w).1 = Raise e
          end
    end.
Proof.
  intros env args w.
  destruct (acquired env args) as [[jobs mode]|] eqn:Hacq.
  - destruct (arg_json args) eqn:Hjson.
    + rewrite (main_after_acquisition env args w jobs mode Hacq), Hjson.
      destruct (json_output_of_spec (apply_filters env args jobs) (fqdn_of args) mode
                  (after_printing (preamble args) w)) as (out & Eout & _).
      unfold print_json_output, bind. rewrite Eout. reflexivity.
    + rewrite (main_after_acquisition env args w jobs mode Hacq), Hjson.
      destruct (apply_filters env args jobs) as [|j rest]; [reflexivity|].
      unfold bind.
      destruct (print_table_output (j :: rest) (source_of args) _) as [[[]|e] w'];
        unfold ret; simpl; eauto.
  - unfold acquired in Hacq. unfold main. fold (fqdn_of args).
    destruct (arg_verify args).
    + unfold warmup_ssh_connection.
      destruct (ssh_echo_ok env (fqdn_of args)) eqn:Essh; [discriminate|].
      unfold bind, ret, emit.
      destruct (arg_json args); reflexivity.
    + destruct (get_syncoid_metrics_from_prometheus env (arg_prometheus_url args)
                  (arg_api_key args)) as [acquired_jobs|e]; [discriminate|].
      exists e. split; [reflexivity|].
      unfold bind, lift, ret, emit.
      destruct (negb (given (arg_api_key args))); reflexivity.
Qed.

End MainFacts.

(** ** The table of syncoid-list *)

Section TableFacts.
Import SyncoidList.

Lemma time_ago_console ts w : console (time_ago ts w).2 = console w.
Proof.
  destruct ts as [ts|]; [|reflexivity].
  unfold time_ago, bind, datetime_now_timestamp, lift, ret.
  repeat match goal with
         | |- context [if ?b then _ else _] => destruct b
         | |- context [Py.int_of_float ?x] => destruct (Py.int_of_float x)
         end; reflexivity.
Qed.

(** The loop of [print_table_output] prints nothing; when it returns,
  the rows are those of the jobs, in their order, and every status
  cell is one of the five texts in its colour. *)
Lemma table_loop_spec jobs stats w r w' :
  table_loop jobs stats w = (r, w') ->
  console w' = console w /\
  match r with
  | Raise _ => True
  | Return (_, rows) =>
      map table_identity rows =
        map (fun j => (shorten_dataset (dataset j), target_display_of j)) jobs /\
      Forall (fun row =>
                exists text colour,
                  In (text, colour) palette /\ table_status row = markup text colour)
             rows
  end.
Proof.
  revert stats w r w'. induction jobs as [|j jobs IH]; intros stats w r w' Hloop.
  - injection Hloop as <- <-. simpl. auto.
  - destruct (verdict_palette (status j) (last_success j) w)
      as (text & colour & details & Hv & Hin).
    destruct (get_status_display_runs (status j) (last_success j) w) as [v Hrun].
    assert (v = (text, colour, details)) as ->
      by (unfold verdict in Hv; rewrite Hrun in Hv; simpl in Hv; congruence).
    cbn [table_loop] in Hloop. unfold bind at 1 in Hloop. rewrite Hrun in Hloop.
    cbv beta iota zeta in Hloop.
    set (w1 := {| clock := clock w; reads := S (reads w); console := console w |}) in *.
    set (stats1 := if decide (is_Some (stats !! Py.lower text)) then _ else _) in *.
    set (ago := match last_success j with Some ts => _ | None => _ end) in *.
    assert (console (ago w1).2 = console w) as Hago.
    { subst ago. destruct (last_success j) as [ts|]; [|reflexivity].
      destruct (Py.float_truthy ts); [exact (time_ago_console _ w1) | reflexivity]. }
    unfold bind at 1 in Hloop. destruct (ago w1) as [[str|e] w2]; cbn [snd] in Hago.
    + unfold bind in Hloop.
      destruct (table_loop jobs stats1 w2) as [r2 w3] eqn:E2.
      destruct (IH _ _ _ _ E2) as [Hcons Hrows].
      destruct r2 as [[stats' rows]|e]; unfold ret in Hloop; injection Hloop as <- <-.
      * split; [congruence|]. destruct Hrows as [Hid Hpal].
        split; [cbn [map]; now rewrite Hid|].
        constructor; [|assumption]. exists text, colour. auto.
      * split; [congruence | exact I].
    + injection Hloop as <- <-. auto.
Qed.

(** The table is printed whole or not at all. For a non-empty job list
  [print_table_output] either raises having printed nothing, or prints
  the table, an empty line, the summary and the footer and nothing
  else; the table has one row per job, in ascending order of the
  dataset, and every status cell is one of the five status texts in
  its colour. *)
Theorem table_is_whole_and_sorted :
  forall jobs source w,
    jobs <> [] ->
    exists ordered,
      Permutation ordered jobs /\
      StronglySorted (fun a b => String.ltb (dataset b) (dataset a) = false) ordered /\
      match print_table_output jobs source w with
      | (Raise _, w') => console w' = console w
      | (Return _, w') =>
          exists rows summary,
            console w' =
              (console w ++
               [ConsolePrintTable rows; ConsolePrint ""; ConsolePrint summary;
                ConsolePrint ("[dim]Data source: " +:+ source +:+
                              " | Stale threshold: 2 hours[/dim]")])%list /\
            map table_identity rows =
              map (fun j => (shorten_dataset (dataset j), target_display_of j)) ordered /\
            Forall (fun row =>
                      exists text colour,
                        In (text, colour) palette /\
                        table_status row = markup text colour)
                   rows
      end.
Proof.
  intros jobs source w Hne.
  exists (Py.sorted String.ltb dataset jobs).
  split; [apply sorted_permutation|].
  split; [apply sorted_strongly_sorted;
          [apply string_ltb_asym | apply string_ltb_negtrans]|].
  destruct jobs as [|j rest]; [contradiction|].
  unfold print_table_output.
  unfold bind at 1.
  destruct (table_loop (Py.sorted String.ltb dataset (j :: rest)) initial_stats w)
    as [r w1] eqn:Eloop.
  destruct (table_loop_spec _ _ _ _ _ Eloop) as [Hcons Hrows].
  destruct r as [[stats rows]|e]; [|assumption].
  destruct Hrows as [Hid Hpal].
  unfold bind, emit, ret. cbn [console].
  eexists rows, _. split; [|split; assumption].
  rewrite Hcons, <- !app_assoc. reflexivity.
Qed.

Lemma table_is_whole_and_sorted_witness :
  exists ordered,
    Permutation ordered [Examples.sonarr_info_only; Examples.plex_acquired] /\
    StronglySorted (fun a b => String.ltb (dataset b) (dataset a) = false) ordered /\
    match print_table_output [Examples.sonarr_info_only; Examples.plex_acquired]
            "ssh://forge.holthome.net" (world_at 1764370000%float) with
    | (Raise _, w') => console w' = console (world_at 1764370000%float)
    | (Return _, w') =>
        exists rows summary,
          console w' =
            (console (world_at 1764370000%float) ++
             [ConsolePrintTable rows; ConsolePrint ""; ConsolePrint summary;
              ConsolePrint ("[dim]Data source: " +:+ "ssh://forge.holthome.net" +:+
                            " | Stale threshold: 2 hours[/dim]")])%list /\
          map table_identity rows =
            map (fun j => (shorten_dataset (dataset j), target_display_of j)) ordered /\
          Forall (fun row =>
                    exists text colour,
                      In (text, colour) palette /\
                      table_status row = markup text colour)
                 rows
    end.
Proof.
  apply (table_is_whole_and_sorted
           [Examples.sonarr_info_only; Examples.plex_acquired]
           "ssh://forge.holthome.net" (world_at 1764370000%float)).
  discriminate.
Defined.

End TableFacts.

(** ** Shortened dataset names *)

Section ShortenFacts.
Import SyncoidList.

Lemma split_nonempty sep s : Py.split sep s <> [].
Proof.
  destruct s as [|c s]; simpl; [discriminate|].
  destruct (Ascii.eqb c sep); [discriminate|].
  destruct (Py.split sep s); discriminate.
Qed.

Lemma split_without_sep sep s :
  ~ In sep (list_ascii_of_string s) -> Py.split sep s = [s].
Proof.
  induction s as [|c s IH]; simpl; [reflexivity|]. intros Hno.
  destruct (Ascii.eqb_spec c sep) as [->|_]; [destruct Hno; now left|].
  rewrite IH by (intros H; apply Hno; now right). reflexivity.
Qed.

Lemma split_at_sep sep a b :
  ~ In sep (list_ascii_of_string a) ->
  Py.split sep (a +:+ String sep b) = a :: Py.split sep b.
Proof.
  induction a as [|c a IH]; intros Hno.
  - change ("" +:+ String sep b) with (String sep b). cbn [Py.split].
    now rewrite Ascii.eqb_refl.
  - rewrite app_String. cbn [Py.split].
    destruct (Ascii.eqb_spec c sep) as [->|_]; [destruct Hno; now left|].
    rewrite IH by (intros H; apply Hno; now right). reflexivity.
Qed.

Lemma split_parts_without_sep sep s :
  Forall (fun part => ~ In sep (list_ascii_of_string part)) (Py.split sep s).
Proof.
  induction s as [|c s IH]; simpl.
  - constructor; [tauto | constructor].
  - destruct (Ascii.eqb_spec c sep) as [->|Hne].
    + constructor; [simpl; tauto | assumption].
    + destruct (Py.split sep s) as [|p ps] eqn:E; [now apply split_nonempty in E|].
      inversion IH as [|? ? Hp Hps]; subst.
      constructor; [|assumption]. simpl. intros [H|H]; [congruence | auto].
Qed.

(** A dataset with at most one slash is shown as it is; a longer one is
  shown as its pool and its last component around "/.../", which
  splits into exactly these three parts, so that shortening a
  shortened name changes nothing. *)
Theorem shorten_dataset_keeps_pool_and_leaf :
  forall d,
    ((length (Py.split "/" d) <= 2)%nat -> shorten_dataset d = d) /\
    ((2 < length (Py.split "/" d))%nat ->
     exists pool leaf,
       head (Py.split "/" d) = Some pool /\ last (Py.split "/" d) = Some leaf /\
       shorten_dataset d = pool +:+ "/.../" +:+ leaf /\
       Py.split "/" (shorten_dataset d) = [pool; "..."; leaf]) /\
    shorten_dataset (shorten_dataset d) = shorten_dataset d.
Proof.
  intros d.
  assert ((2 < length (Py.split "/" d))%nat ->
          exists pool leaf,
            head (Py.split "/" d) = Some pool /\ last (Py.split "/" d) = Some leaf /\
            shorten_dataset d = pool +:+ "/.../" +:+ leaf /\
            Py.split "/" (shorten_dataset d) = [pool; "..."; leaf]) as Hlong.
  { intros Hlen. pose proof (split_parts_without_sep "/" d) as Hparts.
    unfold shorten_dataset.
    destruct (Z.ltb_spec 2 (Z.of_nat (length (Py.split "/" d)))) as [_|Hle]; [|lia].
    destruct (head (Py.split "/" d)) as [pool|] eqn:Ehead;
      [|destruct (Py.split "/" d); [simpl in Hlen; lia | discriminate]].
    destruct (last (Py.split "/" d)) as [leaf|] eqn:Elast;
      [|apply last_None in Elast; rewrite Elast in Hlen; simpl in Hlen; lia].
    exists pool, leaf.
    change (default "" (Some pool)) with pool.
    change (default "" (Some leaf)) with leaf.
    repeat split.
    rewrite List.Forall_forall in Hparts.
    assert (~ In "/"%char (list_ascii_of_string pool)) as Hpool.
    { apply Hparts. apply list_elem_of_In. now apply head_Some_elem_of. }
    assert (~ In "/"%char (list_ascii_of_string leaf)) as Hleaf.
    { apply Hparts. apply list_elem_of_In. now apply last_Some_elem_of. }
    change (pool +:+ "/.../" +:+ leaf)
      with (pool +:+ String "/" ("..." +:+ String "/" leaf)).
    rewrite split_at_sep by assumption.
    rewrite (split_at_sep "/" "..." leaf)
      by (simpl; intros [H|[H|[H|[]]]]; discriminate).
    now rewrite split_without_sep. }
  split; [|split; [exact Hlong|]].
  - intros Hlen. unfold shorten_dataset.
    destruct (Z.ltb_spec 2 (Z.of_nat (length (Py.split "/" d)))) as [Hlt|_];
      [lia | reflexivity].
  - destruct (Nat.lt_ge_cases 2 (length (Py.split "/" d))) as [Hlen|Hlen].
    + destruct (Hlong Hlen) as (pool & leaf & _ & _ & Hs & Hsplit).
      unfold shorten_dataset at 1. rewrite Hsplit. cbn. now rewrite Hs.
    + unfold shorten_dataset at 2 3.
      destruct (Z.ltb_spec 2 (Z.of_nat (length (Py.split "/" d)))) as [Hlt|_];
        [lia|].
      unfold shorten_dataset.
      destruct (Z.ltb_spec 2 (Z.of_nat (length (Py.split "/" d)))) as [Hlt|_];
        [lia | reflexivity].
Qed.

Lemma shorten_dataset_keeps_pool_and_leaf_witness :
  shorten_dataset "tank/services/media/sonarr" = "tank/.../sonarr" /\
  shorten_dataset "tank/backup" = "tank/backup".
Proof.
  split.
  - destruct (proj1 (proj2 (shorten_dataset_keeps_pool_and_leaf
                               "tank/services/media/sonarr")))
      as (pool & leaf & Hpool & Hleaf & Hs & _).
    + vm_compute. lia.
    + rewrite Hs. vm_compute in Hpool, Hleaf.
      injection Hpool as <-. injection Hleaf as <-. reflexivity.
  - apply (proj1 (shorten_dataset_keeps_pool_and_leaf "tank/backup")).
    vm_compute. lia.
Defined.

End ShortenFacts.

(** ** The services that the verify mode discovers *)

Section DiscoverFacts.
Import SyncoidList SyncoidDiscover.

Lemma chars_app a b : chars (a +:+ b) = (chars a ++ chars b)%list.
Proof.
  induction a as [|c a IH]; [reflexivity|].
  rewrite app_String. unfold chars in *. simpl. now rewrite IH.
Qed.

(** Replacing a character by a text without it leaves none. *)
Lemma replace_from_char_absent c new :
  ~ In c (chars new) ->
  forall s skip, ~ In c (chars (replace_from (String c "") new skip s)).
Proof.
  intros Hnew. induction s as [|d s IH]; intros skip; [simpl; tauto|].
  cbn [replace_from]. destruct skip as [|skip]; [|apply IH].
  destruct (String.prefix (String c "") (String d s)) eqn:E.
  - rewrite chars_app, in_app_iff. intros [H|H]; [tauto | exact (IH _ H)].
  - unfold chars. simpl. intros [H|H]; [|exact (IH _ H)]. subst d.
    assert (String.prefix (String c "") (String c s) = true) as E'.
    { apply prefix_app. now exists s. }
    congruence.
Qed.

Lemma In_omap {A B} (f : A -> option B) l y :
  In y (omap f l) <-> exists x, In x l /\ f x = Some y.
Proof.
  induction l as [|a l IH]; simpl.
  - split; [tauto | intros (x & [] & _)].
  - destruct (f a) as [b|] eqn:E; simpl; rewrite IH; split.
    + intros [<-|(x & Hx & Hf)]; eauto.
    + intros (x & [<-|Hx] & Hf); [left; congruence | eauto].
    + intros (x & Hx & Hf); eauto.
    + intros (x & [<-|Hx] & Hf); [congruence | eauto].
Qed.

(** What the loop body makes of a line: it skips a line that is blank
  or whose unit cannot be shown. *)
Lemma service_of_line_spec o host line svc :
  service_of_line o host line = Some svc <->
  str_strip o line <> "" /\
  exists timer rest out err,
    str_split o line = timer :: rest /\
    ssh o host (show_command (replace ".timer" "" timer)) = (0%Z, out, err) /\
    svc =
      {| svc_unit := replace ".timer" "" timer;
         svc_dataset := replace "-" "/" (replace "syncoid-" "" (replace ".timer" "" timer));
         svc_active_state := default "unknown" (shown_property o "ActiveState" out);
         svc_sub_state := default "unknown" (shown_property o "SubState" out);
         svc_exit_timestamp := default "" (shown_property o "ExecMainExitTimestamp" out);
         svc_result := default "unknown" (shown_property o "Result" out);
         svc_target_host :=
           if Py.str_truthy (default "" (shown_property o "ExecStart" out))
           then search_target o (default "" (shown_property o "ExecStart" out))
           else None |}.
Proof.
  unfold service_of_line, Py.str_truthy, run_ssh_command.
  destruct (String.eqb_spec (str_strip o line) "") as [Hblank|Hblank]; cbn [negb].
  { split; [discriminate | intros [H _]; contradiction]. }
  destruct (str_split o line) as [|timer rest].
  { split; [discriminate | intros (_ & ? & ? & ? & ? & [=] & _)]. }
  change ("sudo " +:+ _) with (show_command (replace ".timer" "" timer)).
  destruct (ssh o host (show_command (replace ".timer" "" timer)))
    as [[ret out] err] eqn:E.
  destruct (Z.eqb_spec ret 0) as [->|Hret]; cbn [negb]; split.
  - intros [= <-]. split; [assumption|]. exists timer, rest, out, err. auto.
  - intros (_ & timer' & rest' & out' & err' & [= <- <-] & Hshow & ->).
    rewrite E in Hshow. now injection Hshow as <- <-.
  - discriminate.
  - intros (_ & timer' & rest' & out' & err' & [= <- <-] & Hshow & _).
    rewrite E in Hshow. congruence.
Qed.

Lemma discover_spec o host svc :
  In svc (discover_syncoid_services o host) <->
  exists stdout err line,
    ssh o host list_command = (0%Z, stdout, err) /\
    In line (Py.split "010" (str_strip o stdout)) /\
    service_of_line o host line = Some svc.
Proof.
  unfold discover_syncoid_services, run_ssh_command.
  change ("sudo " +:+ _) with list_command.
  destruct (ssh o host list_command) as [[ret stdout] err].
  destruct (Z.eqb_spec ret 0) as [->|Hret]; cbn [negb].
  - rewrite In_omap. split.
    + intros (line & Hline & Hsvc). now exists stdout, err, line.
    + intros (stdout' & err' & line & [= <- <-] & Hline & Hsvc). eauto.
  - split; [intros [] | intros (? & ? & ? & [= ? _ _] & _); contradiction].
Qed.

Lemma discover_dataset_no_hyphen o host svc :
  In svc (discover_syncoid_services o host) ->
  ~ In "-"%char (chars (svc_dataset svc)).
Proof.
  intros Hsvc. apply discover_spec in Hsvc as (stdout & err & line & _ & _ & Hsvc).
  apply service_of_line_spec in Hsvc as (_ & timer & rest & out & err' & _ & _ & ->).
  cbn [svc_dataset]. apply replace_from_char_absent.
  unfold chars. simpl. intros [H|[]]. discriminate.
Qed.

(** The dataset of a discovered service is the name of its unit
  without "syncoid-" and with a slash for every hyphen. It therefore
  never has a hyphen: a dataset whose own name has one, such as
  tank/services/home-assistant, is reported under another name. *)
Theorem discovered_dataset_has_no_hyphen :
  forall o host svc,
    In svc (discover_syncoid_services o host) ->
    svc_dataset svc = replace "-" "/" (replace "syncoid-" "" (svc_unit svc)) /\
    ~ In "-"%char (chars (svc_dataset svc)).
Proof.
  intros o host svc Hsvc. split; [|now apply (discover_dataset_no_hyphen o host)].
  apply discover_spec in Hsvc as (stdout & err & line & _ & _ & Hsvc).
  now apply service_of_line_spec in Hsvc as (_ & ? & ? & ? & ? & _ & _ & ->).
Qed.

Lemma discovered_dataset_has_no_hyphen_witness :
  map svc_unit (discover_syncoid_services Examples.example_outside "forge.holthome.net") =
    ["syncoid-tank-services-sonarr"; "syncoid-tank-services-home-assistant"] /\
  map svc_dataset (discover_syncoid_services Examples.example_outside "forge.holthome.net") =
    ["tank/services/sonarr"; "tank/services/home/assistant"] /\
  Forall (fun svc => ~ In "-"%char (chars (svc_dataset svc)))
    (discover_syncoid_services Examples.example_outside "forge.holthome.net").
Proof.
  split; [vm_compute; reflexivity|]. split; [vm_compute; reflexivity|].
  apply List.Forall_forall. intros svc Hsvc.
  exact (proj2 (discovered_dataset_has_no_hyphen Examples.example_outside
                  "forge.holthome.net" svc Hsvc)).
Defined.

(** The discovery reports nothing when the command that lists the
  timers fails. Otherwise it reports exactly the services of the
  lines of the stripped output of that command that are not blank and
  whose unit can be shown: the unit is the first word of the line
  without ".timer", the command that shows this unit has returned 0,
  and the states, the exit time and the result of the service are the
  properties of that name in its output, "unknown" (the exit time:
  empty) when the output has no such property; the target host is
  what the pattern finds in the property ExecStart. Both commands run
  under sudo. *)
Theorem discovered_services_were_shown :
  forall o host,
    ((ssh o host list_command).1.1 <> 0%Z -> discover_syncoid_services o host = []) /\
    forall svc,
      In svc (discover_syncoid_services o host) <->
      exists stdout err line timer rest out err',
        ssh o host list_command = (0%Z, stdout, err) /\
        In line (Py.split "010" (str_strip o stdout)) /\
        str_strip o line <> "" /\
        str_split o line = timer :: rest /\
        ssh o host (show_command (replace ".timer" "" timer)) = (0%Z, out, err') /\
        svc =
          {| svc_unit := replace ".timer" "" timer;
             svc_dataset :=
               replace "-" "/" (replace "syncoid-" "" (replace ".timer" "" timer));
             svc_active_state := default "unknown" (shown_property o "ActiveState" out);
             svc_sub_state := default "unknown" (shown_property o "SubState" out);
             svc_exit_timestamp :=
               default "" (shown_property o "ExecMainExitTimestamp" out);
             svc_result := default "unknown" (shown_property o "Result" out);
             svc_target_host :=
               if Py.str_truthy (default "" (shown_property o "ExecStart" out))
               then search_target o (default "" (shown_property o "ExecStart" out))
               else None |}.
Proof.
  intros o host. split.
  - unfold discover_syncoid_services, run_ssh_command.
    change ("sudo " +:+ _) with list_command.
    destruct (ssh o host list_command) as [[ret stdout] err]. cbn [fst].
    now destruct (Z.eqb_spec ret 0).
  - intros svc. rewrite discover_spec. split.
    + intros (stdout & err & line & Hlist & Hline & Hsvc).
      apply service_of_line_spec in Hsvc
        as (Hblank & timer & rest & out & err' & Hsplit & Hshow & Hrecord).
      exists stdout, err, line, timer, rest, out, err'. auto 7.
    + intros (stdout & err & line & timer & rest & out & err' &
              Hlist & Hline & Hblank & Hsplit & Hshow & Hrecord).
      exists stdout, err, line. split; [assumption|]. split; [assumption|].
      apply service_of_line_spec. split; [assumption|].
      exists timer, rest, out, err'. auto.
Qed.

Lemma discovered_services_were_shown_witness :
  discover_syncoid_services
    {| ssh := fun _ _ => (255%Z, "", "Connection refused");
       str_strip := Examples.strip;
       str_split := Examples.split_whitespace;
       search_target := Examples.search_target false |} "forge.holthome.net" = [] /\
  In {| svc_unit := "syncoid-tank-services-sonarr";
        svc_dataset := "tank/services/sonarr";
        svc_active_state := "inactive";
        svc_sub_state := "dead";
        svc_exit_timestamp := "Fri 2025-11-28 17:00:54 EST";
        svc_result := "success";
        svc_target_host := Some "nas-1.holthome.net" |}
     (discover_syncoid_services Examples.example_outside "forge.holthome.net").
Proof.
  split.
  - apply (proj1 (discovered_services_were_shown
                    {| ssh := fun _ _ => (255%Z, "", "Connection refused");
                       str_strip := Examples.strip;
                       str_split := Examples.split_whitespace;
                       search_target := Examples.search_target false |}
                    "forge.holthome.net")).
    discriminate.
  - apply (proj2 (discovered_services_were_shown Examples.example_outside
                    "forge.holthome.net")).
    eexists _, _,
      "syncoid-tank-services-sonarr.timer loaded active waiting Syncoid ZFS replication",
      "syncoid-tank-services-sonarr.timer",
      ["loaded"; "active"; "waiting"; "Syncoid"; "ZFS"; "replication"], _, _.
    split; [reflexivity|]. split; [vm_compute; now left|].
    split; [vm_compute; discriminate|]. split; [vm_compute; reflexivity|].
    split; [reflexivity|]. vm_compute. reflexivity.
Defined.

(** The first "=" of a line splits it. *)
Lemma split1_spec line :
  forall key v,
    split1 "=" line = Some (key, v) <->
    line = key +:+ String "=" v /\ ~ In "="%char (chars key).
Proof.
  induction line as [|c line IH]; intros key v; cbn [split1].
  - split; [discriminate | intros [H _]; destruct key; discriminate].
  - destruct (Ascii.eqb_spec c "=") as [->|Hc].
    + split.
      * intros [= <- <-]. split; [reflexivity | simpl; tauto].
      * intros [H Hno]. destruct key as [|k key].
        -- now injection H as <-.
        -- rewrite app_String in H. injection H as <- _.
           destruct Hno. now left.
    + split.
      * destruct (split1 "=" line) as [[b a]|] eqn:E; [|discriminate].
        intros [= <- <-]. destruct (proj1 (IH b a) eq_refl) as [-> Hno].
        split; [reflexivity|]. unfold chars in *. simpl.
        intros [H|H]; [congruence | exact (Hno H)].
      * intros [H Hno]. destruct key as [|k key]; [injection H as H _; congruence|].
        rewrite app_String in H. injection H as <- ->.
        assert (split1 "=" (key +:+ String "=" v) = Some (key, v)) as ->; [|reflexivity].
        apply IH. split; [reflexivity|].
        intros Hin. apply Hno. unfold chars in *. simpl. now right.
Qed.

Lemma contains_eq_split1 line :
  Py.contains "=" line = true <-> exists key v, split1 "=" line = Some (key, v).
Proof.
  rewrite contains_app. split.
  - intros (p & s & ->). clear. induction p as [|c p (key & v & IH)].
    + exists "", s. change ("" +:+ "=" +:+ s) with (String "=" s). cbn [split1].
      now rewrite Ascii.eqb_refl.
    + rewrite app_String. cbn [split1]. destruct (Ascii.eqb c "="); [eauto|].
      rewrite IH. eauto.
  - intros (key & v & H). apply split1_spec in H as [-> _]. now exists key, v.
Qed.

(** The line [key=v]. *)
Lemma parse_props_step line lines props :
  parse_props (line :: lines) props =
  parse_props lines
    (match split1 "=" line with
     | Some (key, v) => <[key := v]> props
     | None => props
     end).
Proof.
  cbn [parse_props]. destruct (Py.contains "=" line) eqn:E.
  - now destruct (split1 "=" line) as [[key v]|].
  - destruct (split1 "=" line) as [[key v]|] eqn:E'; [|reflexivity].
    assert (Py.contains "=" line = true) by (apply contains_eq_split1; eauto).
    congruence.
Qed.

Lemma parse_props_silent key lines props :
  (forall line v, In line lines -> split1 "=" line <> Some (key, v)) ->
  parse_props lines props !! key = props !! key.
Proof.
  revert props. induction lines as [|line lines IH]; intros props Hsilent.
  - reflexivity.
  - rewrite parse_props_step, IH by (intros l v Hl; apply Hsilent; now right).
    destruct (split1 "=" line) as [[k v]|] eqn:E; [|reflexivity].
    apply lookup_insert_ne. intros ->. apply (Hsilent line v); [now left | assumption].
Qed.

Lemma parse_props_last key v before line after props :
  split1 "=" line = Some (key, v) ->
  (forall l v', In l after -> split1 "=" l <> Some (key, v')) ->
  parse_props (before ++ line :: after) props !! key = Some v.
Proof.
  intros Hline Hafter. revert props.
  induction before as [|b before IH]; intros props.
  - cbn [app]. rewrite parse_props_step, parse_props_silent, Hline by assumption.
    apply lookup_insert_eq.
  - cbn [app]. rewrite parse_props_step. apply IH.
Qed.

Lemma parse_props_Some key v lines props :
  parse_props lines props !! key = Some v ->
  (props !! key = Some v /\
   forall l v', In l lines -> split1 "=" l <> Some (key, v')) \/
  exists before line after,
    lines = (before ++ line :: after)%list /\
    split1 "=" line = Some (key, v) /\
    forall l v', In l after -> split1 "=" l <> Some (key, v').
Proof.
  revert props. induction lines as [|line lines IH]; intros props.
  - intros H. left. split; [assumption | intros l v' []].
  - rewrite parse_props_step. intros H.
    destruct (IH _ H) as [[Hprops Hsilent] | (before & l & after & -> & Hl & Hafter)].
    + destruct (split1 "=" line) as [[k v0]|] eqn:E.
      * destruct (decide (k = key)) as [->|Hne].
        -- rewrite lookup_insert_eq in Hprops. injection Hprops as ->.
           right. exists [], line, lines. auto.
        -- rewrite lookup_insert_ne in Hprops by assumption.
           left. split; [assumption|].
           intros l v' [<- | Hl]; [congruence | now apply Hsilent].
      * left. split; [assumption|].
        intros l v' [<- | Hl]; [congruence | now apply Hsilent].
    + right. exists (line :: before), l, after. auto.
Qed.

(** A property of a unit is read from the last line of the stripped
  output of [systemctl show] that starts with its name and "=": its
  value is the rest of that line, whatever it holds. Lines without
  "=" are passed over. *)
Theorem shown_property_is_last_line :
  forall o key out v,
    shown_property o key out = Some v <->
    ~ In "="%char (chars key) /\
    exists before after,
      Py.split "010" (str_strip o out) =
        (before ++ (key +:+ String "=" v) :: after)%list /\
      forall l, In l after -> forall v', l <> key +:+ String "=" v'.
Proof.
  intros o key out v. unfold shown_property. split.
  - intros H. apply parse_props_Some in H
      as [[Hempty _] | (before & line & after & Hlines & Hline & Hafter)];
      [now rewrite lookup_empty in Hempty|].
    apply split1_spec in Hline as [-> Hkey]. split; [assumption|].
    exists before, after. split; [assumption|].
    intros l Hl v' ->. apply (Hafter _ v' Hl). now apply split1_spec.
  - intros (Hkey & before & after & -> & Hafter).
    apply parse_props_last; [now apply split1_spec|].
    intros l v' Hl Hsplit. apply split1_spec in Hsplit as [-> _].
    now apply (Hafter _ Hl v').
Qed.

Lemma shown_property_is_last_line_witness :
  shown_property Examples.example_outside "Result"
    (Examples.example_ssh "forge.holthome.net"
       (show_command "syncoid-tank-services-home-assistant")).1.2 = Some "exit-code".
Proof.
  apply (proj2 (shown_property_is_last_line Examples.example_outside "Result" _
                  "exit-code")).
  split; [vm_compute; intuition discriminate|].
  eexists [_; _; _; _], [_]. split; [vm_compute; reflexivity|].
  intros l [<- | []] v'. destruct v'; discriminate.
Defined.

Lemma contains_chars n h :
  Py.contains n h = true -> forall c, In c (chars n) -> In c (chars h).
Proof.
  rewrite contains_app. intros (p & s & ->) c Hc.
  rewrite !chars_app, !in_app_iff. auto.
Qed.

Lemma lower_ascii_hyphen c : Py.lower_ascii c = "-"%char <-> c = "-"%char.
Proof.
  destruct c as [[] [] [] [] [] [] [] []]; split; intros H;
    try reflexivity; try discriminate H.
Qed.

Lemma lower_keeps_hyphen s :
  In "-"%char (chars (Py.lower s)) <-> In "-"%char (chars s).
Proof.
  unfold chars. induction s as [|c s IH]; [reflexivity|].
  cbn [Py.lower list_ascii_of_string In]. rewrite IH, lower_ascii_hyphen. reflexivity.
Qed.

(** In verify mode a dataset filter with a hyphen matches no job,
  since no discovered dataset has one: whatever the host runs, the
  filters leave nothing, and the table mode prints no job and exits
  with status 1. *)
Theorem hyphenated_filter_finds_nothing :
  forall o env args w d,
    lower_keeps env "-" ->
    arg_verify args = true -> arg_dataset args = Some d -> In "-"%char (chars d) ->
    apply_filters (env_over_ssh o env) args
      (get_syncoid_verify_data (env_over_ssh o env) (fqdn_of args)) = [] /\
    (arg_json args = false -> (main (env_over_ssh o env) args w).1 = Return 1).
Proof.
  intros o env args w d Hkeeps Hverify Hdataset Hd.
  assert (given (arg_dataset args) = true) as Hgiven.
  { rewrite Hdataset. cbn [given]. destruct d; [destruct Hd | reflexivity]. }
  assert (apply_filters (env_over_ssh o env) args
            (get_syncoid_verify_data (env_over_ssh o env) (fqdn_of args)) = [])
    as Hempty.
  { apply filters_leave_nothing. left. split; [assumption|].
    intros j Hj. rewrite Hdataset. cbn [default].
    change (str_lower (env_over_ssh o env)) with (str_lower env).
    destruct (Py.contains _ _) eqn:E; [|reflexivity]. exfalso.
    unfold get_syncoid_verify_data in Hj.
    apply in_map_iff in Hj as (svc & <- & Hsvc).
    apply (discover_dataset_no_hyphen o (fqdn_of args) svc Hsvc).
    apply Hkeeps. apply (contains_chars _ _ E). now apply Hkeeps. }
  split; [exact Hempty|]. intros Hjson.
  destruct (acquired (env_over_ssh o env) args) as [[jobs mode]|] eqn:Hacq.
  - rewrite (main_after_acquisition _ args w jobs mode Hacq), Hjson.
    unfold acquired in Hacq. rewrite Hverify in Hacq.
    destruct (ssh_echo_ok _ _); [|discriminate]. injection Hacq as <- <-.
    now rewrite Hempty.
  - unfold acquired in Hacq. rewrite Hverify in Hacq. unfold main.
    fold (fqdn_of args). rewrite Hverify, Hjson. unfold warmup_ssh_connection.
    destruct (ssh_echo_ok (env_over_ssh o env) (fqdn_of args)) eqn:Essh; [discriminate|].
    unfold bind, ret, emit. reflexivity.
Qed.

Lemma hyphenated_filter_finds_nothing_witness :
  map svc_unit
    (discover_syncoid_services Examples.example_outside "forge.holthome.net") =
    ["syncoid-tank-services-sonarr"; "syncoid-tank-services-home-assistant"] /\
  (main (env_over_ssh Examples.example_outside
           (Examples.example_env Examples.both_statuses))
     (Examples.example_args (Some "home-assistant") true false)
     (world_at 1764370000%float)).1 = Return 1.
Proof.
  split; [vm_compute; reflexivity|].
  apply (proj2 (hyphenated_filter_finds_nothing Examples.example_outside
                  (Examples.example_env Examples.both_statuses)
                  (Examples.example_args (Some "home-assistant") true false)
                  (world_at 1764370000%float) "home-assistant"
                  lower_keeps_hyphen eq_refl eq_refl
                  ltac:(vm_compute; tauto))).
  reflexivity.
Defined.

End DiscoverFacts.
